(** * LiteX-CNC etherbone driver ([litexcnc_eth.c], [litexcnc_eth.h])

    A shallow embedding of the driver's board operations
    ([litexcnc_eth_verify_config], [litexcnc_eth_reset],
    [litexcnc_eth_write_config], [litexcnc_eth_read], [litexcnc_eth_write])
    and of the board bring-up ([init_board]), together with the address
    macros of [litexcnc_eth.h], the name dictionary ([dict_lookup],
    [dict_free]) and the component's entry points ([rtapi_app_main],
    [rtapi_app_exit], [close_board]).

    Integers are [Z] with the wrap-around of their C type written out
    ([size_t] is taken as 64 bits wide, [uint32_t] as 32, [int] as 32 bits two's
    complement).  Buffers are [list byte].  Calls that leave the driver
    (etherbone transport, cJSON, registration with the LitexCNC core, logging)
    append an [event] to a trace and take their answer from an [environment]. *)

From Stdlib Require Import ZArith Lia List Ascii String.
From stdpp Require Import base list.
From coqutil Require Import Byte Word.LittleEndianList.
From Equations Require Import Equations.
Import ListNotations.
Local Open Scope Z_scope.

(** Bytes are the 256 constructors of [Init.Byte.byte]; [byte.of_Z] and
    [byte.unsigned] convert from and to [Z]. *)
Abbreviation byte := Init.Byte.byte.

(** ** C integer types *)

Module CInt.

(** Conversion to [size_t] (unsigned, 64 bits). *)
Definition to_size_t (z : Z) : Z := z mod 2 ^ 64.

(** Conversion to [uint32_t]. *)
Definition to_uint32 (z : Z) : Z := z mod 2 ^ 32.

(** Conversion to [int] (two's complement, 32 bits). *)
Definition to_int (z : Z) : Z := (z + 2 ^ 31) mod 2 ^ 32 - 2 ^ 31.

(** [a + b], [a - b], [a * b], [a << n] and [a >> n] on [size_t] operands. *)
Definition size_add (a b : Z) : Z := to_size_t (a + b).

Definition size_sub (a b : Z) : Z := to_size_t (a - b).

Definition size_mul (a b : Z) : Z := to_size_t (a * b).

Definition size_shl (a n : Z) : Z := to_size_t (Z.shiftl a n).

Definition size_shr (a n : Z) : Z := Z.shiftr a n.

End CInt.
Import CInt.

(** ** Byte order

    [memcpy] between a [uint32_t] object and a byte buffer moves the object's
    bytes in host order; [htobe32]/[be32toh] swap them on a little-endian host
    and do nothing on a big-endian one. *)

Module Endian.

Inductive byte_order := HostLittle | HostBig.

Definition be_split (n : nat) (z : Z) : list byte := rev (le_split n z).

Definition be_combine (bs : list byte) : Z := le_combine (rev bs).

(** The bytes of a [uint32_t] object in memory. *)
Definition store32 (host : byte_order) (x : Z) : list byte :=
  match host with
  | HostLittle => le_split 4 x
  | HostBig => be_split 4 x
  end.

(** The value of a [uint32_t] object whose bytes are [bs]. *)
Definition load32 (host : byte_order) (bs : list byte) : Z :=
  match host with
  | HostLittle => le_combine bs
  | HostBig => be_combine bs
  end.

Definition bswap_32 (x : Z) : Z := be_combine (le_split 4 x).

Definition htobe32 (host : byte_order) (x : Z) : Z :=
  match host with
  | HostLittle => bswap_32 x
  | HostBig => to_uint32 x
  end.

Definition be32toh (host : byte_order) (x : Z) : Z := htobe32 host x.

End Endian.
Import Endian.

#[global] Instance byte_eq_decision : EqDecision byte := Byte.byte_eq_dec.

(** [memcpy(&dst[off], src, n)]: the first [n] bytes of [src] overwrite [dst]
    from offset [off].  The length of [dst] never changes; a copy that would
    run past the end of [dst] or of [src] is undefined in C and is cut short
    here, so the theorems below state the lengths they rely on. *)
Definition memcpy (dst : list byte) (off : nat) (src : list byte) (n : nat) : list byte :=
  list_inserts off (take n src) dst.

(** ** Declarations from headers outside the driver's two files *)

(** [litexcnc.h] and [etherbone.h] are not among the sources, so what the
    driver takes from them is a parameter: the three region sizes are the
    [sizeof] constants that the address macros add up, and [etherbone_header]
    is the fixed header template copied in front of the write buffer and of
    the read-request buffer. *)
Record constants := {
  LITEXCNC_HEADER_DATA_READ_SIZE : Z;
  LITEXCNC_RESET_HEADER_SIZE : Z;
  LITEXCNC_CONFIG_HEADER_SIZE : Z;
  etherbone_header : list byte
}.

(** Modelled from the spec: [litexcnc_header_data_read_t] of [litexcnc.h],
    three consecutive 32-bit fields (magic, version, fingerprint), each held
    as the [uint32_t] that [memcpy] leaves in it. *)
Record litexcnc_header_data_read_t := {
  magic : Z;
  header_version : Z;
  header_fingerprint : Z
}.

(** [litexcnc_fpga_t] is declared in [litexcnc.h]; these are the fields that
    the driver reads or writes.  The function pointers are left out;
    [private] is the enclosing [litexcnc_eth_t]. *)
Record litexcnc_fpga_t := {
  comp_id : Z;
  version : Z;
  fingerprint : Z;
  read_buffer : list byte;
  read_buffer_size : Z;
  read_header_size : Z;
  write_buffer : list byte;
  write_buffer_size : Z;
  write_header_size : Z
}.

(** [litexcnc_eth_t] of [litexcnc_eth.h]; [connection] is [None] for a null
    pointer. *)
Record litexcnc_eth_t := {
  hal_param_debug : bool;
  connection : option nat;
  read_request_buffer : list byte;
  fpga : litexcnc_fpga_t
}.

Definition MAX_ETH_BOARDS : Z := 4.

Definition MAX_RESET_RETRIES : Z := 5.

(** Modelled from the spec: the part of cJSON ([cJSON/cJSON.c], not among the
    sources) that [init_board] looks at; a null item is [None]. *)
#[local] Unset Elimination Schemes.
Inductive cJSON :=
| cJSON_Number (valueint : Z)
| cJSON_String (valuestring : option string)
| cJSON_Object (child : list (string * cJSON)).
#[local] Set Elimination Schemes.

Fixpoint get_object_item (items : list (string * cJSON)) (name : string) : option cJSON :=
  match items with
  | [] => None
  | (key, item) :: rest =>
      if String.eqb key name then Some item else get_object_item rest name
  end.

Definition cJSON_GetObjectItemCaseSensitive (object : option cJSON) (name : string)
  : option cJSON :=
  match object with
  | Some (cJSON_Object items) => get_object_item items name
  | _ => None
  end.

Definition cJSON_IsObject (item : option cJSON) : bool :=
  match item with
  | Some (cJSON_Object _) => true
  | _ => false
  end.

Definition cJSON_IsString (item : option cJSON) : bool :=
  match item with
  | Some (cJSON_String _) => true
  | _ => false
  end.

Definition item_valuestring (item : option cJSON) : option string :=
  match item with
  | Some (cJSON_String s) => s
  | _ => None
  end.

(** ** Address macros of [litexcnc_eth.h]

    The macros are sums of [sizeof] constants and [size_t] fields, so they are
    evaluated in [size_t].  Their bodies are not parenthesised, but every use
    in the driver is either a whole argument or followed by [+ (i << 2)], which
    associates the same way. *)

Section Macros.
Variable K : constants.

Definition LITEXCNC_ETH_INIT_DATA_BASE_ADDRESS : Z := 0.

Definition LITEXCNC_ETH_RESET_DATA_BASE_ADDRESS : Z :=
  size_add LITEXCNC_ETH_INIT_DATA_BASE_ADDRESS (LITEXCNC_HEADER_DATA_READ_SIZE K).

Definition LITEXCNC_ETH_CONFIG_DATA_BASE_ADDRESS : Z :=
  size_add LITEXCNC_ETH_RESET_DATA_BASE_ADDRESS (LITEXCNC_RESET_HEADER_SIZE K).

Definition LITEXCNC_ETH_WRITE_DATA_BASE_ADDRESS : Z :=
  size_add LITEXCNC_ETH_CONFIG_DATA_BASE_ADDRESS (LITEXCNC_CONFIG_HEADER_SIZE K).

Definition LITEXCNC_ETH_READ_DATA_BASE_ADDRESS (f : litexcnc_fpga_t) : Z :=
  size_sub (size_add LITEXCNC_ETH_WRITE_DATA_BASE_ADDRESS (write_buffer_size f))
           (write_header_size f).

End Macros.

(** ** The world outside the driver

    Every call that leaves [litexcnc_eth.c] is recorded, in program order, as
    an [event].  What such a call answers is given by an [environment]: a
    function of the events so far, the call being answered included. *)

Inductive event :=
| Call_eb_connect (addr port : string) (is_direct : Z)
| Call_eb_disconnect
| Call_eb_read8 (address size : Z) (debug : bool)
| Call_eb_write8 (address : Z) (data : list byte) (size : Z) (debug : bool)
| Call_eb_wait_for_tx_buffer_empty
| Call_eb_send (data : list byte) (size : Z)
| Call_eb_recv (size : Z)
| Call_usecSleep (usec : Z)
| Call_load_config (path : string)
| Call_cJSON_Delete
| Call_register (config_fingerprint : Z)
| Call_print (msg : string).

Record environment := {
  (* what happens to lie in freshly allocated memory *)
  env_kmalloc : list event -> list byte;
  (* the handle returned by eb_connect, None for a null pointer *)
  env_connect : list event -> option nat;
  (* status and bytes delivered by eb_read8 *)
  env_read8 : list event -> Z * list byte;
  (* status of eb_write8 *)
  env_write8 : list event -> Z;
  (* result of eb_send *)
  env_send : list event -> Z;
  (* count and bytes delivered by eb_recv *)
  env_recv : list event -> Z * list byte;
  (* parsed configuration and its fingerprint *)
  env_load_config : list event -> option cJSON * Z;
  (* status of litexcnc_register and the fpga struct as it leaves it *)
  env_register : list event -> litexcnc_fpga_t -> Z * litexcnc_fpga_t
}.

(** The driver's own state: the board at hand and the file-level variables
    [comp_id] and [boards_count]. *)
Record world := {
  trace : list event;
  driver_comp_id : Z;
  boards_count : Z;
  board : litexcnc_eth_t
}.

(** *** A state monad over [world] *)

Definition M (A : Type) : Type := world -> A * world.

Definition ret {A} (a : A) : M A := fun w => (a, w).

Definition bind {A B} (c : M A) (k : A -> M B) : M B :=
  fun w => let (a, w') := c w in k a w'.

Notation "'let*' x ':=' c 'in' k" := (bind c (fun x => k))
  (at level 10, x name, c at level 100, k at level 200).
Notation "'let*' ' p ':=' c 'in' k" := (bind c (fun x => match x with p => k end))
  (at level 10, p pattern, c at level 100, k at level 200).
Notation "'run*' c 'in' k" := (bind c (fun _ => k))
  (at level 10, c at level 100, k at level 200).

Definition emit (e : event) : M unit :=
  fun w => (tt, {| trace := trace w ++ [e];
                   driver_comp_id := driver_comp_id w;
                   boards_count := boards_count w;
                   board := board w |}).

Definition history : M (list event) := fun w => (trace w, w).

Definition get_board : M litexcnc_eth_t := fun w => (board w, w).

Definition get_comp_id : M Z := fun w => (driver_comp_id w, w).

Definition set_board (b : litexcnc_eth_t) : M unit :=
  fun w => (tt, {| trace := trace w;
                   driver_comp_id := driver_comp_id w;
                   boards_count := boards_count w;
                   board := b |}).

Definition set_fpga (f : litexcnc_fpga_t) : M unit :=
  let* b := get_board in
  set_board {| hal_param_debug := hal_param_debug b;
               connection := connection b;
               read_request_buffer := read_request_buffer b;
               fpga := f |}.

Definition set_connection (c : option nat) : M unit :=
  let* b := get_board in
  set_board {| hal_param_debug := hal_param_debug b;
               connection := c;
               read_request_buffer := read_request_buffer b;
               fpga := fpga b |}.

Definition set_read_request_buffer (buf : list byte) : M unit :=
  let* b := get_board in
  set_board {| hal_param_debug := hal_param_debug b;
               connection := connection b;
               read_request_buffer := buf;
               fpga := fpga b |}.

Definition incr_boards_count : M unit :=
  fun w => (tt, {| trace := trace w;
                   driver_comp_id := driver_comp_id w;
                   boards_count := to_int (boards_count w + 1);
                   board := board w |}).

(** Field updates of [litexcnc_fpga_t]. *)
Definition with_version_fingerprint (f : litexcnc_fpga_t) (v fp : Z) : litexcnc_fpga_t :=
  {| comp_id := comp_id f; version := v; fingerprint := fp;
     read_buffer := read_buffer f; read_buffer_size := read_buffer_size f;
     read_header_size := read_header_size f;
     write_buffer := write_buffer f; write_buffer_size := write_buffer_size f;
     write_header_size := write_header_size f |}.

Definition with_read_buffer (f : litexcnc_fpga_t) (buf : list byte) : litexcnc_fpga_t :=
  {| comp_id := comp_id f; version := version f; fingerprint := fingerprint f;
     read_buffer := buf; read_buffer_size := read_buffer_size f;
     read_header_size := read_header_size f;
     write_buffer := write_buffer f; write_buffer_size := write_buffer_size f;
     write_header_size := write_header_size f |}.

Definition with_write_buffer (f : litexcnc_fpga_t) (buf : list byte) : litexcnc_fpga_t :=
  {| comp_id := comp_id f; version := version f; fingerprint := fingerprint f;
     read_buffer := read_buffer f; read_buffer_size := read_buffer_size f;
     read_header_size := read_header_size f;
     write_buffer := buf; write_buffer_size := write_buffer_size f;
     write_header_size := write_header_size f |}.

Definition with_driver_fields (f : litexcnc_fpga_t) (id rhs whs : Z) : litexcnc_fpga_t :=
  {| comp_id := id; version := version f; fingerprint := fingerprint f;
     read_buffer := read_buffer f; read_buffer_size := read_buffer_size f;
     read_header_size := rhs;
     write_buffer := write_buffer f; write_buffer_size := write_buffer_size f;
     write_header_size := whs |}.

(** ** The driver *)

Section Driver.
Variable E : environment.
Variable K : constants.
Variable host : byte_order.

(** *** Calls out of the driver *)

(** Modelled from the spec: [rtapi_kmalloc] returns [size] bytes whose contents
    are whatever the environment left there. *)
Definition rtapi_kmalloc (size : Z) : M (list byte) :=
  let* h := history in
  ret (resize (Z.to_nat size) Byte.x00 (env_kmalloc E h)).

(** Modelled from the spec: [eb_connect] of [etherbone.c] (not among the
    sources) returns a connection or a null pointer. *)
Definition eb_connect (addr port : string) (is_direct : Z) : M (option nat) :=
  run* emit (Call_eb_connect addr port is_direct) in
  let* h := history in
  ret (env_connect E h).

(** Modelled from the spec: [eb_disconnect] releases the session held in
    [board->connection] and leaves a null pointer there. *)
Definition eb_disconnect : M unit :=
  run* emit Call_eb_disconnect in
  set_connection None.

(** Modelled from the spec: [eb_read8] asks for [size] bytes at [address] and
    copies what the device delivers into [data]. *)
Definition eb_read8 (address : Z) (data : list byte) (size : Z) (debug : bool)
  : M (Z * list byte) :=
  run* emit (Call_eb_read8 address size debug) in
  let* h := history in
  let reply := env_read8 E h in
  ret (to_int (fst reply), memcpy data 0 (snd reply) (Z.to_nat size)).

(** Modelled from the spec: [eb_write8] sends the first [size] bytes of [data]
    to [address]. *)
Definition eb_write8 (address : Z) (data : list byte) (size : Z) (debug : bool) : M Z :=
  run* emit (Call_eb_write8 address (take (Z.to_nat size) data) size debug) in
  let* h := history in
  ret (to_int (env_write8 E h)).

(** Modelled from the spec: [eb_wait_for_tx_buffer_empty] blocks until queued
    outbound data has left. *)
Definition eb_wait_for_tx_buffer_empty : M unit :=
  emit Call_eb_wait_for_tx_buffer_empty.

(** Modelled from the spec: [eb_send] queues the first [size] bytes of a
    buffer. *)
Definition eb_send (data : list byte) (size : Z) : M Z :=
  run* emit (Call_eb_send (take (Z.to_nat size) data) size) in
  let* h := history in
  ret (to_int (env_send E h)).

(** Modelled from the spec: [eb_recv] receives into a buffer of [size] bytes
    and returns the number of bytes received. *)
Definition eb_recv (data : list byte) (size : Z) : M (Z * list byte) :=
  run* emit (Call_eb_recv size) in
  let* h := history in
  let reply := env_recv E h in
  ret (to_int (fst reply), memcpy data 0 (snd reply) (Z.to_nat size)).

Definition usecSleep (usec : Z) : M unit := emit (Call_usecSleep usec).

(** [LITEXCNC_ERR_NO_DEVICE], [LITEXCNC_PRINT_NO_DEVICE], [rtapi_print],
    [rtapi_print_msg] and [fprintf(stderr, ...)]: the format string is kept,
    without its final newline. *)
Definition print (msg : string) : M unit := emit (Call_print msg).

(** Modelled from the spec: [litexcnc_load_config] parses the file into a
    cJSON tree and computes its fingerprint. *)
Definition litexcnc_load_config (config_file : string) : M (option cJSON * Z) :=
  run* emit (Call_load_config config_file) in
  let* h := history in
  ret (env_load_config E h).

Definition cJSON_Delete : M unit := emit Call_cJSON_Delete.

(** Modelled from the spec: [litexcnc_register] of the LitexCNC core works on
    [board->fpga] (it sizes and allocates the cyclic buffers) and returns a
    status. *)
Definition litexcnc_register (config_fingerprint : Z) : M Z :=
  run* emit (Call_register config_fingerprint) in
  let* h := history in
  let* b := get_board in
  let r := env_register E h (fpga b) in
  run* set_fpga (snd r) in
  ret (to_int (fst r)).

(** *** [litexcnc_eth_verify_config] *)

(** [memcpy(&header, read_buffer, sizeof header)] *)
Definition header_of_buffer (read_buffer : list byte) : litexcnc_header_data_read_t :=
  {| magic := load32 host (take 4 read_buffer);
     header_version := load32 host (take 4 (drop 4 read_buffer));
     header_fingerprint := load32 host (take 4 (drop 8 read_buffer)) |}.

Definition litexcnc_eth_verify_config : M Z :=
  let* read_buffer := rtapi_kmalloc (LITEXCNC_HEADER_DATA_READ_SIZE K) in
  let* ' (r, read_buffer) :=
    eb_read8 LITEXCNC_ETH_INIT_DATA_BASE_ADDRESS read_buffer
             (LITEXCNC_HEADER_DATA_READ_SIZE K) false in
  if r <? 0 then
    run* print "Cannot read from FPGA" in
    ret r
  else
    let header := header_of_buffer read_buffer in
    if negb (be32toh host (magic header) =? 0x18052022) then
      run* print "Invalid magic received '%08X'" in
      ret (-1)
    else
      let* b := get_board in
      run* set_fpga (with_version_fingerprint (fpga b)
                       (be32toh host (header_version header))
                       (be32toh host (header_fingerprint header))) in
      ret 0.

(** *** [litexcnc_eth_reset] *)

(** The body of either [while] loop after the retry check: write the flag,
    sleep, read the region back into [buffer], copy it into [reset_status].
    [reset_flag] and [reset_status] are four bytes wide: the two copies are
    those of the source for a [LITEXCNC_RESET_HEADER_SIZE] of at most 4 (the
    statements about the reset fix it at 4); beyond that the source copies
    past the end of both variables. *)
Definition reset_attempt (reset_flag reset_status : Z) (buffer : list byte)
  : M (Z * list byte) :=
  let size := LITEXCNC_RESET_HEADER_SIZE K in
  let buffer := memcpy buffer 0 (store32 host reset_flag) (Z.to_nat size) in
  run* eb_write8 (LITEXCNC_ETH_RESET_DATA_BASE_ADDRESS K) buffer size false in
  run* usecSleep 10 in
  let* ' (_, buffer) := eb_read8 (LITEXCNC_ETH_RESET_DATA_BASE_ADDRESS K) buffer size false in
  let reset_status :=
    load32 host (memcpy (store32 host reset_status) 0 buffer (Z.to_nat size)) in
  ret (reset_status, buffer).

(** [while (reset_flag != reset_status) { if (i > MAX_RESET_RETRIES) { ...
    return -1; } ...; i++; }].  The first component of the result is the value
    returned from inside the loop, [None] when the loop ends normally. *)
Equations? reset_loop (msg : string) (reset_flag i reset_status : Z)
    (buffer : list byte) (w : world)
  : (option Z * Z * list byte) * world
  by wf (Z.to_nat (MAX_RESET_RETRIES + 1 - i)) lt :=
reset_loop msg reset_flag i reset_status buffer w
  with decide (reset_flag <> reset_status) => {
  | right _ := ((None, reset_status, buffer), w);
  | left _ with decide (i > MAX_RESET_RETRIES) => {
    | left _ := ((Some (-1), reset_status, buffer), snd (print msg w));
    | right _ :=
        reset_loop msg reset_flag (i + 1)
          (fst (fst (reset_attempt reset_flag reset_status buffer w)))
          (snd (fst (reset_attempt reset_flag reset_status buffer w)))
          (snd (reset_attempt reset_flag reset_status buffer w)) } }.
Proof. unfold MAX_RESET_RETRIES in *. lia. Qed.

Definition litexcnc_eth_reset : M Z := fun w =>
  let (buffer, w) := rtapi_kmalloc (LITEXCNC_RESET_HEADER_SIZE K) w in
  (* first loop: the reset bit is written to the card *)
  let i := 1 in
  let reset_flag := htobe32 host 0x01 in
  let reset_status := htobe32 host 0x00 in
  match reset_loop "Reset of the card failed after %d times"
                   reset_flag i reset_status buffer w with
  | ((Some r, _, _), w) => (r, w)
  | ((None, reset_status, buffer), w) =>
      (* second loop: the reset procedure is finished *)
      let i := 1 in
      let reset_flag := htobe32 host 0 in
      match reset_loop "FPGA did not respond after reset for %d times"
                       reset_flag i reset_status buffer w with
      | ((Some r, _, _), w) => (r, w)
      | ((None, _, _), w) => (0, w)
      end
  end.

(** *** [litexcnc_eth_write_config] *)

Definition litexcnc_eth_write_config (data : list byte) (size : Z) : M Z :=
  let* b := get_board in
  run* eb_write8 (LITEXCNC_ETH_CONFIG_DATA_BASE_ADDRESS K) data
                 (LITEXCNC_CONFIG_HEADER_SIZE K) (hal_param_debug b) in
  ret 0.

(** *** [litexcnc_eth_read] and [litexcnc_eth_write] *)

Definition litexcnc_eth_read : M Z :=
  let* b := get_board in
  run* eb_wait_for_tx_buffer_empty in
  let* r := eb_send (read_request_buffer b) (read_buffer_size (fpga b)) in
  if r <? 0 then
    run* print "Could not write addresses to read to device `%s`, error code %d" in
    ret (-1)
  else
    let* ' (count, buf) := eb_recv (read_buffer (fpga b)) (read_buffer_size (fpga b)) in
    run* set_fpga (with_read_buffer (fpga b) buf) in
    (* [count] is an int and is converted to size_t for the comparison *)
    if negb (to_size_t count =? read_buffer_size (fpga b)) then
      run* print "Unexpected read length: %d, expected %zu" in
      ret (-1)
    else
      ret 0.

Definition litexcnc_eth_write : M Z :=
  let* b := get_board in
  run* eb_wait_for_tx_buffer_empty in
  let* r := eb_send (write_buffer (fpga b)) (write_buffer_size (fpga b)) in
  if r <? 0 then
    run* print "Could not write data to device `%s`, error code %d" in
    ret (-1)
  else
    ret r.

(** *** [init_board] *)

(** [while( *config_file == ' ' ) config_file++;] *)
Fixpoint skip_spaces (config_file : string) : string :=
  match config_file with
  | String c rest => if Ascii.eqb c " "%char then skip_spaces rest else config_file
  | EmptyString => config_file
  end.

(** [for (size_t i=0; i<words; i++) addresses[i] = htobe32(READ_BASE + (i << 2));]
    ([i < words] keeps [i++] from wrapping.) *)
Equations? fill_addresses (read_base words i : Z) (addresses : list Z) : list Z
  by wf (Z.to_nat (words - i)) lt :=
fill_addresses read_base words i addresses with decide (i < words) => {
  | left _ :=
      fill_addresses read_base words (i + 1)
        (<[Z.to_nat i := htobe32 host (to_uint32 (size_add read_base (size_shl i 2)))]>
           addresses);
  | right _ := addresses }.
Proof. lia. Qed.

(** The label [fail_without_disconnect]. *)
Definition fail_without_disconnect : M Z :=
  run* cJSON_Delete in
  ret (-1).

(** The label [fail_disconnect], which falls through to
    [fail_without_disconnect]. *)
Definition fail_disconnect : M Z :=
  run* eb_disconnect in
  fail_without_disconnect.

(** The header of the write buffer. *)
Definition set_write_buffer_header (f : litexcnc_fpga_t) : list byte :=
  let write_buffer :=
    memcpy (write_buffer f) 0 (etherbone_header K) (length (etherbone_header K)) in
  let write_buffer :=
    <[10%nat := byte.of_Z (size_shr (size_sub (write_buffer_size f) 16) 2)]> write_buffer in
  let address := htobe32 host (to_uint32 (LITEXCNC_ETH_WRITE_DATA_BASE_ADDRESS K)) in
  memcpy write_buffer 12 (store32 host address) 4.

(** The read-request buffer, built in freshly allocated memory. *)
Definition build_read_request_buffer (f : litexcnc_fpga_t) (fresh : list byte) : list byte :=
  let read_request_buffer :=
    memcpy fresh 0 (etherbone_header K) (length (etherbone_header K)) in
  let words := size_shr (size_sub (read_buffer_size f) 16) 2 in
  let read_request_buffer := <[11%nat := byte.of_Z words]> read_request_buffer in
  let addresses :=
    fill_addresses (LITEXCNC_ETH_READ_DATA_BASE_ADDRESS K f) words 0
                   (replicate (Z.to_nat words) 0) in
  memcpy read_request_buffer 16 (concat (map (store32 host) addresses))
         (Z.to_nat (size_mul words 4)).

(** The label [success_continue]. *)
Definition success_continue (config_fingerprint : Z) : M Z :=
  let* b := get_board in
  let* id := get_comp_id in
  run* set_fpga (with_driver_fields (fpga b) id 16 16) in
  let* r := litexcnc_register config_fingerprint in
  (* size_t ret = litexcnc_register(...) *)
  let ret_ := to_size_t r in
  if negb (ret_ =? 0) then
    run* print "board fails LitexCNC registration" in
    ret (to_int ret_)
  else
    run* incr_boards_count in
    run* cJSON_Delete in
    let* b := get_board in
    run* set_fpga (with_write_buffer (fpga b) (set_write_buffer_header (fpga b))) in
    let* b := get_board in
    let* fresh := rtapi_kmalloc (read_buffer_size (fpga b)) in
    run* set_read_request_buffer (build_read_request_buffer (fpga b) fresh) in
    ret 0.

Definition init_board (config_file : string) : M Z :=
  let config_file := skip_spaces config_file in
  let* ' (config, config_fingerprint) := litexcnc_load_config config_file in
  let etherbone := cJSON_GetObjectItemCaseSensitive config "etherbone" in
  if negb (cJSON_IsObject etherbone) then
    run* print "Missing required JSON key: '%s'" in
    fail_without_disconnect
  else
    let ip_address := cJSON_GetObjectItemCaseSensitive etherbone "ip_address" in
    match (if cJSON_IsString ip_address then item_valuestring ip_address else None) with
    | None =>
        run* print "Missing required JSON key: '%s'" in
        fail_without_disconnect
    | Some valuestring =>
        run* print "Connecting to board at address: %s:1234 " in
        let* c := eb_connect valuestring "1234" 1 in
        run* set_connection c in
        match c with
        | None =>
            run* print "colorcnc: ERROR: failed to connect to board on ip-address '%s:1234'" in
            fail_disconnect
        | Some _ => success_continue config_fingerprint
        end
    end.

Definition close_board : M Z :=
  run* eb_disconnect in
  ret 0.

End Driver.

(** ** Observations on traces *)

(** The number of [eb_read8] calls made so far. *)
Fixpoint reads_so_far (h : list event) : nat :=
  match h with
  | [] => 0
  | Call_eb_read8 _ _ _ :: h' => S (reads_so_far h')
  | _ :: h' => reads_so_far h'
  end.

(** The number of [eb_write8] calls that wrote exactly [data]. *)
Fixpoint writes_of (data : list byte) (h : list event) : nat :=
  match h with
  | [] => 0
  | Call_eb_write8 _ d _ _ :: h' =>
      if decide (d = data) then S (writes_of data h') else writes_of data h'
  | _ :: h' => writes_of data h'
  end.

(** Every [eb_send] in the trace comes right after an
    [eb_wait_for_tx_buffer_empty]; [waited] tells whether the event before the
    trace was such a wait. *)
Fixpoint sends_flushed (waited : bool) (h : list event) : bool :=
  match h with
  | [] => true
  | Call_eb_send _ _ :: h' => waited && sends_flushed false h'
  | Call_eb_wait_for_tx_buffer_empty :: h' => sends_flushed true h'
  | _ :: h' => sends_flushed false h'
  end.

Definition is_disconnect (e : event) : bool :=
  match e with
  | Call_eb_disconnect => true
  | _ => false
  end.

Definition is_connect (e : event) : bool :=
  match e with
  | Call_eb_connect _ _ _ => true
  | _ => false
  end.

(** ** Simulated devices and boards *)

Definition sim_constants : constants :=
  {| LITEXCNC_HEADER_DATA_READ_SIZE := 12;
     LITEXCNC_RESET_HEADER_SIZE := 4;
     LITEXCNC_CONFIG_HEADER_SIZE := 4;
     etherbone_header :=
       map byte.of_Z [0x4e; 0x6f; 0x10; 0x44; 0; 0; 0; 0; 0; 0x0f; 0; 0; 0; 0; 0; 0] |}.

Definition sim_fpga (read_size write_size : Z) : litexcnc_fpga_t :=
  {| comp_id := 0; version := 0; fingerprint := 0;
     read_buffer := replicate (Z.to_nat read_size) Byte.x00;
     read_buffer_size := read_size;
     read_header_size := 16;
     write_buffer := replicate (Z.to_nat write_size) Byte.x00;
     write_buffer_size := write_size;
     write_header_size := 16 |}.

Definition sim_board (f : litexcnc_fpga_t) : litexcnc_eth_t :=
  {| hal_param_debug := false;
     connection := Some 1%nat;
     read_request_buffer := replicate (Z.to_nat (read_buffer_size f)) Byte.x00;
     fpga := f |}.

Definition sim_world (f : litexcnc_fpga_t) : world :=
  {| trace := []; driver_comp_id := 7; boards_count := 0; board := sim_board f |}.

(** A device that delivers [data] to every read, accepts every send and
    delivers [count] bytes to every receive; registration sizes the cyclic
    buffers to [read_size] and [write_size] and returns [status]. *)
Definition sim_device (data : list byte) (count : Z) (config : option cJSON)
    (handle : option nat) (status read_size write_size : Z) : environment :=
  {| env_kmalloc := fun _ => [];
     env_connect := fun _ => handle;
     env_read8 := fun _ => (0, data);
     env_write8 := fun _ => 0;
     env_send := fun _ => 0;
     env_recv := fun _ => (count, replicate (Z.to_nat count) Byte.xff);
     env_load_config := fun _ => (config, 0xABCD1234);
     env_register := fun _ f =>
       (status,
        {| comp_id := comp_id f; version := version f; fingerprint := fingerprint f;
           read_buffer := replicate (Z.to_nat read_size) Byte.x00;
           read_buffer_size := read_size;
           read_header_size := read_header_size f;
           write_buffer := replicate (Z.to_nat write_size) Byte.x00;
           write_buffer_size := write_size;
           write_header_size := write_header_size f |}) |}.

(** A device whose reset region reads back as clear for the first [k1] reads,
    as set for the next [1 + k2] reads, and as clear from then on. *)
Definition reset_device (k1 k2 : nat) : environment :=
  {| env_kmalloc := fun _ => [];
     env_connect := fun _ => Some 1%nat;
     env_read8 := fun h =>
       let n := reads_so_far h in
       (0, if (k1 <? n)%nat && (n <=? k1 + 1 + k2)%nat
           then be_split 4 1 else be_split 4 0);
     env_write8 := fun _ => 0;
     env_send := fun _ => 0;
     env_recv := fun _ => (0, []);
     env_load_config := fun _ => (None, 0);
     env_register := fun _ f => (0, f) |}.

(** A configuration document with the [etherbone.ip_address] key. *)
Definition sim_config : cJSON :=
  cJSON_Object
    [("etherbone"%string,
      cJSON_Object [("ip_address"%string, cJSON_String (Some "10.0.0.10"%string))])].

(** ** Vocabulary of the statements *)

(** An fpga struct with no buffers, for the address macros. *)
Definition wide_fpga (write_size header_size : Z) : litexcnc_fpga_t :=
  {| comp_id := 0; version := 0; fingerprint := 0;
     read_buffer := []; read_buffer_size := 0; read_header_size := 16;
     write_buffer := []; write_buffer_size := write_size;
     write_header_size := header_size |}.

(** The board after a successful verification: only [version] and
    [fingerprint] of its fpga struct are new. *)
Definition verified_board (b : litexcnc_eth_t) (v fp : Z) : litexcnc_eth_t :=
  {| hal_param_debug := hal_param_debug b;
     connection := connection b;
     read_request_buffer := read_request_buffer b;
     fpga := with_version_fingerprint (fpga b) v fp |}.

(** The events of one [litexcnc_eth_read] up to and including its send. *)
Definition read_request_events (w : world) : list event :=
  [Call_eb_wait_for_tx_buffer_empty;
   Call_eb_send (take (Z.to_nat (read_buffer_size (fpga (board w))))
                      (read_request_buffer (board w)))
                (read_buffer_size (fpga (board w)))].

(** The real-time scheduler calls the two cyclic operations through the
    function pointers of the fpga struct, in any order and any number of
    times. *)
Inductive cyclic_op := Cycle_read | Cycle_write.

Definition run_cyclic_op (E : environment) (op : cyclic_op) : M Z :=
  match op with
  | Cycle_read => litexcnc_eth_read E
  | Cycle_write => litexcnc_eth_write E
  end.

Fixpoint run_cyclic_ops (E : environment) (ops : list cyclic_op) : M unit :=
  match ops with
  | [] => ret tt
  | op :: ops' =>
      run* run_cyclic_op E op in
      run_cyclic_ops E ops'
  end.

(** The three calls of one reset attempt that writes [flag]. *)
Definition attempt_events (K : constants) (flag : Z) : list event :=
  [Call_eb_write8 (LITEXCNC_ETH_RESET_DATA_BASE_ADDRESS K) (be_split 4 flag) 4 false;
   Call_usecSleep 10;
   Call_eb_read8 (LITEXCNC_ETH_RESET_DATA_BASE_ADDRESS K) 4 false].

Fixpoint attempts_events (K : constants) (flag : Z) (n : nat) : list event :=
  match n with
  | O => []
  | S n' => attempt_events K flag ++ attempts_events K flag n'
  end.

(** The bytes the device delivers to the read that ends the history [h]. *)
Definition read_back (E : environment) (h : list event) : list byte :=
  snd (env_read8 E h).

(** Counting reads from [n0]: the reset region reads back as something other
    than [flag] in the first [k] reads and as [flag] in read [k + 1]. *)
Definition flag_seen_after (E : environment) (n0 k : nat) (flag : Z) : Prop :=
  forall h,
    length (read_back E h) = 4%nat /\
    ((n0 < reads_so_far h <= n0 + k)%nat -> read_back E h <> be_split 4 flag) /\
    (reads_so_far h = (n0 + k + 1)%nat -> read_back E h = be_split 4 flag).

Definition msg_reset_failed : string := "Reset of the card failed after %d times".

Definition msg_no_response : string := "FPGA did not respond after reset for %d times".

(** The operations the LitexCNC core reaches through the function pointers
    that [init_board] stores in the fpga struct. *)
Inductive board_op :=
| Op_verify_config
| Op_reset
| Op_write_config (data : list byte) (size : Z)
| Op_read
| Op_write.

Definition run_board_op (E : environment) (K : constants) (host : byte_order)
    (op : board_op) : M Z :=
  match op with
  | Op_verify_config => litexcnc_eth_verify_config E K host
  | Op_reset => litexcnc_eth_reset E K host
  | Op_write_config data size => litexcnc_eth_write_config E K data size
  | Op_read => litexcnc_eth_read E
  | Op_write => litexcnc_eth_write E
  end.

Fixpoint run_board_ops (E : environment) (K : constants) (host : byte_order)
    (ops : list board_op) : M unit :=
  match ops with
  | [] => ret tt
  | op :: ops' =>
      run* run_board_op E K host op in
      run_board_ops E K host ops'
  end.

(** A board as [rtapi_app_main] hands it to [init_board]: no connection, no
    buffers. *)
Definition blank_world : world :=
  {| trace := [];
     driver_comp_id := 7;
     boards_count := 0;
     board :=
       {| hal_param_debug := false;
          connection := None;
          read_request_buffer := [];
          fpga := {| comp_id := 0; version := 0; fingerprint := 0;
                     read_buffer := []; read_buffer_size := 0; read_header_size := 0;
                     write_buffer := []; write_buffer_size := 0;
                     write_header_size := 0 |} |} |}.

(** Region sizes that put the write region at 0x100. *)
Definition sim_constants_0x100 : constants :=
  {| LITEXCNC_HEADER_DATA_READ_SIZE := 12;
     LITEXCNC_RESET_HEADER_SIZE := 4;
     LITEXCNC_CONFIG_HEADER_SIZE := 240;
     etherbone_header := etherbone_header sim_constants |}.

(** The number of events of a trace that satisfy [p]. *)
Fixpoint count_calls (p : event -> bool) (h : list event) : nat :=
  match h with
  | [] => 0
  | e :: h' => if p e then S (count_calls p h') else count_calls p h'
  end.

Definition is_recv (e : event) : bool :=
  match e with
  | Call_eb_recv _ => true
  | _ => false
  end.

Definition is_read8 (e : event) : bool :=
  match e with
  | Call_eb_read8 _ _ _ => true
  | _ => false
  end.

Definition is_write8 (e : event) : bool :=
  match e with
  | Call_eb_write8 _ _ _ _ => true
  | _ => false
  end.

(** A device that delivers nothing to any read: [eb_read8] leaves the
    caller's buffer as it was. *)
Definition silent_device : environment :=
  {| env_kmalloc := fun _ => [];
     env_connect := fun _ => Some 1%nat;
     env_read8 := fun _ => (-1, []);
     env_write8 := fun _ => 0;
     env_send := fun _ => -1;
     env_recv := fun _ => (-1, []);
     env_load_config := fun _ => (None, 0);
     env_register := fun _ f => (0, f) |}.

(** A run of [n] spaces in front of [s]. *)
Fixpoint spaces (n : nat) (s : string) : string :=
  match n with
  | O => s
  | S n' => String " "%char (spaces n' s)
  end.

(** ** The name dictionary ([struct dict], [dict_lookup], [dict_free])

    A list head with its entries, in the order [rtapi_list_for_each] visits
    them (from [head->next] on), each entry with the address that
    [rtapi_kzalloc] gave it.  [rtapi_list_add] puts a new entry right behind
    the head, that is in front of the list. *)

(** [struct dict] without its links: [char key[16]; int value;]. *)
Record dict := {
  dict_key : list ascii;
  dict_value : Z
}.

Definition NUL : ascii := Ascii.zero.

(** The character a C string starts with: its terminator when it is empty. *)
Definition first_char (s : string) : ascii :=
  match s with
  | EmptyString => NUL
  | String c _ => c
  end.

Definition rest_chars (s : string) : string :=
  match s with
  | EmptyString => EmptyString
  | String _ s' => s'
  end.

(** [strncpy(dst, src, n)]: the characters of [src] up to its terminator or
    up to [n] of them, then NUL up to [n] characters; no terminator is
    written when [src] has [n] characters or more. *)
Fixpoint strncpy (n : nat) (src : string) : list ascii :=
  match n with
  | O => []
  | S n' =>
      if Ascii.eqb (first_char src) NUL then NUL :: strncpy n' EmptyString
      else first_char src :: strncpy n' (rest_chars src)
  end.

(** [strncmp(s1, s2, n) == 0] for a C string [s1] and a character array
    [s2]: the characters agree up to the first NUL or up to [n] of them. *)
Fixpoint strncmp_is_0 (n : nat) (s1 : string) (s2 : list ascii) : bool :=
  match n with
  | O => true
  | S n' =>
      if Ascii.eqb (first_char s1) (hd NUL s2) then
        if Ascii.eqb (first_char s1) NUL then true
        else strncmp_is_0 n' (rest_chars s1) (tl s2)
      else false
  end.

(** [sizeof(ent->key)] *)
Definition dict_key_size : nat := 16.

(** The [rtapi_list_for_each] loop of [dict_lookup]: the address of the first
    entry whose key compares equal to [name]. *)
Fixpoint dict_find (head : list (nat * dict)) (name : string) : option nat :=
  match head with
  | [] => None
  | (address, ent) :: rest =>
      if strncmp_is_0 dict_key_size name (dict_key ent) then Some address
      else dict_find rest name
  end.

(** [dict_lookup(head, name)]: the entry found, or else a new zeroed entry at
    the address [fresh] that [rtapi_kzalloc] returns, with the name copied
    into its key, added in front.  The result is the address of the entry
    whose [value] the returned pointer points to, and the list. *)
Definition dict_lookup (head : list (nat * dict)) (name : string) (fresh : nat)
  : nat * list (nat * dict) :=
  match dict_find head name with
  | Some address => (address, head)
  | None =>
      (fresh,
       (fresh, {| dict_key := strncpy dict_key_size name; dict_value := 0 |}) :: head)
  end.

(** [dict_free(head)]: every entry is unlinked and freed, front to back; the
    result is the addresses passed to [rtapi_kfree] and the list that is
    left. *)
Fixpoint dict_free (head : list (nat * dict)) : list nat * list (nat * dict) :=
  match head with
  | [] => ([], [])
  | (address, _) :: rest =>
      let r := dict_free rest in
      (address :: fst r, snd r)
  end.

(** The characters of a C string that count: those in front of its first NUL,
    [n] of them at most. *)
Fixpoint c_prefix (n : nat) (s : string) : list ascii :=
  match n with
  | O => []
  | S n' =>
      if Ascii.eqb (first_char s) NUL then []
      else first_char s :: c_prefix n' (rest_chars s)
  end.

(** What [dict_lookup] keeps true of a list it built: the entries lie at
    different addresses and every key was written by [strncpy]. *)
Definition dict_built (head : list (nat * dict)) : Prop :=
  List.NoDup (map fst head) /\
  Forall (fun e => exists name, dict_key (snd e) = strncpy dict_key_size name) head.

(** The value that the pointer [address] points to. *)
Fixpoint dict_value_at (head : list (nat * dict)) (address : nat) : option Z :=
  match head with
  | [] => None
  | (a, ent) :: rest =>
      if Nat.eqb a address then Some (dict_value ent) else dict_value_at rest address
  end.

(** ** The component ([rtapi_app_main], [rtapi_app_exit], [close_board])

    The file-level variables of the driver, with the boards behind the
    pointers of [boards] ([None] for a null pointer), and the calls made so
    far.  A call made for a board is recorded with the board's index. *)

Inductive app_event :=
| Call_hal_init (name : string)
| Call_hal_malloc
| Call_hal_ready (id : Z)
| Call_hal_exit (id : Z)
| Call_rtapi_kfree (address : nat)
| App_print (msg : string)
| On_board (i : nat) (e : event).

Record driver := {
  app_trace : list app_event;
  (* static char *config_file[MAX_ETH_BOARDS], None for a null pointer *)
  config_file : list (option string);
  (* static int comp_id *)
  app_comp_id : Z;
  (* static int boards_count *)
  app_boards_count : Z;
  board_num : list (nat * dict);
  ifnames : list (nat * dict);
  (* static litexcnc_eth_t* boards[MAX_ETH_BOARDS] *)
  boards : list (option litexcnc_eth_t)
}.

(** What the HAL answers, and the device and core behind each board. *)
Record app_environment := {
  (* result of hal_init *)
  env_hal_init : list app_event -> Z;
  (* the memory hal_malloc returns, None for a null pointer *)
  env_hal_malloc : list app_event -> option litexcnc_eth_t;
  env_board : nat -> environment
}.

(** The calls made so far for board [i]. *)
Fixpoint board_history (i : nat) (h : list app_event) : list event :=
  match h with
  | [] => []
  | On_board j e :: h' =>
      if Nat.eqb j i then e :: board_history i h' else board_history i h'
  | _ :: h' => board_history i h'
  end.

Definition app_emit (e : app_event) (s : driver) : driver :=
  {| app_trace := app_trace s ++ [e];
     config_file := config_file s;
     app_comp_id := app_comp_id s;
     app_boards_count := app_boards_count s;
     board_num := board_num s;
     ifnames := ifnames s;
     boards := boards s |}.

Definition set_comp_id (id : Z) (s : driver) : driver :=
  {| app_trace := app_trace s;
     config_file := config_file s;
     app_comp_id := id;
     app_boards_count := app_boards_count s;
     board_num := board_num s;
     ifnames := ifnames s;
     boards := boards s |}.

Definition set_dicts (numbers names : list (nat * dict)) (s : driver) : driver :=
  {| app_trace := app_trace s;
     config_file := config_file s;
     app_comp_id := app_comp_id s;
     app_boards_count := app_boards_count s;
     board_num := numbers;
     ifnames := names;
     boards := boards s |}.

(** [boards[i] = p] *)
Definition set_board_pointer (i : nat) (p : option litexcnc_eth_t) (s : driver) : driver :=
  {| app_trace := app_trace s;
     config_file := config_file s;
     app_comp_id := app_comp_id s;
     app_boards_count := app_boards_count s;
     board_num := board_num s;
     ifnames := ifnames s;
     boards := <[i := p]> (boards s) |}.

(** A board operation [c] run on the board [b] that [boards[i]] points to:
    it sees the calls made for that board so far and the file-level
    variables; the calls it adds are recorded for board [i], and the board and
    [boards_count] are written back. *)
Definition on_board {A} (i : nat) (b : litexcnc_eth_t) (c : M A) (s : driver)
  : A * driver :=
  let h := board_history i (app_trace s) in
  let r := c {| trace := h;
                driver_comp_id := app_comp_id s;
                boards_count := app_boards_count s;
                board := b |} in
  (fst r,
   {| app_trace := app_trace s ++ map (On_board i) (drop (length h) (trace (snd r)));
      config_file := config_file s;
      app_comp_id := app_comp_id s;
      app_boards_count := boards_count (snd r);
      board_num := board_num s;
      ifnames := ifnames s;
      boards := <[i := Some (board (snd r))]> (boards s) |}).

(** [config_file[i] && *config_file[i]] *)
Definition configured (s : driver) (i : nat) : option string :=
  match config_file s !! i with
  | Some (Some (String c rest)) => Some (String c rest)
  | _ => None
  end.

Section Component.
Variable A : app_environment.
Variable K : constants.
Variable host : byte_order.

(** [init_board(NULL, config_file)]: what [init_board] does up to its first
    access to [*board], the assignment of [board->connection].  [None]
    stands for that access through a null pointer. *)
Definition init_board_null (i : nat) (path : string) (s : driver) : option (Z * driver) :=
  let r := on_board i
             {| hal_param_debug := false; connection := None;
                read_request_buffer := [];
                fpga := {| comp_id := 0; version := 0; fingerprint := 0;
                           read_buffer := []; read_buffer_size := 0;
                           read_header_size := 0; write_buffer := [];
                           write_buffer_size := 0; write_header_size := 0 |} |}
             (let path := skip_spaces path in
              let* ' (config, config_fingerprint) :=
                litexcnc_load_config (env_board A i) path in
              let etherbone := cJSON_GetObjectItemCaseSensitive config "etherbone" in
              if negb (cJSON_IsObject etherbone) then
                run* print "Missing required JSON key: '%s'" in
                let* r := fail_without_disconnect in
                ret (Some r)
              else
                let ip_address :=
                  cJSON_GetObjectItemCaseSensitive etherbone "ip_address" in
                match (if cJSON_IsString ip_address then item_valuestring ip_address
                       else None) with
                | None =>
                    run* print "Missing required JSON key: '%s'" in
                    let* r := fail_without_disconnect in
                    ret (Some r)
                | Some valuestring =>
                    run* print "Connecting to board at address: %s:1234 " in
                    let* c := eb_connect (env_board A i) valuestring "1234" 1 in
                    ret None
                end) s in
  match fst r with
  | Some status => Some (status, set_board_pointer i None (snd r))
  | None => None
  end.

(** [boards[i] = hal_malloc(sizeof(litexcnc_eth_t)); ret = init_board(boards[i],
    config_file[i]);] *)
Definition allocate_and_init (i : nat) (path : string) (s : driver)
  : option (Z * driver) :=
  let s := app_emit Call_hal_malloc s in
  match env_hal_malloc A (app_trace s) with
  | Some b => Some (on_board i b (init_board (env_board A i) K host path) s)
  | None => init_board_null i path (set_board_pointer i None s)
  end.

(** What the board loop of [rtapi_app_main] ends in. *)
Inductive loop_end :=
| Loop_done (status : Z)
| Goto_error (status : Z).

(** [for(i = 0, ret = 0; ret == 0 && i<MAX_ETH_BOARDS && config_file[i] &&
    *config_file[i]; i++) { ...; if(ret < 0) goto error; }], entered with [i]
    and [ret]. *)
Equations? init_boards (i : nat) (status : Z) (s : driver) : option (loop_end * driver)
  by wf (Z.to_nat MAX_ETH_BOARDS - i)%nat lt :=
init_boards i status s with decide (status = 0 /\ Z.of_nat i < MAX_ETH_BOARDS) => {
  | right _ := Some (Loop_done status, s);
  | left _ with configured s i => {
    | None := Some (Loop_done status, s);
    | Some path with allocate_and_init i path s => {
      | None := None;
      | Some (status', s') with decide (status' < 0) => {
        | left _ := Some (Goto_error status', s');
        | right _ := init_boards (S i) status' s' } } } }.
Proof. unfold MAX_ETH_BOARDS in *. lia. Qed.

(** [close_board(boards[i])]; [None] stands for a null [boards[i]]. *)
Definition close_board_at (i : nat) (s : driver) : option driver :=
  match boards s !! i with
  | Some (Some b) => Some (snd (on_board i b close_board s))
  | _ => None
  end.

(** [for(i = 0; i<MAX_ETH_BOARDS && config_file[i] && config_file[i][0]; i++)
    close_board(boards[i]);], entered with [i]. *)
Equations? close_boards (i : nat) (s : driver) : option driver
  by wf (Z.to_nat MAX_ETH_BOARDS - i)%nat lt :=
close_boards i s with decide (Z.of_nat i < MAX_ETH_BOARDS) => {
  | right _ := Some s;
  | left _ with configured s i => {
    | None := Some s;
    | Some _ with close_board_at i s => {
      | None := None;
      | Some s' := close_boards (S i) s' } } }.
Proof. unfold MAX_ETH_BOARDS in *. lia. Qed.

Fixpoint emit_frees (addresses : list nat) (s : driver) : driver :=
  match addresses with
  | [] => s
  | a :: rest => emit_frees rest (app_emit (Call_rtapi_kfree a) s)
  end.

(** What [rtapi_app_main] (behind its label [error]) and [rtapi_app_exit]
    share: the boards are closed, both dictionaries freed, and the component
    is taken out of the HAL. *)
Definition unload (s : driver) : option driver :=
  match close_boards 0 s with
  | None => None
  | Some s =>
      let numbers := dict_free (board_num s) in
      let s := emit_frees (fst numbers) s in
      let names := dict_free (ifnames s) in
      let s := emit_frees (fst names) s in
      let s := set_dicts (snd numbers) (snd names) s in
      Some (app_emit (Call_hal_exit (app_comp_id s)) s)
  end.

(** [rtapi_app_main]: its result and the driver it leaves, or [None] when it
    hands a null board pointer to [init_board]'s store of the connection or
    to [close_board]. *)
Definition rtapi_app_main (s : driver) : option (Z * driver) :=
  (* RTAPI_INIT_LIST_HEAD(&ifnames); RTAPI_INIT_LIST_HEAD(&board_num); *)
  let s := set_dicts [] [] s in
  let s := app_emit (App_print "loading litexCNC etherbone driver version 0.02") s in
  (* STEP 1: the component is initialised *)
  let s := app_emit (Call_hal_init "litexcnc_eth") s in
  let status := to_int (env_hal_init A (app_trace s)) in
  if status <? 0 then
    match unload s with
    | Some s => Some (status, s)
    | None => None
    end
  else
    let s := set_comp_id status s in
    (* STEP 2: the boards are initialised *)
    match init_boards 0 0 s with
    | None => None
    | Some (Goto_error status, s) =>
        match unload s with
        | Some s => Some (status, s)
        | None => None
        end
    | Some (Loop_done _, s) =>
        Some (0, app_emit (Call_hal_ready (app_comp_id s)) s)
    end.

(** [rtapi_app_exit]: the driver it leaves, or [None] when it hands a null
    board pointer to [close_board]. *)
Definition rtapi_app_exit (s : driver) : option driver :=
  match unload s with
  | Some s => Some (app_emit (App_print "LitexCNC etherbone driver unloaded ") s)
  | None => None
  end.

End Component.

(** The driver as it is loaded: nothing called yet, the counters at 0, no
    board allocated. *)
Definition loaded_driver (config_files : list (option string)) : driver :=
  {| app_trace := [];
     config_file := config_files;
     app_comp_id := 0;
     app_boards_count := 0;
     board_num := [];
     ifnames := [];
     boards := replicate (Z.to_nat MAX_ETH_BOARDS) None |}.

(** How many boards are configured: the entries of [config_file] in front of
    the first null or empty one, [MAX_ETH_BOARDS] at most. *)
Fixpoint configured_from (n i : nat) (s : driver) : nat :=
  match n with
  | O => 0
  | S n' =>
      match configured s i with
      | Some _ => S (configured_from n' (S i) s)
      | None => 0
      end
  end.

Definition configured_boards (s : driver) : nat :=
  configured_from (Z.to_nat MAX_ETH_BOARDS) 0 s.

(** A HAL that accepts the component under [id] and returns blank memory, in
    front of the given devices (board [i] talks to the [i]-th). *)
Definition sim_hal (id : Z) (devices : list environment) : app_environment :=
  {| env_hal_init := fun _ => id;
     env_hal_malloc := fun _ => Some (board blank_world);
     env_board := fun i => nth i devices silent_device |}.

(** A device and core with which [init_board] succeeds. *)
Definition good_device : environment :=
  sim_device [] 32 (Some sim_config) (Some 1%nat) 0 32 28.

(** A device with which registration fails with [status]. *)
Definition unregistered_device (status : Z) : environment :=
  sim_device [] 32 (Some sim_config) (Some 1%nat) status 32 28.

(** The world in which an operation for board [i] runs (see [on_board]). *)
Definition board_world (i : nat) (b : litexcnc_eth_t) (s : driver) : world :=
  {| trace := board_history i (app_trace s);
     driver_comp_id := app_comp_id s;
     boards_count := app_boards_count s;
     board := b |}.

(** [s'] differs from [s] in the calls made, [boards_count] and the boards
    behind the pointers at most. *)
Definition same_settings (s s' : driver) : Prop :=
  config_file s' = config_file s /\
  app_comp_id s' = app_comp_id s /\
  board_num s' = board_num s /\
  ifnames s' = ifnames s /\
  length (boards s') = length (boards s).

(** The driver when [rtapi_app_main] enters its board loop with the component
    id [id]. *)
Definition entering_loop (id : Z) (config_files : list (option string)) : driver :=
  set_comp_id id
    (app_emit (Call_hal_init "litexcnc_eth")
       (app_emit (App_print "loading litexCNC etherbone driver version 0.02")
          (set_dicts [] [] (loaded_driver config_files)))).

(** The calls that close the boards [0 .. n-1]. *)
Definition closing (i n : nat) : list app_event :=
  map (fun j => On_board j Call_eb_disconnect) (seq i n).


(** [ret = hal_init(LITEXCNC_ETH_NAME)] of a driver just loaded. *)
Definition hal_init_result (A : app_environment) : Z :=
  to_int (env_hal_init A
            [App_print "loading litexCNC etherbone driver version 0.02";
             Call_hal_init "litexcnc_eth"]).


(** The write base and the first read address as [init_board] emits them:
    [uint32_t address = htobe32(LITEXCNC_ETH_WRITE_DATA_BASE_ADDRESS(...))]
    and [addresses[0] = htobe32(LITEXCNC_ETH_READ_DATA_BASE_ADDRESS(...) +
    (0 << 2))] narrow the [size_t] value of the macro to 32 bits. *)
Definition write_base32 (K : constants) : Z :=
  to_uint32 (LITEXCNC_ETH_WRITE_DATA_BASE_ADDRESS K).

Definition read_base32 (K : constants) (f : litexcnc_fpga_t) : Z :=
  to_uint32 (size_add (LITEXCNC_ETH_READ_DATA_BASE_ADDRESS K f) (size_shl 0 2)).

(** One pass of the board loop of [rtapi_app_main] for board [i], entered
    with the driver [s], for a configured board and memory from [hal_malloc]:
    the status that [init_board] returns and the driver after it.  [None]
    when the board is not configured or [hal_malloc] returns a null pointer. *)
Definition init_call (A : app_environment) (K : constants) (host : byte_order)
    (i : nat) (s : driver) : option (Z * driver) :=
  match configured s i with
  | Some path =>
      let s := app_emit Call_hal_malloc s in
      match env_hal_malloc A (app_trace s) with
      | Some b => Some (on_board i b (init_board (env_board A i) K host path) s)
      | None => None
      end
  | None => None
  end.

(** The driver with which the board loop gets to board [i], entered with
    [s0]: every pass before it has returned 0. *)
Fixpoint loop_entry (A : app_environment) (K : constants) (host : byte_order)
    (s0 : driver) (i : nat) : option driver :=
  match i with
  | O => Some s0
  | S j =>
      match loop_entry A K host s0 j with
      | Some s =>
          match init_call A K host j s with
          | Some (0, s') => Some s'
          | _ => None
          end
      | None => None
      end
  end.

(** The status that [init_board] returns for board [i] in the run of
    [rtapi_app_main] on a driver just loaded.  [None] when the run does not
    make that call on allocated memory: a board before it did not return 0,
    board [i] is not configured, or [hal_malloc] returned a null pointer. *)
Definition board_status (A : app_environment) (K : constants) (host : byte_order)
    (config_files : list (option string)) (i : nat) : option Z :=
  match loop_entry A K host (entering_loop (hal_init_result A) config_files) i with
  | Some s => option_map fst (init_call A K host i s)
  | None => None
  end.

(** A device behind which only the configuration file [name] can be loaded:
    for every other path [litexcnc_load_config] finds no configuration. *)
Definition path_device (name : string) : environment :=
  {| env_kmalloc := env_kmalloc good_device;
     env_connect := env_connect good_device;
     env_read8 := env_read8 good_device;
     env_write8 := env_write8 good_device;
     env_send := env_send good_device;
     env_recv := env_recv good_device;
     env_load_config := fun h =>
       match last h with
       | Some (Call_load_config path) =>
           if String.eqb path name then (Some sim_config, 0xABCD1234) else (None, 0)
       | _ => (None, 0)
       end;
     env_register := env_register good_device |}.

(** * Properties *)

(** ** Integer conversions *)

Lemma to_size_t_small z : 0 <= z < 2 ^ 64 -> to_size_t z = z.
Proof. intros Hz. unfold to_size_t. apply Z.mod_small. exact Hz. Qed.

Lemma to_size_t_range z : 0 <= to_size_t z < 2 ^ 64.
Proof. unfold to_size_t. apply Z.mod_pos_bound. lia. Qed.

Lemma to_int_small z : - 2 ^ 31 <= z < 2 ^ 31 -> to_int z = z.
Proof. intros Hz. unfold to_int. rewrite Z.mod_small; lia. Qed.

Lemma to_int_range z : - 2 ^ 31 <= to_int z < 2 ^ 31.
Proof.
  unfold to_int.
  pose proof (Z.mod_pos_bound (z + 2 ^ 31) (2 ^ 32) ltac:(lia)). lia.
Qed.

(** An [int] that went through a [size_t] variable and back is unchanged
    ([size_t ret = litexcnc_register(...); ... return ret;]). *)
Lemma to_int_to_size_t z : - 2 ^ 31 <= z < 2 ^ 31 -> to_int (to_size_t z) = z.
Proof.
  intros Hz. unfold to_int, to_size_t.
  change (2 ^ 64) with 18446744073709551616.
  change (2 ^ 32) with 4294967296. change (2 ^ 31) with 2147483648 in *.
  Z.div_mod_to_equations. lia.
Qed.

(** ** Byte order *)

Lemma length_be_split n z : length (be_split n z) = n.
Proof. unfold be_split. rewrite length_rev. apply length_le_split. Qed.

Lemma length_store32 host x : length (store32 host x) = 4%nat.
Proof. destruct host; [apply (length_le_split 4) | apply (length_be_split 4)]. Qed.

Lemma be_combine_split n z : be_combine (be_split n z) = z mod 2 ^ (Z.of_nat n * 8).
Proof. unfold be_combine, be_split. rewrite rev_involutive. apply le_combine_split. Qed.

Lemma be_split_combine bs n : length bs = n -> be_split n (be_combine bs) = bs.
Proof.
  intros Hn. unfold be_combine, be_split.
  rewrite split_le_combine' by (rewrite length_rev; exact Hn).
  apply rev_involutive.
Qed.

Lemma be_combine_bound bs : 0 <= be_combine bs < 2 ^ (8 * Z.of_nat (length bs)).
Proof.
  unfold be_combine. pose proof (le_combine_bound (rev bs)) as Hb.
  rewrite length_rev in Hb. exact Hb.
Qed.

Lemma be_split_mod n z : be_split n z = be_split n (z mod 2 ^ (Z.of_nat n * 8)).
Proof. unfold be_split. f_equal. apply le_split_mod. Qed.

(** Whatever the host, the bytes of [htobe32 x] in memory are the big-endian
    encoding of [x]. *)
Lemma store32_htobe32 host x : store32 host (htobe32 host x) = be_split 4 x.
Proof.
  destruct host; simpl.
  - unfold bswap_32, be_combine.
    rewrite split_le_combine' by (rewrite length_rev; apply length_le_split).
    reflexivity.
  - unfold to_uint32. symmetry. apply (be_split_mod 4).
Qed.

(** Whatever the host, [be32toh] of four bytes read from memory is their
    big-endian value. *)
Lemma be32toh_load32 host bs :
  length bs = 4%nat -> be32toh host (load32 host bs) = be_combine bs.
Proof.
  intros Hlen. destruct host; unfold be32toh; simpl.
  - unfold bswap_32.
    rewrite split_le_combine' by exact Hlen. reflexivity.
  - unfold to_uint32. apply Z.mod_small.
    pose proof (be_combine_bound bs) as Hb. rewrite Hlen in Hb. exact Hb.
Qed.

Lemma htobe32_range host x : 0 <= htobe32 host x < 2 ^ 32.
Proof.
  destruct host; simpl.
  - unfold bswap_32.
    pose proof (be_combine_bound (le_split 4 x)) as Hb.
    rewrite length_le_split in Hb. exact Hb.
  - unfold to_uint32. apply Z.mod_pos_bound. lia.
Qed.

Lemma load32_store32 host x : load32 host (store32 host x) = x mod 2 ^ 32.
Proof.
  destruct host; simpl.
  - apply (le_combine_split 4).
  - apply (be_combine_split 4).
Qed.

Lemma store32_load32 host bs : length bs = 4%nat -> store32 host (load32 host bs) = bs.
Proof.
  intros Hlen. destruct host; simpl.
  - apply split_le_combine'. exact Hlen.
  - apply be_split_combine. exact Hlen.
Qed.

(** Four bytes read as a [uint32_t] equal [htobe32 x] exactly when they are
    the big-endian encoding of [x]. *)
Lemma load32_htobe32 host x bs :
  length bs = 4%nat -> (load32 host bs = htobe32 host x <-> bs = be_split 4 x).
Proof.
  intros Hlen. split.
  - intros Heq. rewrite <- (store32_load32 host bs Hlen), Heq.
    apply store32_htobe32.
  - intros ->. rewrite <- (store32_htobe32 host x), load32_store32.
    apply Z.mod_small, htobe32_range.
Qed.

(** ** [memcpy] *)

Lemma length_memcpy dst off src n : length (memcpy dst off src n) = length dst.
Proof. unfold memcpy. apply length_inserts. Qed.

(** A copy that fills the whole destination. *)
Lemma memcpy_whole dst src n :
  length dst = n -> length src = n -> memcpy dst 0 src n = src.
Proof.
  intros Hd Hs. unfold memcpy.
  rewrite firstn_all2 by lia.
  rewrite <- (app_nil_r dst).
  rewrite list_inserts_0_r by lia.
  apply app_nil_r.
Qed.

(** ** Address layout *)

(** C3, as stated, fails: with positive sizes 12, 4 and 4, a write header of 16
    bytes and a write buffer of 2^32 + 16 bytes (larger than the header), the
    macros give the write base 20 and the read base 2^32 + 20, and the 32-bit
    addresses that [init_board] emits for them are both 20: on either host
    the address field of the write buffer and the first address of the
    read-request buffer are the same word, so the read base does not lie
    above the write base. *)
Lemma layout_wraps_around :
  let K := {| LITEXCNC_HEADER_DATA_READ_SIZE := 12;
              LITEXCNC_RESET_HEADER_SIZE := 4;
              LITEXCNC_CONFIG_HEADER_SIZE := 4;
              etherbone_header := [] |} in
  let f := wide_fpga (2 ^ 32 + 16) 16 in
  (0 < LITEXCNC_HEADER_DATA_READ_SIZE K /\ 0 < LITEXCNC_RESET_HEADER_SIZE K /\
   0 < LITEXCNC_CONFIG_HEADER_SIZE K /\ 0 < write_header_size f /\
   write_header_size f < write_buffer_size f) /\
  LITEXCNC_ETH_WRITE_DATA_BASE_ADDRESS K = 20 /\
  LITEXCNC_ETH_READ_DATA_BASE_ADDRESS K f = 2 ^ 32 + 20 /\
  write_base32 K = 20 /\
  read_base32 K f = 20 /\
  ~ (write_base32 K < read_base32 K f) /\
  (forall host, htobe32 host (write_base32 K) = htobe32 host (read_base32 K f)).
Proof.
  cbv zeta. split; [repeat split | ].
  repeat (split; [vm_compute; reflexivity | ]).
  split.
  - intros Hlt. vm_compute in Hlt. discriminate.
  - intros host. destruct host; vm_compute; reflexivity.
Qed.

(** C3, amended: for positive region sizes whose sum stays below 2^32 (so
    that every base fits the unsigned 32-bit address that the driver emits),
    the init base is 0, each of the reset, config and write bases is the
    previous base plus the previous region's size, the read base is the write
    base plus the write buffer size minus the write header size whenever that
    difference is not negative, the emitted 32-bit write and read addresses
    are these bases, and when the write buffer is larger than its header the
    five bases are strictly increasing, as macro values and as emitted. *)
Theorem layout_bases_increasing K f :
  0 < LITEXCNC_HEADER_DATA_READ_SIZE K ->
  0 < LITEXCNC_RESET_HEADER_SIZE K ->
  0 < LITEXCNC_CONFIG_HEADER_SIZE K ->
  0 < write_buffer_size f ->
  0 < write_header_size f ->
  LITEXCNC_HEADER_DATA_READ_SIZE K + LITEXCNC_RESET_HEADER_SIZE K
    + LITEXCNC_CONFIG_HEADER_SIZE K + write_buffer_size f < 2 ^ 32 ->
  let init := LITEXCNC_ETH_INIT_DATA_BASE_ADDRESS in
  let reset := LITEXCNC_ETH_RESET_DATA_BASE_ADDRESS K in
  let config := LITEXCNC_ETH_CONFIG_DATA_BASE_ADDRESS K in
  let write := LITEXCNC_ETH_WRITE_DATA_BASE_ADDRESS K in
  let read := LITEXCNC_ETH_READ_DATA_BASE_ADDRESS K f in
  init = 0 /\
  reset = init + LITEXCNC_HEADER_DATA_READ_SIZE K /\
  config = reset + LITEXCNC_RESET_HEADER_SIZE K /\
  write = config + LITEXCNC_CONFIG_HEADER_SIZE K /\
  write_base32 K = write /\
  (write_header_size f <= write + write_buffer_size f ->
   read = write + write_buffer_size f - write_header_size f /\
   read_base32 K f = read) /\
  (write_header_size f < write_buffer_size f ->
   init < reset /\ reset < config /\ config < write /\ write < read /\
   write_base32 K < read_base32 K f).
Proof.
  intros HH HR HC Hwb Hwh Hsum. cbv zeta.
  assert (H64 : 2 ^ 32 < 2 ^ 64) by (vm_compute; reflexivity).
  unfold write_base32, read_base32.
  unfold LITEXCNC_ETH_READ_DATA_BASE_ADDRESS, LITEXCNC_ETH_WRITE_DATA_BASE_ADDRESS,
    LITEXCNC_ETH_CONFIG_DATA_BASE_ADDRESS, LITEXCNC_ETH_RESET_DATA_BASE_ADDRESS,
    LITEXCNC_ETH_INIT_DATA_BASE_ADDRESS, size_add, size_sub, size_shl.
  change (Z.shiftl 0 2) with 0.
  rewrite (to_size_t_small (0 + _)) by lia.
  rewrite (to_size_t_small (0 + _ + _)) by lia.
  rewrite (to_size_t_small (0 + _ + _ + _)) by lia.
  rewrite (to_size_t_small (0 + _ + _ + _ + _)) by lia.
  rewrite (to_size_t_small 0) by lia.
  assert (Hnarrow : forall z, 0 <= z < 2 ^ 32 -> to_uint32 z = z)
    by (intros z Hz; unfold to_uint32; apply Z.mod_small; exact Hz).
  repeat split; try lia.
  - apply Hnarrow. lia.
  - rewrite to_size_t_small by lia. lia.
  - rewrite (to_size_t_small (_ - _)) by lia.
    rewrite (to_size_t_small (_ + 0)) by lia.
    rewrite Hnarrow by lia. lia.
  - rewrite to_size_t_small by lia. lia.
  - rewrite (to_size_t_small (_ - _)) by lia.
    rewrite (to_size_t_small (_ + 0)) by lia.
    rewrite !Hnarrow by lia. lia.
Qed.

Lemma layout_bases_increasing_witness :
  let K := sim_constants in
  let f := wide_fpga 28 16 in
  let init := LITEXCNC_ETH_INIT_DATA_BASE_ADDRESS in
  let reset := LITEXCNC_ETH_RESET_DATA_BASE_ADDRESS K in
  let config := LITEXCNC_ETH_CONFIG_DATA_BASE_ADDRESS K in
  let write := LITEXCNC_ETH_WRITE_DATA_BASE_ADDRESS K in
  let read := LITEXCNC_ETH_READ_DATA_BASE_ADDRESS K f in
  init = 0 /\
  reset = init + 12 /\
  config = reset + 4 /\
  write = config + 4 /\
  write_base32 K = write /\
  (16 <= write + 28 -> read = write + 28 - 16 /\ read_base32 K f = read) /\
  (16 < 28 ->
   init < reset /\ reset < config /\ config < write /\ write < read /\
   write_base32 K < read_base32 K f).
Proof.
  apply (layout_bases_increasing sim_constants (wide_fpga 28 16));
    vm_compute; reflexivity.
Defined.

(** ** Running the monad *)

Ltac run_calls :=
  unfold rtapi_kmalloc, eb_read8, eb_write8, eb_send, eb_recv, eb_connect, eb_disconnect,
    eb_wait_for_tx_buffer_empty, usecSleep, print, cJSON_Delete, litexcnc_load_config,
    litexcnc_register, set_fpga, set_connection, set_read_request_buffer, set_board,
    get_board, get_comp_id, incr_boards_count, history, emit, bind, ret;
  cbn [fst snd trace board boards_count driver_comp_id].

(** ** [litexcnc_eth_verify_config] *)

(** C2: when the read of the init region succeeds and delivers twelve bytes
    whose first big-endian word is not 0x18052022, [litexcnc_eth_verify_config]
    returns -1 whatever the other eight bytes are and leaves the board as it
    was (neither version nor fingerprint is stored); when the first word is
    0x18052022 it returns 0 and stores the big-endian value of the second word
    as version and of the third word as fingerprint. *)
Theorem verify_config_checks_magic E K host w r data :
  LITEXCNC_HEADER_DATA_READ_SIZE K = 12 ->
  env_read8 E (trace w ++ [Call_eb_read8 0 12 false]) = (r, data) ->
  0 <= r < 2 ^ 31 ->
  length data = 12%nat ->
  let res := litexcnc_eth_verify_config E K host w in
  (be_combine (take 4 data) <> 0x18052022 ->
   fst res = -1 /\ board (snd res) = board w) /\
  (be_combine (take 4 data) = 0x18052022 ->
   fst res = 0 /\
   board (snd res) =
     verified_board (board w) (be_combine (take 4 (drop 4 data)))
                    (be_combine (take 4 (drop 8 data)))).
Proof.
  intros HK Hread Hr Hlen res. subst res.
  unfold litexcnc_eth_verify_config. run_calls.
  rewrite HK. unfold LITEXCNC_ETH_INIT_DATA_BASE_ADDRESS.
  rewrite Hread. cbn [fst snd].
  rewrite to_int_small by lia.
  rewrite memcpy_whole; [ | apply length_resize | exact Hlen ].
  destruct (Z.ltb_spec r 0) as [Hneg | _]; [lia | ].
  unfold header_of_buffer. cbn [magic header_version header_fingerprint].
  rewrite !be32toh_load32
    by (rewrite length_take, ?length_drop; lia).
  destruct (Z.eqb_spec (be_combine (take 4 data)) 0x18052022) as [Heq | Hne];
    cbn [negb fst snd board]; split; intros Hmagic; try contradiction.
  - split; reflexivity.
  - split; reflexivity.
Qed.

(** The end-to-end scenario of C2: magic 0x18052022, version 2, fingerprint
    0xABCD1234. *)
Lemma verify_config_checks_magic_witness :
  let data := be_split 4 0x18052022 ++ be_split 4 2 ++ be_split 4 0xABCD1234 in
  let E := sim_device data 0 None None 0 0 0 in
  let w := sim_world (sim_fpga 32 28) in
  let res := litexcnc_eth_verify_config E sim_constants HostLittle w in
  fst res = 0 /\
  version (fpga (board (snd res))) = 2 /\
  fingerprint (fpga (board (snd res))) = 0xABCD1234.
Proof.
  cbv zeta.
  set (data := be_split 4 0x18052022 ++ be_split 4 2 ++ be_split 4 0xABCD1234).
  destruct (verify_config_checks_magic (sim_device data 0 None None 0 0 0)
              sim_constants HostLittle (sim_world (sim_fpga 32 28)) 0 data
              eq_refl eq_refl ltac:(lia) eq_refl) as [_ Hok].
  destruct (Hok ltac:(vm_compute; reflexivity)) as [Hres Hboard].
  split; [exact Hres | ].
  rewrite Hboard. split; vm_compute; reflexivity.
Defined.

(** A wrong magic is rejected whatever follows it. *)
Example verify_config_rejects_wrong_magic :
  let data := be_split 4 0x18052021 ++ be_split 4 2 ++ be_split 4 0xABCD1234 in
  let E := sim_device data 0 None None 0 0 0 in
  let w := sim_world (sim_fpga 32 28) in
  let res := litexcnc_eth_verify_config E sim_constants HostBig w in
  fst res = -1 /\ board (snd res) = board w.
Proof. vm_compute. split; reflexivity. Qed.

(** ** [litexcnc_eth_read] and [litexcnc_eth_write] *)

(** C4: when the request was sent and the receive returns a byte count
    [count] other than [read_buffer_size], [litexcnc_eth_read] returns -1; it
    returns 0 only when [count] equals [read_buffer_size]; either way it
    issues one send and one receive, without a second attempt. *)
Theorem read_checks_received_length E w r count data :
  let expected := read_buffer_size (fpga (board w)) in
  0 < expected ->
  env_send E (trace w ++ read_request_events w) = r ->
  0 <= r < 2 ^ 31 ->
  env_recv E (trace w ++ read_request_events w ++ [Call_eb_recv expected]) = (count, data) ->
  0 <= count < 2 ^ 31 ->
  let res := litexcnc_eth_read E w in
  (count <> expected -> fst res = -1) /\
  (fst res = 0 -> count = expected) /\
  (count = expected -> fst res = 0) /\
  trace (snd res) =
    trace w ++ read_request_events w ++ [Call_eb_recv expected] ++
    (if decide (count = expected) then []
     else [Call_print "Unexpected read length: %d, expected %zu"]).
Proof.
  intros expected Hpos Hsend Hr Hrecv Hcount res. subst res expected.
  unfold litexcnc_eth_read, read_request_events in *. run_calls.
  rewrite <- !app_assoc. cbn [app].
  rewrite Hsend, to_int_small by lia.
  destruct (Z.ltb_spec r 0) as [Hneg | _]; [lia | ].
  cbn [fst snd trace board].
  rewrite <- !app_assoc. cbn [app].
  cbn [app] in Hrecv. rewrite Hrecv.
  cbn [fst snd].
  rewrite (to_int_small count) by lia.
  rewrite (to_size_t_small count) by lia.
  destruct (Z.eqb_spec count (read_buffer_size (fpga (board w)))) as [Heq | Hne];
    cbn [negb fst snd trace].
  - rewrite decide_True by exact Heq.
    repeat split; try reflexivity; try (intros; congruence);
      rewrite <- ?app_assoc; reflexivity.
  - rewrite decide_False by exact Hne.
    repeat split; try reflexivity; try (intros; congruence); try discriminate;
      rewrite <- ?app_assoc; reflexivity.
Qed.

Lemma read_checks_received_length_witness :
  let E := sim_device [] 24 None None 0 0 0 in
  let w := sim_world (sim_fpga 32 28) in
  let res := litexcnc_eth_read E w in
  (24 <> 32 -> fst res = -1) /\
  (fst res = 0 -> 24 = 32) /\
  (24 = 32 -> fst res = 0) /\
  trace (snd res) =
    trace w ++ read_request_events w ++ [Call_eb_recv 32] ++
    (if decide (24 = 32) then []
     else [Call_print "Unexpected read length: %d, expected %zu"]).
Proof.
  apply (read_checks_received_length (sim_device [] 24 None None 0 0 0)
           (sim_world (sim_fpga 32 28)) 0 24 (replicate 24 Byte.xff)).
  - vm_compute. reflexivity.
  - reflexivity.
  - lia.
  - reflexivity.
  - lia.
Defined.

(** X27: a failed receive (a negative result) is a length mismatch as well,
    for every buffer size below 2^64 - 2^31: the count is compared as a
    [size_t], and [litexcnc_eth_read] returns -1. *)
Lemma read_receive_error E w r count data :
  let expected := read_buffer_size (fpga (board w)) in
  0 <= expected < 2 ^ 64 - 2 ^ 31 ->
  env_send E (trace w ++ read_request_events w) = r ->
  0 <= r < 2 ^ 31 ->
  env_recv E (trace w ++ read_request_events w ++ [Call_eb_recv expected]) = (count, data) ->
  - 2 ^ 31 <= count < 0 ->
  fst (litexcnc_eth_read E w) = -1.
Proof.
  intros expected Hsize Hsend Hr Hrecv Hcount. subst expected.
  unfold litexcnc_eth_read, read_request_events in *. run_calls.
  rewrite <- !app_assoc. cbn [app].
  rewrite Hsend, to_int_small by lia.
  destruct (Z.ltb_spec r 0) as [Hneg | _]; [lia | ].
  cbn [fst snd trace board].
  rewrite <- !app_assoc. cbn [app].
  cbn [app] in Hrecv. rewrite Hrecv. cbn [fst snd].
  rewrite (to_int_small count) by lia.
  assert (Hwrap : to_size_t count = count + 2 ^ 64).
  { unfold to_size_t. symmetry. apply (Z.mod_unique _ _ (-1)); lia. }
  rewrite Hwrap.
  destruct (Z.eqb_spec (count + 2 ^ 64) (read_buffer_size (fpga (board w))))
    as [Heq | Hne]; [lia | reflexivity].
Qed.

(** A trace whose sends are flushed stays so when the event before it
    becomes a wait. *)
Lemma sends_flushed_weaken a h : sends_flushed false h = true -> sends_flushed a h = true.
Proof.
  destruct h as [ | e h]; [reflexivity | ].
  destruct e; simpl; try (intros; assumption).
  discriminate.
Qed.

Lemma sends_flushed_app a h1 h2 :
  sends_flushed a h1 = true -> sends_flushed false h2 = true ->
  sends_flushed a (h1 ++ h2) = true.
Proof.
  revert a. induction h1 as [ | e h1 IH]; intros a H1 H2.
  - simpl. apply sends_flushed_weaken. exact H2.
  - destruct e; simpl in *; try (apply IH; assumption).
    apply andb_prop in H1 as [Ha H1]. rewrite Ha. simpl. apply IH; assumption.
Qed.

(** The events one cyclic operation appends. *)
Lemma cyclic_op_events E op w :
  exists rest,
    trace (snd (run_cyclic_op E op w)) =
      trace w ++ Call_eb_wait_for_tx_buffer_empty :: rest /\
    sends_flushed true rest = true.
Proof.
  destruct op; simpl.
  - unfold litexcnc_eth_read. run_calls.
    match goal with |- context [to_int ?x <? 0] => destruct (to_int x <? 0) end;
      cbn [fst snd trace].
    + eexists. rewrite <- !app_assoc. cbn [app]. split; reflexivity.
    + match goal with |- context [negb ?c] => destruct c end; cbn [negb fst snd trace];
        eexists; rewrite <- !app_assoc; cbn [app]; split; reflexivity.
  - unfold litexcnc_eth_write. run_calls.
    match goal with |- context [to_int ?x <? 0] => destruct (to_int x <? 0) end;
      cbn [fst snd trace];
      eexists; rewrite <- !app_assoc; cbn [app]; split; reflexivity.
Qed.

(** C5: the events that [litexcnc_eth_read] and [litexcnc_eth_write] append to
    the trace begin with [eb_wait_for_tx_buffer_empty], and in the events of
    any sequence of invocations of the two, every [eb_send] comes right after
    such a wait. *)
Theorem cyclic_sends_wait_for_tx_buffer E :
  (forall w, exists rest,
      trace (snd (litexcnc_eth_read E w)) =
        trace w ++ Call_eb_wait_for_tx_buffer_empty :: rest /\
      sends_flushed true rest = true) /\
  (forall w, exists rest,
      trace (snd (litexcnc_eth_write E w)) =
        trace w ++ Call_eb_wait_for_tx_buffer_empty :: rest /\
      sends_flushed true rest = true) /\
  (forall ops w, exists events,
      trace (snd (run_cyclic_ops E ops w)) = trace w ++ events /\
      sends_flushed false events = true).
Proof.
  split; [ | split].
  - intros w. apply (cyclic_op_events E Cycle_read w).
  - intros w. apply (cyclic_op_events E Cycle_write w).
  - induction ops as [ | op ops IH]; intros w.
    + exists []. simpl. rewrite app_nil_r. split; reflexivity.
    + simpl. unfold bind.
      destruct (cyclic_op_events E op w) as (rest & Hop & Hrest).
      destruct (run_cyclic_op E op w) as [r w1]. cbn [snd] in Hop.
      destruct (IH w1) as (events & Hops & Hevents).
      exists ((Call_eb_wait_for_tx_buffer_empty :: rest) ++ events).
      rewrite Hops, Hop, <- app_assoc. split; [reflexivity | ].
      apply sends_flushed_app; [ | exact Hevents].
      simpl. exact Hrest.
Qed.

(** One read cycle and one write cycle against a device that answers in full. *)
Example cyclic_trace_example :
  let E := sim_device [] 32 None None 0 0 0 in
  let w := sim_world (sim_fpga 32 28) in
  trace (snd (run_cyclic_ops E [Cycle_read; Cycle_write] w)) =
    [Call_eb_wait_for_tx_buffer_empty;
     Call_eb_send (replicate 32 Byte.x00) 32;
     Call_eb_recv 32;
     Call_eb_wait_for_tx_buffer_empty;
     Call_eb_send (replicate 28 Byte.x00) 28].
Proof. vm_compute. reflexivity. Qed.

(** ** [litexcnc_eth_write_config] *)

(** Whatever [size] is, one [eb_write8] of [LITEXCNC_CONFIG_HEADER_SIZE] bytes
    goes to the config base, nothing is read back, and 0 is returned. *)
Lemma write_config_events E K data size w :
  let res := litexcnc_eth_write_config E K data size w in
  fst res = 0 /\
  board (snd res) = board w /\
  trace (snd res) =
    trace w ++
    [Call_eb_write8 (LITEXCNC_ETH_CONFIG_DATA_BASE_ADDRESS K)
       (take (Z.to_nat (LITEXCNC_CONFIG_HEADER_SIZE K)) data)
       (LITEXCNC_CONFIG_HEADER_SIZE K) (hal_param_debug (board w))].
Proof.
  cbv zeta. unfold litexcnc_eth_write_config. run_calls.
  repeat split.
Qed.

(** C8, the code at a failing input: asked to write a configuration of eight
    bytes ([size] = 8) where [LITEXCNC_CONFIG_HEADER_SIZE] is 4,
    [litexcnc_eth_write_config] sends the first four bytes only and returns
    0; nothing is read back. *)
Theorem write_config_ignores_size :
  let E := sim_device [] 0 None None 0 0 0 in
  let w := sim_world (sim_fpga 32 28) in
  let data := map byte.of_Z [1; 2; 3; 4; 5; 6; 7; 8] in
  let res := litexcnc_eth_write_config E sim_constants data 8 w in
  fst res = 0 /\
  trace (snd res) = [Call_eb_write8 16 (map byte.of_Z [1; 2; 3; 4]) 4 false].
Proof. vm_compute. split; reflexivity. Qed.

(** ** [litexcnc_eth_reset] *)

Lemma reads_so_far_app h1 h2 :
  reads_so_far (h1 ++ h2) = (reads_so_far h1 + reads_so_far h2)%nat.
Proof.
  induction h1 as [ | e h1 IH]; [reflexivity | ].
  destruct e; simpl; rewrite IH; reflexivity.
Qed.

Lemma reset_loop_step E K host msg reset_flag i reset_status buffer w :
  reset_loop E K host msg reset_flag i reset_status buffer w =
    if decide (reset_flag <> reset_status) then
      if decide (i > MAX_RESET_RETRIES) then
        ((Some (-1), reset_status, buffer), snd (print msg w))
      else
        let r := reset_attempt E K host reset_flag reset_status buffer w in
        reset_loop E K host msg reset_flag (i + 1) (fst (fst r)) (snd (fst r)) (snd r)
    else ((None, reset_status, buffer), w).
Proof.
  rewrite reset_loop_unfold_eq at 1. unfold reset_loop_unfold.
  destruct (decide (reset_flag <> reset_status)); [ | reflexivity].
  unfold reset_loop_unfold_clause_1.
  destruct (decide (i > MAX_RESET_RETRIES)); reflexivity.
Qed.

(** One attempt against a device that answers with four bytes. *)
Lemma reset_attempt_run E K host flag reset_status buffer w :
  LITEXCNC_RESET_HEADER_SIZE K = 4 ->
  length buffer = 4%nat ->
  let h := trace w ++ attempt_events K flag in
  length (read_back E h) = 4%nat ->
  reset_attempt E K host (htobe32 host flag) reset_status buffer w =
    ((load32 host (read_back E h), read_back E h),
     {| trace := h; driver_comp_id := driver_comp_id w;
        boards_count := boards_count w; board := board w |}).
Proof.
  intros HK Hbuf h Hans. subst h. unfold read_back in *.
  unfold reset_attempt, attempt_events in *. cbv zeta. run_calls. rewrite HK.
  change (Z.to_nat 4) with 4%nat.

  rewrite (memcpy_whole buffer (store32 host (htobe32 host flag)) 4)
    by (rewrite ?length_store32; lia).
  rewrite store32_htobe32.
  rewrite firstn_all2 by (rewrite length_be_split; lia).
  rewrite <- !app_assoc. cbn [app].
  rewrite !memcpy_whole
    by (rewrite ?length_memcpy, ?length_store32, ?length_be_split; lia).
  reflexivity.
Qed.

Lemma reads_so_far_attempt K flag h :
  reads_so_far (h ++ attempt_events K flag) = S (reads_so_far h).
Proof. rewrite reads_so_far_app. simpl. lia. Qed.

Lemma attempts_events_S K flag (i : Z) :
  i <= MAX_RESET_RETRIES ->
  attempts_events K flag (Z.to_nat (MAX_RESET_RETRIES + 1 - i)) =
    attempt_events K flag ++
    attempts_events K flag (Z.to_nat (MAX_RESET_RETRIES + 1 - (i + 1))).
Proof.
  intros Hi.
  replace (Z.to_nat (MAX_RESET_RETRIES + 1 - i))
    with (S (Z.to_nat (MAX_RESET_RETRIES + 1 - (i + 1)))) by lia.
  reflexivity.
Qed.

(** One loop of [litexcnc_eth_reset], entered with retry counter [i], against
    a device that shows the flag after [j] more reads. *)
Lemma reset_loop_run E K host msg flag :
  LITEXCNC_RESET_HEADER_SIZE K = 4 ->
  forall (j : nat) (i reset_status : Z) (buffer : list byte) (w : world),
    1 <= i <= MAX_RESET_RETRIES + 1 ->
    length buffer = 4%nat ->
    htobe32 host flag <> reset_status ->
    flag_seen_after E (reads_so_far (trace w)) j flag ->
    let res := reset_loop E K host msg (htobe32 host flag) i reset_status buffer w in
    (i + Z.of_nat j <= MAX_RESET_RETRIES ->
     fst res = (None, htobe32 host flag, be_split 4 flag) /\
     trace (snd res) = trace w ++ attempts_events K flag (S j)) /\
    (MAX_RESET_RETRIES < i + Z.of_nat j ->
     fst (fst (fst res)) = Some (-1) /\
     trace (snd res) =
       trace w ++ attempts_events K flag (Z.to_nat (MAX_RESET_RETRIES + 1 - i))
               ++ [Call_print msg]).
Proof.
  intros HK. induction j as [ | j IH]; intros i reset_status buffer w Hi Hbuf Hne Hdev res;
    subst res; rewrite reset_loop_step;
    rewrite decide_True by exact Hne;
    destruct (decide (i > MAX_RESET_RETRIES)) as [Hgt | Hle].
  - (* no budget left *)
    replace (Z.to_nat (MAX_RESET_RETRIES + 1 - i)) with 0%nat by lia.
    split; [lia | intros _]. split; reflexivity.
  - (* the device shows the flag in this attempt *)
    cbv zeta.
    destruct (Hdev (trace w ++ attempt_events K flag)) as (Hlen & _ & Hset).
    rewrite reset_attempt_run by assumption. cbn [fst snd].
    rewrite Hset by (rewrite reads_so_far_attempt; lia).
    rewrite (proj2 (load32_htobe32 host flag (be_split 4 flag) (length_be_split 4 flag)))
      by reflexivity.
    rewrite reset_loop_step.
    rewrite decide_False by (intros Hcontra; apply Hcontra; reflexivity).
    cbn [fst snd trace].
    split; [intros _ | lia].
    split; [reflexivity | ]. cbn [attempts_events]. rewrite app_nil_r. reflexivity.
  - (* no budget left *)
    replace (Z.to_nat (MAX_RESET_RETRIES + 1 - i)) with 0%nat by lia.
    split; [lia | intros _]. split; reflexivity.
  - (* the device does not show the flag in this attempt *)
    cbv zeta.
    destruct (Hdev (trace w ++ attempt_events K flag)) as (Hlen & Hunset & _).
    rewrite reset_attempt_run by assumption. cbn [fst snd].
    assert (Hne' : htobe32 host flag
                   <> load32 host (read_back E (trace w ++ attempt_events K flag))).
    { intros Heq. symmetry in Heq. apply load32_htobe32 in Heq; [ | exact Hlen].
      revert Heq. apply Hunset. rewrite reads_so_far_attempt. lia. }
    match goal with
    | |- context [reset_loop E K host msg _ (i + 1) ?s ?b ?w'] =>
        destruct (IH (i + 1) s b w') as [Hok Hfail]
    end.
    + unfold MAX_RESET_RETRIES in *. lia.
    + exact Hlen.
    + exact Hne'.
    + cbn [trace]. rewrite reads_so_far_attempt.
      intros h. destruct (Hdev h) as (Hl & Hu & Hs).
      split; [exact Hl | ]. split.
      * intros Hn. apply Hu. lia.
      * intros Hn. apply Hs. lia.
    + cbn [trace] in Hok, Hfail. split.
      * intros Hbudget. destruct Hok as [Hres Htrace]; [lia | ].
        split; [exact Hres | ].
        rewrite Htrace, <- app_assoc. reflexivity.
      * intros Hbudget. destruct Hfail as [Hres Htrace]; [lia | ].
        split; [exact Hres | ].
        rewrite Htrace, <- app_assoc.
        rewrite (attempts_events_S K flag i) by lia.
        rewrite <- app_assoc. reflexivity.
Qed.

Lemma reads_so_far_attempts K flag n h :
  reads_so_far (h ++ attempts_events K flag n) = (reads_so_far h + n)%nat.
Proof.
  revert h. induction n as [ | n IH]; intros h; cbn [attempts_events].
  - rewrite app_nil_r. lia.
  - rewrite app_assoc, IH, reads_so_far_attempt. lia.
Qed.

Lemma htobe32_flags_differ host : htobe32 host 1 <> htobe32 host 0.
Proof.
  intros Heq. apply (f_equal (store32 host)) in Heq.
  rewrite !store32_htobe32 in Heq. vm_compute in Heq. discriminate.
Qed.


Lemma reset_device_set_phase k1 k2 : flag_seen_after (reset_device k1 k2) 0 k1 1.
Proof.
  intros h. unfold read_back, reset_device. cbn [env_read8 snd].
  destruct (Nat.ltb_spec k1 (reads_so_far h)) as [Hlt | Hge];
    destruct (Nat.leb_spec (reads_so_far h) (k1 + 1 + k2)) as [Hle | Hgt];
    cbn [andb]; (split; [reflexivity | split; intros Hn; try lia; try reflexivity]);
    vm_compute; discriminate.
Qed.

Lemma reset_device_clear_phase k1 k2 :
  flag_seen_after (reset_device k1 k2) (0 + k1 + 1) k2 0.
Proof.
  intros h. unfold read_back, reset_device. cbn [env_read8 snd].
  destruct (Nat.ltb_spec k1 (reads_so_far h)) as [Hlt | Hge];
    destruct (Nat.leb_spec (reads_so_far h) (k1 + 1 + k2)) as [Hle | Hgt];
    cbn [andb]; (split; [reflexivity | split; intros Hn; try lia; try reflexivity]);
    vm_compute; discriminate.
Qed.


(** The budget's edge, evaluated: four failed reads per phase still succeed
    (ten attempts in all), a fifth failed read in either phase does not. *)
Example reset_budget_edge :
  let w := sim_world (sim_fpga 32 28) in
  let run k1 k2 := litexcnc_eth_reset (reset_device k1 k2) sim_constants HostBig w in
  fst (run 4 4)%nat = 0 /\
  reads_so_far (trace (snd (run 4 4)%nat)) = 10%nat /\
  fst (run 5 0)%nat = -1 /\
  reads_so_far (trace (snd (run 5 0)%nat)) = 5%nat /\
  fst (run 0 5)%nat = -1 /\
  reads_so_far (trace (snd (run 0 5)%nat)) = 6%nat.
Proof. vm_compute. repeat split. Qed.

(** C9, as stated, fails: a device that never shows the flag set exhausts the
    set phase (five writes of 1, none of 0), a device that shows it set at
    once and never clear again exhausts the clear phase (one write of 1, five
    of 0), and both runs return the same value -1. *)
Lemma reset_failure_codes_coincide :
  let w := sim_world (sim_fpga 32 28) in
  let set_failed := litexcnc_eth_reset (reset_device 5 0) sim_constants HostLittle w in
  let clear_failed := litexcnc_eth_reset (reset_device 0 5) sim_constants HostLittle w in
  (writes_of (be_split 4 1) (trace (snd set_failed)) = 5%nat /\
   writes_of (be_split 4 0) (trace (snd set_failed)) = 0%nat) /\
  (writes_of (be_split 4 1) (trace (snd clear_failed)) = 1%nat /\
   writes_of (be_split 4 0) (trace (snd clear_failed)) = 5%nat) /\
  fst set_failed = -1 /\
  fst clear_failed = -1 /\
  ~ (fst set_failed <> fst clear_failed).
Proof.
  vm_compute. repeat split. intros Hne. apply Hne. reflexivity.
Qed.

(** Either loop ends normally or returns -1 after logging its message; it
    never touches the board. *)
Lemma reset_loop_exit E K host msg reset_flag :
  forall (n : nat) (i reset_status : Z) (buffer : list byte) (w : world),
    Z.to_nat (MAX_RESET_RETRIES + 1 - i) = n ->
    let res := reset_loop E K host msg reset_flag i reset_status buffer w in
    board (snd res) = board w /\
    (fst (fst (fst res)) = None \/
     (fst (fst (fst res)) = Some (-1) /\
      exists h, trace (snd res) = h ++ [Call_print msg])).
Proof.
  induction n as [ | n IH]; intros i reset_status buffer w Hn res; subst res;
    rewrite reset_loop_step;
    (destruct (decide (reset_flag <> reset_status)) as [Hne | Heq];
     [ | split; [reflexivity | left; reflexivity]]);
    destruct (decide (i > MAX_RESET_RETRIES)) as [Hgt | Hle];
    try (split; [reflexivity | right; split; [reflexivity | ]];
         exists (trace w); reflexivity).
  - unfold MAX_RESET_RETRIES in *. lia.
  - cbv zeta.
    match goal with
    | |- context [reset_loop E K host msg _ (i + 1) ?s ?b ?w'] =>
        destruct (IH (i + 1) s b w' ltac:(lia)) as [Hboard Hexit]
    end.
    split; [ | exact Hexit].
    rewrite Hboard. unfold reset_attempt. cbv zeta. run_calls. reflexivity.
Qed.

(** C9, amended: when the retry budget is exhausted, [litexcnc_eth_reset]
    returns -1 in the clear phase exactly as in the set phase.  A run whose
    set phase exhausts its five attempts (the flag is not read back as set in
    the first five reads) and a run whose set phase passes and whose clear
    phase exhausts its five attempts return the same value, -1; what tells
    them apart is the message logged last, which is that of the phase that
    failed. *)
Theorem reset_failure_code_shared E1 E2 K host w1 w2 k1 j k2 :
  LITEXCNC_RESET_HEADER_SIZE K = 4 ->
  flag_seen_after E1 (reads_so_far (trace w1)) k1 1 ->
  (5 <= k1)%nat ->
  flag_seen_after E2 (reads_so_far (trace w2)) j 1 ->
  (j < 5)%nat ->
  flag_seen_after E2 (reads_so_far (trace w2) + j + 1) k2 0 ->
  (5 <= k2)%nat ->
  let set_failed := litexcnc_eth_reset E1 K host w1 in
  let clear_failed := litexcnc_eth_reset E2 K host w2 in
  fst set_failed = -1 /\
  fst clear_failed = -1 /\
  fst set_failed = fst clear_failed /\
  trace (snd set_failed) =
    trace w1 ++ attempts_events K 1 5 ++ [Call_print msg_reset_failed] /\
  trace (snd clear_failed) =
    trace w2 ++ attempts_events K 1 (S j) ++ attempts_events K 0 5
             ++ [Call_print msg_no_response] /\
  msg_reset_failed <> msg_no_response.
Proof.
  intros HK Hset1 Hk1 Hset2 Hj Hclear2 Hk2 set_failed clear_failed.
  assert (Hfirst : fst set_failed = -1 /\
                   trace (snd set_failed) =
                     trace w1 ++ attempts_events K 1 5 ++ [Call_print msg_reset_failed]).
  { subst set_failed.
    unfold litexcnc_eth_reset, rtapi_kmalloc, history, bind, ret. rewrite HK.
    set (buffer := resize (Z.to_nat 4) Byte.x00 (env_kmalloc E1 (trace w1))).
    assert (Hbuf : length buffer = 4%nat) by apply length_resize.
    pose proof (reset_loop_run E1 K host "Reset of the card failed after %d times" 1 HK
                  k1 1 (htobe32 host 0) buffer w1
                  ltac:(unfold MAX_RESET_RETRIES; lia) Hbuf
                  (htobe32_flags_differ host) Hset1) as [_ Hfail].
    cbv zeta in Hfail. unfold MAX_RESET_RETRIES in Hfail.
    destruct (reset_loop E1 K host "Reset of the card failed after %d times"
                (htobe32 host 1) 1 (htobe32 host 0) buffer w1)
      as [[[early status1] buffer1] w1'].
    cbn [fst snd] in Hfail.
    destruct Hfail as [Hres Htrace]; [lia | ]. subst early.
    split; [reflexivity | exact Htrace]. }
  assert (Hsecond : fst clear_failed = -1 /\
                    trace (snd clear_failed) =
                      trace w2 ++ attempts_events K 1 (S j) ++ attempts_events K 0 5
                               ++ [Call_print msg_no_response]).
  { subst clear_failed.
    unfold litexcnc_eth_reset, rtapi_kmalloc, history, bind, ret. rewrite HK.
    set (buffer := resize (Z.to_nat 4) Byte.x00 (env_kmalloc E2 (trace w2))).
    assert (Hbuf : length buffer = 4%nat) by apply length_resize.
    pose proof (reset_loop_run E2 K host "Reset of the card failed after %d times" 1 HK
                  j 1 (htobe32 host 0) buffer w2
                  ltac:(unfold MAX_RESET_RETRIES; lia) Hbuf
                  (htobe32_flags_differ host) Hset2) as [Hok _].
    cbv zeta in Hok. unfold MAX_RESET_RETRIES in Hok.
    destruct (reset_loop E2 K host "Reset of the card failed after %d times"
                (htobe32 host 1) 1 (htobe32 host 0) buffer w2)
      as [[[early status1] buffer1] w2'].
    cbn [fst snd] in Hok.
    destruct Hok as [Hres Htrace]; [lia | ].
    injection Hres as -> -> ->.
    assert (Hreads : reads_so_far (trace w2') = (reads_so_far (trace w2) + j + 1)%nat).
    { rewrite Htrace, reads_so_far_attempts. lia. }
    rewrite <- Hreads in Hclear2.
    pose proof (reset_loop_run E2 K host "FPGA did not respond after reset for %d times"
                  0 HK k2 1 (htobe32 host 1) (be_split 4 1) w2'
                  ltac:(unfold MAX_RESET_RETRIES; lia) (length_be_split 4 1)
                  (fun Heq => htobe32_flags_differ host (eq_sym Heq)) Hclear2)
      as [_ Hfail2].
    cbv zeta in Hfail2. unfold MAX_RESET_RETRIES in Hfail2.
    destruct (reset_loop E2 K host "FPGA did not respond after reset for %d times"
                (htobe32 host 0) 1 (htobe32 host 1) (be_split 4 1) w2')
      as [[[early2 status2] buffer2] w2''].
    cbn [fst snd] in Hfail2.
    destruct Hfail2 as [Hres2 Htrace2]; [lia | ]. subst early2.
    split; [reflexivity | ].
    cbn [snd]. rewrite Htrace2, Htrace, <- app_assoc. reflexivity. }
  destruct Hfirst as [Hr1 Ht1]. destruct Hsecond as [Hr2 Ht2].
  split; [exact Hr1 | ]. split; [exact Hr2 | ].
  split; [rewrite Hr1, Hr2; reflexivity | ].
  split; [exact Ht1 | ]. split; [exact Ht2 | ].
  discriminate.
Qed.

Lemma reset_failure_code_shared_witness :
  let w := sim_world (sim_fpga 32 28) in
  let set_failed := litexcnc_eth_reset (reset_device 7 0) sim_constants HostLittle w in
  let clear_failed := litexcnc_eth_reset (reset_device 2 6) sim_constants HostLittle w in
  fst set_failed = -1 /\
  fst clear_failed = -1 /\
  fst set_failed = fst clear_failed /\
  trace (snd set_failed) =
    trace w ++ attempts_events sim_constants 1 5 ++ [Call_print msg_reset_failed] /\
  trace (snd clear_failed) =
    trace w ++ attempts_events sim_constants 1 3 ++ attempts_events sim_constants 0 5
            ++ [Call_print msg_no_response] /\
  msg_reset_failed <> msg_no_response.
Proof.
  apply (reset_failure_code_shared (reset_device 7 0) (reset_device 2 6)
           sim_constants HostLittle
           (sim_world (sim_fpga 32 28)) (sim_world (sim_fpga 32 28)) 7 2 6).
  - reflexivity.
  - apply reset_device_set_phase.
  - lia.
  - apply reset_device_set_phase.
  - lia.
  - apply reset_device_clear_phase.
  - lia.
Defined.

(** ** The cyclic buffers built by [init_board] *)

(** Reading back a slice of what [list_inserts] put in. *)
Lemma take_drop_inserts {A} (l k : list A) (off j m : nat) :
  (off + length k <= length l)%nat ->
  (off <= j)%nat ->
  (j + m <= off + length k)%nat ->
  take m (drop j (list_inserts off k l)) = take m (drop (j - off) k).
Proof.
  intros Hfit Hoff Hin. apply list_eq. intros x.
  rewrite !lookup_take.
  destruct (decide (x < m)%nat) as [Hx | Hx]; [ | reflexivity].
  rewrite !lookup_drop.
  rewrite list_lookup_inserts by lia.
  f_equal. lia.
Qed.

(** The [i]-th chunk of a concatenation of chunks of [n] elements. *)
Lemma take_drop_concat {A} (n : nat) (l : list (list A)) :
  Forall (fun c => length c = n) l ->
  forall (i : nat) (c : list A),
    l !! i = Some c -> take n (drop (n * i) (concat l)) = c.
Proof.
  induction 1 as [ | x l Hx Hl IH]; intros i c Hi.
  - destruct i; discriminate.
  - destruct i as [ | i]; cbn [concat].
    + injection Hi as <-. rewrite Nat.mul_0_r. cbn [drop].
      apply take_app_length'. symmetry. exact Hx.
    + cbn in Hi. rewrite drop_app_ge by lia.
      replace (n * S i - length x)%nat with (n * i)%nat by lia.
      apply IH. exact Hi.
Qed.

Lemma length_concat_store32 host (addresses : list Z) :
  length (concat (map (store32 host) addresses)) = (4 * length addresses)%nat.
Proof.
  induction addresses as [ | a addresses IH]; [reflexivity | ].
  cbn [map concat]. rewrite length_app, length_store32, IH. cbn [length]. lia.
Qed.

Lemma Forall_length_store32 host (addresses : list Z) :
  Forall (fun c => length c = 4%nat) (map (store32 host) addresses).
Proof.
  induction addresses as [ | a addresses IH]; constructor.
  - apply length_store32.
  - exact IH.
Qed.

Lemma fill_addresses_step host read_base words i addresses :
  fill_addresses host read_base words i addresses =
    if decide (i < words) then
      fill_addresses host read_base words (i + 1)
        (<[Z.to_nat i := htobe32 host (to_uint32 (size_add read_base (size_shl i 2)))]>
           addresses)
    else addresses.
Proof.
  rewrite fill_addresses_unfold_eq at 1. unfold fill_addresses_unfold.
  destruct (decide (i < words)); reflexivity.
Qed.

(** The loop invariant of the address loop: slots below [i] are as they were,
    the others hold the address of their word. *)
Lemma fill_addresses_lookup host read_base words :
  forall (n : nat) (i : Z) (addresses : list Z),
    Z.to_nat (words - i) = n ->
    0 <= i ->
    length addresses = Z.to_nat words ->
    forall j : nat,
      (j < Z.to_nat words)%nat ->
      fill_addresses host read_base words i addresses !! j =
        if decide (Z.of_nat j < i) then addresses !! j
        else Some (htobe32 host
                     (to_uint32 (size_add read_base (size_shl (Z.of_nat j) 2)))).
Proof.
  induction n as [ | n IH]; intros i addresses Hn Hi Hlen j Hj;
    rewrite fill_addresses_step.
  - rewrite decide_False by lia. rewrite decide_True by lia. reflexivity.
  - rewrite decide_True by lia.
    rewrite (IH (i + 1)) by (rewrite ?length_insert; lia).
    destruct (decide (Z.of_nat j < i)) as [Hlt | Hge].
    + rewrite decide_True by lia.
      apply list_lookup_insert_ne. lia.
    + destruct (decide (Z.of_nat j < i + 1)) as [Heq | Hgt]; [ | reflexivity].
      assert (j = Z.to_nat i) as -> by lia.
      rewrite Z2Nat.id by lia.
      apply list_lookup_insert_eq. lia.
Qed.

Lemma length_fill_addresses host read_base words :
  forall (n : nat) (i : Z) (addresses : list Z),
    Z.to_nat (words - i) = n ->
    length (fill_addresses host read_base words i addresses) = length addresses.
Proof.
  induction n as [ | n IH]; intros i addresses Hn; rewrite fill_addresses_step.
  - rewrite decide_False by lia. reflexivity.
  - rewrite decide_True by lia.
    rewrite (IH (i + 1)) by lia. apply length_insert.
Qed.

Lemma mod_2_64_mod_2_32 z : (z mod 2 ^ 64) mod 2 ^ 32 = z mod 2 ^ 32.
Proof.
  change (2 ^ 64) with 18446744073709551616. change (2 ^ 32) with 4294967296.
  Z.div_mod_to_equations. lia.
Qed.

(** The address of word [i] of the read region, as four big-endian bytes. *)
Lemma store32_read_address host read_base i :
  0 <= i < 2 ^ 62 ->
  store32 host (htobe32 host (to_uint32 (size_add read_base (size_shl i 2)))) =
    be_split 4 (read_base + 4 * i).
Proof.
  intros Hi. rewrite store32_htobe32.
  unfold to_uint32, size_add, size_shl, to_size_t.
  rewrite Z.shiftl_mul_pow2 by lia.
  rewrite (Z.mod_small (i * 2 ^ 2)) by lia.
  rewrite <- (be_split_mod 4 (_ mod 2 ^ 64)).
  rewrite (be_split_mod 4 (_ mod 2 ^ 64)), (be_split_mod 4 (read_base + 4 * i)).
  f_equal.
  change (Z.of_nat 4 * 8) with 32.
  rewrite mod_2_64_mod_2_32. f_equal. lia.
Qed.

Lemma lookup_map {A B} (g : A -> B) (l : list A) (i : nat) :
  map g l !! i = match l !! i with Some a => Some (g a) | None => None end.
Proof.
  revert i. induction l as [ | a l IH]; intros [ | i]; cbn; try reflexivity.
  apply IH.
Qed.

(** [(size - 16) >> 2] in [size_t], for a buffer that holds its header. *)
Lemma word_count size : 16 <= size < 2 ^ 64 -> size_shr (size_sub size 16) 2 = (size - 16) / 4.
Proof.
  intros Hsize. unfold size_shr, size_sub.
  rewrite to_size_t_small by lia.
  rewrite Z.shiftr_div_pow2 by lia. reflexivity.
Qed.

Lemma length_build_read_request_buffer K host f fresh :
  length (build_read_request_buffer K host f fresh) = length fresh.
Proof.
  unfold build_read_request_buffer. cbv zeta.
  rewrite length_memcpy, length_insert, length_memcpy. reflexivity.
Qed.

Lemma build_read_request_buffer_count K host f fresh :
  16 <= read_buffer_size f < 2 ^ 64 ->
  length fresh = Z.to_nat (read_buffer_size f) ->
  build_read_request_buffer K host f fresh !! 11%nat =
    Some (byte.of_Z ((read_buffer_size f - 16) / 4)).
Proof.
  intros Hsize Hlen. unfold build_read_request_buffer, memcpy. cbv zeta.
  rewrite word_count by exact Hsize.
  rewrite list_lookup_inserts_lt by lia.
  apply list_lookup_insert_eq. rewrite length_inserts. lia.
Qed.

Lemma build_read_request_buffer_word K host f fresh i :
  16 <= read_buffer_size f < 2 ^ 64 ->
  length fresh = Z.to_nat (read_buffer_size f) ->
  0 <= i < (read_buffer_size f - 16) / 4 ->
  take 4 (drop (Z.to_nat (16 + 4 * i)) (build_read_request_buffer K host f fresh)) =
    be_split 4 (LITEXCNC_ETH_READ_DATA_BASE_ADDRESS K f + 4 * i).
Proof.
  intros Hsize Hlen Hi. unfold build_read_request_buffer, memcpy. cbv zeta.
  rewrite word_count by exact Hsize.
  set (words := (read_buffer_size f - 16) / 4) in *.
  assert (Hwords : 0 <= 4 * words <= read_buffer_size f - 16).
  { subst words. pose proof (Z.mul_div_le (read_buffer_size f - 16) 4 ltac:(lia)). lia. }
  set (addresses := fill_addresses host (LITEXCNC_ETH_READ_DATA_BASE_ADDRESS K f) words 0
                      (replicate (Z.to_nat words) 0)).
  assert (Haddresses : length addresses = Z.to_nat words).
  { subst addresses.
    rewrite (length_fill_addresses host _ words (Z.to_nat (words - 0)) 0) by reflexivity.
    apply length_replicate. }
  assert (Hpayload : length (concat (map (store32 host) addresses)) = (4 * Z.to_nat words)%nat).
  { rewrite length_concat_store32, Haddresses. reflexivity. }
  unfold size_mul. rewrite to_size_t_small by lia.
  rewrite (firstn_all2 (concat _)) by lia.
  rewrite take_drop_inserts
    by (rewrite ?length_insert, ?length_inserts, ?Hpayload; lia).
  replace (Z.to_nat (16 + 4 * i) - 16)%nat with (4 * Z.to_nat i)%nat by lia.
  rewrite <- (store32_read_address host) by lia.
  apply take_drop_concat; [apply Forall_length_store32 | ].
  rewrite lookup_map. subst addresses.
  rewrite (fill_addresses_lookup host _ words (Z.to_nat (words - 0)) 0)
    by (rewrite ?length_replicate; lia).
  rewrite decide_False by lia.
  rewrite Z2Nat.id by lia. reflexivity.
Qed.

Lemma length_set_write_buffer_header K host f :
  length (set_write_buffer_header K host f) = length (write_buffer f).
Proof.
  unfold set_write_buffer_header. cbv zeta.
  rewrite length_memcpy, length_insert, length_memcpy. reflexivity.
Qed.

Lemma set_write_buffer_header_count K host f :
  16 <= write_buffer_size f < 2 ^ 64 ->
  length (write_buffer f) = Z.to_nat (write_buffer_size f) ->
  set_write_buffer_header K host f !! 10%nat =
    Some (byte.of_Z ((write_buffer_size f - 16) / 4)).
Proof.
  intros Hsize Hlen. unfold set_write_buffer_header, memcpy. cbv zeta.
  rewrite word_count by exact Hsize.
  rewrite list_lookup_inserts_lt by lia.
  apply list_lookup_insert_eq. rewrite length_inserts. lia.
Qed.

Lemma set_write_buffer_header_address K host f :
  16 <= write_buffer_size f < 2 ^ 64 ->
  length (write_buffer f) = Z.to_nat (write_buffer_size f) ->
  take 4 (drop 12 (set_write_buffer_header K host f)) =
    be_split 4 (LITEXCNC_ETH_WRITE_DATA_BASE_ADDRESS K).
Proof.
  intros Hsize Hlen. unfold set_write_buffer_header, memcpy. cbv zeta.
  rewrite (firstn_all2 (store32 _ _)) by (rewrite length_store32; lia).
  rewrite take_drop_inserts
    by (rewrite ?length_insert, ?length_inserts, ?length_store32; lia).
  rewrite Nat.sub_diag, drop_0.
  rewrite firstn_all2 by (rewrite length_store32; lia).
  rewrite store32_htobe32. unfold to_uint32.
  symmetry. apply (be_split_mod 4).
Qed.

(** [write_base32] and [read_base32] are the addresses in the buffers: the
    address field of the write buffer and the first address of the
    read-request buffer hold them, stored big-endian. *)
Lemma emitted_base_addresses K host f fresh :
  16 <= write_buffer_size f < 2 ^ 64 ->
  length (write_buffer f) = Z.to_nat (write_buffer_size f) ->
  20 <= read_buffer_size f < 2 ^ 64 ->
  length fresh = Z.to_nat (read_buffer_size f) ->
  take 4 (drop 12 (set_write_buffer_header K host f)) =
    store32 host (htobe32 host (write_base32 K)) /\
  take 4 (drop 16 (build_read_request_buffer K host f fresh)) =
    store32 host (htobe32 host (read_base32 K f)).
Proof.
  intros Hwsize Hwlen Hrsize Hrlen. split.
  - rewrite set_write_buffer_header_address by assumption.
    unfold write_base32. rewrite store32_htobe32. unfold to_uint32.
    apply (be_split_mod 4).
  - unfold read_base32. rewrite store32_read_address by lia.
    apply (build_read_request_buffer_word K host f fresh 0); [lia | exact Hrlen | ].
    split; [lia | ]. apply Z.div_str_pos. lia.
Qed.

(** [init_board] returns 0 only at its last line, with both buffers built
    from the fpga struct that registration left behind. *)
Lemma init_board_success E K host config_file w :
  let res := init_board E K host config_file w in
  fst res = 0 ->
  exists (f : litexcnc_fpga_t) (fresh : list byte),
    length fresh = Z.to_nat (read_buffer_size f) /\
    fpga (board (snd res)) = with_write_buffer f (set_write_buffer_header K host f) /\
    read_request_buffer (board (snd res)) =
      build_read_request_buffer K host
        (with_write_buffer f (set_write_buffer_header K host f)) fresh.
Proof.
  cbv zeta. unfold init_board. cbv zeta. run_calls.
  destruct (env_load_config E _) as [config config_fingerprint].
  destruct (cJSON_IsObject _);
    [ | unfold fail_without_disconnect; run_calls; discriminate].
  cbn [negb].
  destruct (if cJSON_IsString _ then _ else _) as [valuestring | ];
    [ | unfold fail_without_disconnect; run_calls; discriminate].
  unfold eb_connect. run_calls.
  destruct (env_connect E _) as [handle | ];
    [ | unfold fail_disconnect, fail_without_disconnect; run_calls; discriminate].
  unfold success_continue. run_calls.
  match goal with
  | |- context [env_register E ?h ?f0] => destruct (env_register E h f0) as [status f]
  end.
  cbn [fst snd].
  destruct (Z.eqb_spec (to_size_t (to_int status)) 0) as [Hzero | Hnonzero];
    cbn [negb fst snd board trace fpga read_request_buffer].
  - intros _. eexists f, _. split; [ | split; reflexivity].
    cbn [with_write_buffer read_buffer_size]. apply length_resize.
  - intros Hret. exfalso. apply Hnonzero.
    rewrite to_int_to_size_t in Hret by apply to_int_range.
    rewrite Hret. reflexivity.
Qed.

Lemma reset_keeps_board E K host w :
  board (snd (litexcnc_eth_reset E K host w)) = board w.
Proof.
  unfold litexcnc_eth_reset, rtapi_kmalloc, history, bind, ret.
  match goal with
  | |- context [reset_loop E K host ?m ?f 1 ?s ?b w] =>
      destruct (reset_loop_exit E K host m f _ 1 s b w eq_refl) as [Hboard _];
      destruct (reset_loop E K host m f 1 s b w) as [[[early status1] buffer1] w1]
  end.
  cbn [fst snd] in Hboard. destruct early as [r | ]; [exact Hboard | ].
  match goal with
  | |- context [reset_loop E K host ?m ?f 1 ?s ?b w1] =>
      destruct (reset_loop_exit E K host m f _ 1 s b w1 eq_refl) as [Hboard2 _];
      destruct (reset_loop E K host m f 1 s b w1) as [[[early2 status2] buffer2] w2]
  end.
  cbn [fst snd] in Hboard2. rewrite <- Hboard.
  destruct early2; exact Hboard2.
Qed.

(** No board operation writes to the read-request buffer. *)
Lemma board_op_keeps_read_request_buffer E K host op w :
  read_request_buffer (board (snd (run_board_op E K host op w))) =
    read_request_buffer (board w).
Proof.
  destruct op; cbn [run_board_op].
  - unfold litexcnc_eth_verify_config. run_calls.
    repeat match goal with
           | |- context [if ?c then _ else _] => destruct c
           end; reflexivity.
  - rewrite reset_keeps_board. reflexivity.
  - destruct (write_config_events E K data size w) as (_ & -> & _). reflexivity.
  - unfold litexcnc_eth_read. run_calls.
    repeat match goal with
           | |- context [if ?c then _ else _] => destruct c
           end; reflexivity.
  - unfold litexcnc_eth_write. run_calls.
    repeat match goal with
           | |- context [if ?c then _ else _] => destruct c
           end; reflexivity.
Qed.

Lemma board_ops_keep_read_request_buffer E K host ops :
  forall w,
    read_request_buffer (board (snd (run_board_ops E K host ops w))) =
      read_request_buffer (board w).
Proof.
  induction ops as [ | op ops IH]; intros w; [reflexivity | ].
  cbn [run_board_ops]. unfold bind.
  pose proof (board_op_keeps_read_request_buffer E K host op w) as Hop.
  destruct (run_board_op E K host op w) as [r w1]. cbn [snd] in Hop.
  rewrite IH. exact Hop.
Qed.

(** C6, as stated, fails: for a read buffer of 1040 bytes the request asks
    for (1040 - 16) / 4 = 256 words, and byte 11 of the read-request buffer
    holds 0. *)
Lemma read_request_count_wraps :
  let E := sim_device [] 0 (Some sim_config) (Some 1%nat) 0 1040 28 in
  let res := init_board E sim_constants HostLittle "litexcnc.json" blank_world in
  let b := board (snd res) in
  fst res = 0 /\
  (read_buffer_size (fpga b) - 16) / 4 = 256 /\
  read_request_buffer b !! 11%nat = Some Byte.x00 /\
  ~ (exists c, read_request_buffer b !! 11%nat = Some c /\ byte.unsigned c = 256).
Proof.
  vm_compute. repeat split.
  intros (c & Hc & Hval). injection Hc as <-. discriminate Hval.
Qed.

(** C6, amended: in the read-request buffer that a successful [init_board]
    leaves, with N = (read_buffer_size - 16) / 4, byte 11 is the low byte of N
    (N mod 256), and for every i < N the four bytes at offset 16 + 4 * i are
    the four-byte big-endian encoding of the read base plus 4 * i; no board
    operation run afterwards changes the buffer. *)
Theorem read_request_buffer_layout E K host config_file w :
  let res := init_board E K host config_file w in
  fst res = 0 ->
  let b := board (snd res) in
  let size := read_buffer_size (fpga b) in
  16 <= size < 2 ^ 64 ->
  let words := (size - 16) / 4 in
  (exists c, read_request_buffer b !! 11%nat = Some c /\
             byte.unsigned c = words mod 2 ^ 8) /\
  (forall i, 0 <= i < words ->
     take 4 (drop (Z.to_nat (16 + 4 * i)) (read_request_buffer b)) =
       be_split 4 (LITEXCNC_ETH_READ_DATA_BASE_ADDRESS K (fpga b) + 4 * i)) /\
  (forall ops,
     read_request_buffer (board (snd (run_board_ops E K host ops (snd res)))) =
       read_request_buffer b).
Proof.
  intros res Hres b size Hsize words. subst b size words.
  destruct (init_board_success E K host config_file w Hres)
    as (f & fresh & Hfresh & Hfpga & Hbuffer).
  fold res in Hfpga, Hbuffer. rewrite Hbuffer. rewrite Hfpga in *.
  cbn [with_write_buffer read_buffer_size] in Hsize, Hfresh |- *.
  split; [ | split].
  - eexists. split.
    + apply build_read_request_buffer_count; assumption.
    + apply byte.unsigned_of_Z.
  - intros i Hi. apply build_read_request_buffer_word; assumption.
  - intros ops. rewrite board_ops_keep_read_request_buffer. exact Hbuffer.
Qed.

Lemma read_request_buffer_layout_witness :
  let E := sim_device [] 0 (Some sim_config) (Some 1%nat) 0 32 28 in
  let res := init_board E sim_constants HostLittle "litexcnc.json" blank_world in
  let b := board (snd res) in
  (exists c, read_request_buffer b !! 11%nat = Some c /\ byte.unsigned c = 4 mod 2 ^ 8) /\
  (forall i, 0 <= i < 4 ->
     take 4 (drop (Z.to_nat (16 + 4 * i)) (read_request_buffer b)) =
       be_split 4 (32 + 4 * i)) /\
  (forall ops,
     read_request_buffer
       (board (snd (run_board_ops E sim_constants HostLittle ops (snd res)))) =
       read_request_buffer b).
Proof.
  apply (read_request_buffer_layout
           (sim_device [] 0 (Some sim_config) (Some 1%nat) 0 32 28)
           sim_constants HostLittle "litexcnc.json" blank_world).
  - vm_compute. reflexivity.
  - vm_compute. split; [discriminate | reflexivity].
Defined.

(** The read-request buffer for four words of a read region at 32. *)
Example read_request_buffer_example :
  let E := sim_device [] 0 (Some sim_config) (Some 1%nat) 0 32 28 in
  let res := init_board E sim_constants HostBig "litexcnc.json" blank_world in
  read_request_buffer (board (snd res)) =
    map byte.of_Z [0x4e; 0x6f; 0x10; 0x44; 0; 0; 0; 0; 0; 0x0f; 0; 4; 0; 0; 0; 0;
                   0; 0; 0; 32; 0; 0; 0; 36; 0; 0; 0; 40; 0; 0; 0; 44].
Proof. vm_compute. reflexivity. Qed.

(** C7, as stated, fails: for a write buffer of 1040 bytes the payload has
    (1040 - 16) / 4 = 256 words, and byte 10 of the write buffer holds 0. *)
Lemma write_count_wraps :
  let E := sim_device [] 0 (Some sim_config) (Some 1%nat) 0 32 1040 in
  let res := init_board E sim_constants HostLittle "litexcnc.json" blank_world in
  let f := fpga (board (snd res)) in
  fst res = 0 /\
  (write_buffer_size f - 16) / 4 = 256 /\
  write_buffer f !! 10%nat = Some Byte.x00 /\
  ~ (exists c, write_buffer f !! 10%nat = Some c /\ byte.unsigned c = 256).
Proof.
  vm_compute. repeat split.
  intros (c & Hc & Hval). injection Hc as <-. discriminate Hval.
Qed.

(** C7, amended: in the write buffer that a successful [init_board] leaves,
    byte 10 is the low byte of the payload word count
    ((write_buffer_size - 16) / 4 mod 256) and bytes 12 to 15 are the
    four-byte big-endian encoding of the write base. *)
Theorem write_buffer_header_layout E K host config_file w :
  let res := init_board E K host config_file w in
  fst res = 0 ->
  let f := fpga (board (snd res)) in
  let size := write_buffer_size f in
  16 <= size < 2 ^ 64 ->
  length (write_buffer f) = Z.to_nat size ->
  (exists c, write_buffer f !! 10%nat = Some c /\
             byte.unsigned c = ((size - 16) / 4) mod 2 ^ 8) /\
  take 4 (drop 12 (write_buffer f)) =
    be_split 4 (LITEXCNC_ETH_WRITE_DATA_BASE_ADDRESS K).
Proof.
  intros res Hres f size Hsize Hlen. subst f size.
  destruct (init_board_success E K host config_file w Hres)
    as (f & fresh & _ & Hfpga & _).
  fold res in Hfpga. rewrite Hfpga in *.
  cbn [with_write_buffer write_buffer_size write_buffer] in Hsize, Hlen |- *.
  rewrite length_set_write_buffer_header in Hlen.
  split.
  - eexists. split.
    + apply set_write_buffer_header_count; assumption.
    + apply byte.unsigned_of_Z.
  - apply set_write_buffer_header_address; assumption.
Qed.

(** The end-to-end scenario of C7: write base 0x100 and three payload words. *)
Lemma write_buffer_header_layout_witness :
  let E := sim_device [] 0 (Some sim_config) (Some 1%nat) 0 32 28 in
  let res := init_board E sim_constants_0x100 HostLittle "litexcnc.json" blank_world in
  let f := fpga (board (snd res)) in
  LITEXCNC_ETH_WRITE_DATA_BASE_ADDRESS sim_constants_0x100 = 0x100 /\
  (write_buffer_size f - 16) / 4 = 3 /\
  (exists c, write_buffer f !! 10%nat = Some c /\ byte.unsigned c = 3) /\
  take 4 (drop 12 (write_buffer f)) = [Byte.x00; Byte.x00; Byte.x01; Byte.x00].
Proof.
  cbv zeta. split; [reflexivity | ]. split; [vm_compute; reflexivity | ].
  apply (write_buffer_header_layout
           (sim_device [] 0 (Some sim_config) (Some 1%nat) 0 32 28)
           sim_constants_0x100 HostLittle "litexcnc.json" blank_world).
  - vm_compute. reflexivity.
  - vm_compute. split; [discriminate | reflexivity].
  - vm_compute. reflexivity.
Defined.

(** ** Failure paths of [init_board] *)

(** The path through [fail_disconnect]: the connection attempt failed, so
    [eb_disconnect] is called on a null connection before -1 is returned. *)
Example init_board_connect_failure :
  let E := sim_device [] 0 (Some sim_config) None 0 32 28 in
  let res := init_board E sim_constants HostLittle "litexcnc.json" blank_world in
  fst res = -1 /\
  connection (board (snd res)) = None /\
  trace (snd res) =
    [Call_load_config "litexcnc.json";
     Call_print "Connecting to board at address: %s:1234 ";
     Call_eb_connect "10.0.0.10" "1234" 1;
     Call_print "colorcnc: ERROR: failed to connect to board on ip-address '%s:1234'";
     Call_eb_disconnect;
     Call_cJSON_Delete].
Proof. vm_compute. repeat split. Qed.

(** The path through [fail_without_disconnect]: a configuration without the
    [etherbone] key; leading spaces of the path are skipped. *)
Example init_board_missing_key :
  let E := sim_device [] 0 (Some (cJSON_Object [])) (Some 1%nat) 0 32 28 in
  let res := init_board E sim_constants HostLittle "  litexcnc.json" blank_world in
  fst res = -1 /\
  trace (snd res) =
    [Call_load_config "litexcnc.json";
     Call_print "Missing required JSON key: '%s'";
     Call_cJSON_Delete].
Proof. vm_compute. repeat split. Qed.

(** Whenever [init_board] fails while the board holds a connection that it did
    not hold before, none of the calls it made is [eb_disconnect]. *)
Lemma init_board_failure_with_connection E K host config_file w :
  connection (board w) = None ->
  let res := init_board E K host config_file w in
  fst res <> 0 ->
  connection (board (snd res)) <> None ->
  exists events,
    trace (snd res) = trace w ++ events /\
    existsb is_connect events = true /\
    existsb is_disconnect events = false.
Proof.
  intros Hnone. cbv zeta. unfold init_board. cbv zeta. run_calls.
  destruct (env_load_config E _) as [config config_fingerprint].
  destruct (cJSON_IsObject _); cbn [negb];
    [ | unfold fail_without_disconnect; run_calls; intros _ Hcon; contradiction].
  destruct (if cJSON_IsString _ then _ else _) as [valuestring | ];
    [ | unfold fail_without_disconnect; run_calls; intros _ Hcon; contradiction].
  unfold eb_connect. run_calls.
  destruct (env_connect E _) as [handle | ];
    [ | unfold fail_disconnect, fail_without_disconnect; run_calls;
        cbn [connection]; intros _ Hcon; contradiction].
  unfold success_continue. run_calls.
  match goal with
  | |- context [env_register E ?h ?f0] => destruct (env_register E h f0) as [status f]
  end.
  cbn [fst snd].
  destruct (Z.eqb_spec (to_size_t (to_int status)) 0) as [Hzero | Hnonzero];
    cbn [negb fst snd board trace].
  - intros Hret. contradiction Hret. reflexivity.
  - intros _ _. eexists. rewrite <- !app_assoc. cbn [app].
    split; [reflexivity | ]. split; reflexivity.
Qed.

(** C10, the code at a failing input: the configuration names a board, the
    connection is established, and [litexcnc_register] returns -1.
    [init_board] returns -1 with the connection still held: after
    [eb_connect] it calls neither [eb_disconnect] nor [cJSON_Delete]. *)
Theorem init_board_register_failure_keeps_connection :
  let E := sim_device [] 0 (Some sim_config) (Some 1%nat) (-1) 32 28 in
  let res := init_board E sim_constants HostLittle "litexcnc.json" blank_world in
  fst res = -1 /\
  connection (board (snd res)) = Some 1%nat /\
  trace (snd res) =
    [Call_load_config "litexcnc.json";
     Call_print "Connecting to board at address: %s:1234 ";
     Call_eb_connect "10.0.0.10" "1234" 1;
     Call_register 0xABCD1234;
     Call_print "board fails LitexCNC registration"] /\
  existsb is_disconnect (trace (snd res)) = false.
Proof. vm_compute. repeat split. Qed.

(** * Further properties of the board operations *)

(** ** [litexcnc_eth_verify_config] *)

(** X1: when [eb_read8] fails, [litexcnc_eth_verify_config] hands back the
    transport's own negative status (not -1), logs one message and leaves the
    board as it was; the bytes are not looked at. *)
Theorem verify_config_read_failure E K host w r data :
  env_read8 E (trace w ++
               [Call_eb_read8 0 (LITEXCNC_HEADER_DATA_READ_SIZE K) false]) = (r, data) ->
  - 2 ^ 31 <= r < 0 ->
  let res := litexcnc_eth_verify_config E K host w in
  fst res = r /\
  board (snd res) = board w /\
  trace (snd res) =
    trace w ++ [Call_eb_read8 0 (LITEXCNC_HEADER_DATA_READ_SIZE K) false;
                Call_print "Cannot read from FPGA"].
Proof.
  intros Hread Hr res. subst res.
  unfold litexcnc_eth_verify_config. run_calls.
  unfold LITEXCNC_ETH_INIT_DATA_BASE_ADDRESS. rewrite Hread. cbn [fst snd].
  rewrite to_int_small by lia.
  destruct (Z.ltb_spec r 0) as [_ | Hpos]; [ | lia].
  cbn [fst snd board trace]. rewrite <- app_assoc. repeat split.
Qed.

Lemma verify_config_read_failure_witness :
  let data := be_split 4 0x18052022 ++ be_split 4 2 ++ be_split 4 0xABCD1234 in
  let E := {| env_kmalloc := fun _ => []; env_connect := fun _ => None;
              env_read8 := fun _ => (-5, data); env_write8 := fun _ => 0;
              env_send := fun _ => 0; env_recv := fun _ => (0, []);
              env_load_config := fun _ => (None, 0);
              env_register := fun _ f => (0, f) |} in
  let w := sim_world (sim_fpga 32 28) in
  let res := litexcnc_eth_verify_config E sim_constants HostLittle w in
  fst res = -5 /\
  board (snd res) = board w /\
  trace (snd res) =
    trace w ++ [Call_eb_read8 0 12 false; Call_print "Cannot read from FPGA"].
Proof.
  cbv zeta.
  match goal with
  | |- context [litexcnc_eth_verify_config ?E _ _ ?w] =>
      apply (verify_config_read_failure E sim_constants HostLittle w (-5)
               (be_split 4 0x18052022 ++ be_split 4 2 ++ be_split 4 0xABCD1234))
  end.
  - reflexivity.
  - lia.
Defined.

(** X2: [litexcnc_eth_verify_config] never returns a positive value, and it
    changes the board only when it returns 0: then nothing but [version] and
    [fingerprint] of the fpga struct is new. *)
Theorem verify_config_changes_board_on_success_only E K host w :
  let res := litexcnc_eth_verify_config E K host w in
  (fst res = 0 /\ exists v fp, board (snd res) = verified_board (board w) v fp) \/
  (fst res < 0 /\ board (snd res) = board w).
Proof.
  cbv zeta. unfold litexcnc_eth_verify_config. run_calls.
  match goal with
  | |- context [to_int ?x <? 0] => destruct (Z.ltb_spec (to_int x) 0) as [Hneg | Hpos]
  end.
  - right. cbn [fst snd board]. split; [exact Hneg | reflexivity].
  - match goal with
    | |- context [negb ?c] => destruct c
    end; cbn [negb fst snd board].
    + left. split; [reflexivity | ]. eexists _, _. reflexivity.
    + right. split; [lia | reflexivity].
Qed.

(** ** [litexcnc_eth_read] and [litexcnc_eth_write] *)

Lemma count_calls_app p h1 h2 :
  count_calls p (h1 ++ h2) = (count_calls p h1 + count_calls p h2)%nat.
Proof.
  induction h1 as [ | e h1 IH]; [reflexivity | ].
  cbn [app count_calls]. rewrite IH. destruct (p e); reflexivity.
Qed.

(** X3: when the read request cannot be sent, [litexcnc_eth_read] returns -1
    without calling [eb_recv] and leaves the board, its read buffer included,
    as it was. *)
Theorem read_send_failure E w r :
  env_send E (trace w ++ read_request_events w) = r ->
  - 2 ^ 31 <= r < 0 ->
  let res := litexcnc_eth_read E w in
  fst res = -1 /\
  board (snd res) = board w /\
  count_calls is_recv (trace (snd res)) = count_calls is_recv (trace w) /\
  trace (snd res) =
    trace w ++ read_request_events w ++
    [Call_print "Could not write addresses to read to device `%s`, error code %d"].
Proof.
  intros Hsend Hr res. subst res.
  unfold litexcnc_eth_read, read_request_events in *. run_calls.
  rewrite <- !app_assoc. cbn [app].
  rewrite Hsend, to_int_small by lia.
  destruct (Z.ltb_spec r 0) as [_ | Hpos]; [ | lia].
  cbn [fst snd board trace]. rewrite <- !app_assoc. cbn [app].
  split; [reflexivity | ]. split; [reflexivity | ]. split; [ | reflexivity].
  rewrite count_calls_app. cbn. lia.
Qed.

Lemma read_send_failure_witness :
  let w := sim_world (sim_fpga 32 28) in
  let res := litexcnc_eth_read silent_device w in
  fst res = -1 /\
  board (snd res) = board w /\
  count_calls is_recv (trace (snd res)) = count_calls is_recv (trace w) /\
  trace (snd res) =
    trace w ++ read_request_events w ++
    [Call_print "Could not write addresses to read to device `%s`, error code %d"].
Proof.
  apply (read_send_failure silent_device (sim_world (sim_fpga 32 28)) (-1)).
  - reflexivity.
  - lia.
Defined.

(** X4: whatever the transport answers, [litexcnc_eth_read] writes to nothing
    but the read buffer of the fpga struct, whose length it keeps. *)
Theorem read_touches_read_buffer_only E w :
  let b := board w in
  let b' := board (snd (litexcnc_eth_read E w)) in
  hal_param_debug b' = hal_param_debug b /\
  connection b' = connection b /\
  read_request_buffer b' = read_request_buffer b /\
  fpga b' = with_read_buffer (fpga b) (read_buffer (fpga b')) /\
  length (read_buffer (fpga b')) = length (read_buffer (fpga b)).
Proof.
  cbv zeta. unfold litexcnc_eth_read. run_calls.
  match goal with
  | |- context [to_int ?x <? 0] => destruct (to_int x <? 0)
  end; cbn [fst snd board].
  - repeat split. destruct (fpga (board w)); reflexivity.
  - match goal with
    | |- context [negb ?c] => destruct c
    end; cbn [negb fst snd board hal_param_debug connection read_request_buffer fpga
                with_read_buffer read_buffer];
      repeat split; apply length_memcpy.
Qed.

(** X5: [litexcnc_eth_write] makes two calls, the wait and the send of the
    first [write_buffer_size] bytes of the write buffer; it returns -1 when
    the send result is negative and the send result itself otherwise, never
    receives and never changes the board. *)
Theorem write_sends_once E w :
  let f := fpga (board w) in
  let calls := [Call_eb_wait_for_tx_buffer_empty;
                Call_eb_send (take (Z.to_nat (write_buffer_size f)) (write_buffer f))
                             (write_buffer_size f)] in
  let r := to_int (env_send E (trace w ++ calls)) in
  let res := litexcnc_eth_write E w in
  fst res = (if r <? 0 then -1 else r) /\
  board (snd res) = board w /\
  trace (snd res) =
    trace w ++ calls ++
    (if r <? 0 then [Call_print "Could not write data to device `%s`, error code %d"]
     else []).
Proof.
  cbv zeta. unfold litexcnc_eth_write. run_calls.
  rewrite <- !app_assoc. cbn [app].
  match goal with
  | |- context [to_int ?x <? 0] => destruct (to_int x <? 0)
  end; cbn [fst snd board trace]; rewrite <- ?app_assoc; repeat split.
Qed.

Lemma read_receive_error_witness :
  let w := sim_world (sim_fpga 32 28) in
  fst (litexcnc_eth_read (sim_device [] (-1) None None 0 0 0) w) = -1.
Proof.
  apply (read_receive_error (sim_device [] (-1) None None 0 0 0)
           (sim_world (sim_fpga 32 28)) 0 (-1) []).
  - vm_compute. split; [discriminate | reflexivity].
  - reflexivity.
  - lia.
  - reflexivity.
  - lia.
Defined.

(** ** [litexcnc_eth_reset] against any device *)

(** One attempt, whatever the device delivers: three calls, and the buffer
    keeps its four bytes. *)
Lemma reset_attempt_any E K host flag reset_status buffer w :
  LITEXCNC_RESET_HEADER_SIZE K = 4 ->
  length buffer = 4%nat ->
  let r := reset_attempt E K host (htobe32 host flag) reset_status buffer w in
  trace (snd r) = trace w ++ attempt_events K flag /\
  length (snd (fst r)) = 4%nat.
Proof.
  intros HK Hbuf. cbv zeta.
  unfold reset_attempt, attempt_events. cbv zeta. run_calls. rewrite HK.
  change (Z.to_nat 4) with 4%nat.
  rewrite (memcpy_whole buffer (store32 host (htobe32 host flag)) 4)
    by (rewrite ?length_store32; lia).
  rewrite store32_htobe32.
  rewrite firstn_all2 by (rewrite length_be_split; lia).
  rewrite <- !app_assoc. cbn [app].
  split; [reflexivity | ].
  rewrite length_memcpy. apply length_be_split.
Qed.

(** Either loop, entered with counter [i]: it makes at most
    [MAX_RESET_RETRIES + 1 - i] attempts; it ends normally only with the
    status equal to the flag, and returns -1 only after using every attempt
    that was left. *)
Lemma reset_loop_shape E K host msg flag :
  LITEXCNC_RESET_HEADER_SIZE K = 4 ->
  forall (n : nat) (i reset_status : Z) (buffer : list byte) (w : world),
    Z.to_nat (MAX_RESET_RETRIES + 1 - i) = n ->
    length buffer = 4%nat ->
    let res := reset_loop E K host msg (htobe32 host flag) i reset_status buffer w in
    length (snd (fst res)) = 4%nat /\
    exists m : nat,
      (m <= n)%nat /\
      ((fst (fst (fst res)) = None /\
        snd (fst (fst res)) = htobe32 host flag /\
        (htobe32 host flag <> reset_status -> (1 <= m)%nat) /\
        trace (snd res) = trace w ++ attempts_events K flag m) \/
       (fst (fst (fst res)) = Some (-1) /\
        m = n /\
        trace (snd res) = trace w ++ attempts_events K flag n ++ [Call_print msg])).
Proof.
  intros HK. induction n as [ | n IH]; intros i reset_status buffer w Hn Hbuf res;
    subst res; rewrite reset_loop_step;
    (destruct (decide (htobe32 host flag <> reset_status)) as [Hne | Heq];
     [ | split; [exact Hbuf | ];
         exists 0%nat; split; [lia | left];
         cbn [fst snd attempts_events]; rewrite app_nil_r;
         repeat split; [ | intros Hne; contradiction];
         destruct (Z.eq_dec (htobe32 host flag) reset_status) as [<- | Hne];
         [reflexivity | contradiction]]);
    destruct (decide (i > MAX_RESET_RETRIES)) as [Hgt | Hle].
  - split; [exact Hbuf | ]. exists 0%nat. split; [lia | right].
    cbn [fst snd]. repeat split.
  - unfold MAX_RESET_RETRIES in *. lia.
  - unfold MAX_RESET_RETRIES in *. lia.
  - cbv zeta.
    destruct (reset_attempt_any E K host flag reset_status buffer w HK Hbuf)
      as [Htrace Hlen].
    match goal with
    | |- context [reset_loop E K host msg _ (i + 1) ?s ?b ?w'] =>
        destruct (IH (i + 1) s b w' ltac:(lia) Hlen) as (Hlen' & m & Hm & Hcases)
    end.
    rewrite Htrace in Hcases.
    split; [exact Hlen' | ].
    destruct Hcases as [(Hexit & Hstatus & _ & Htr) | (Hexit & -> & Htr)].
    + exists (S m). split; [lia | left].
      split; [exact Hexit | ]. split; [exact Hstatus | ].
      split; [intros _; lia | ].
      rewrite Htr, <- app_assoc. reflexivity.
    + exists (S n). split; [lia | right].
      split; [exact Hexit | ]. split; [reflexivity | ].
      rewrite Htr, <- app_assoc. reflexivity.
Qed.

(** X6: whatever the device answers, [litexcnc_eth_reset] is a run of one to
    five set attempts (write 1, sleep 10, read) followed, when the set phase
    passed, by a run of one to five clear attempts (write 0, sleep 10, read);
    it returns 0 only after at least one attempt of each kind, and returns -1
    only after five attempts of the failing kind, with the matching message
    logged last. *)
Theorem reset_attempts_any_device E K host w :
  LITEXCNC_RESET_HEADER_SIZE K = 4 ->
  let res := litexcnc_eth_reset E K host w in
  exists n1 n2 : nat,
    (1 <= n1 <= 5)%nat /\ (n2 <= 5)%nat /\
    ((fst res = 0 /\ (1 <= n2)%nat /\
      trace (snd res) =
        trace w ++ attempts_events K 1 n1 ++ attempts_events K 0 n2) \/
     (fst res = -1 /\ n1 = 5%nat /\ n2 = 0%nat /\
      trace (snd res) =
        trace w ++ attempts_events K 1 5 ++ [Call_print msg_reset_failed]) \/
     (fst res = -1 /\ n2 = 5%nat /\
      trace (snd res) =
        trace w ++ attempts_events K 1 n1 ++ attempts_events K 0 5
                ++ [Call_print msg_no_response])).
Proof.
  intros HK res. subst res.
  unfold litexcnc_eth_reset, rtapi_kmalloc, history, bind, ret. rewrite HK.
  set (buffer := resize (Z.to_nat 4) Byte.x00 (env_kmalloc E (trace w))).
  assert (Hbuf : length buffer = 4%nat) by apply length_resize.
  destruct (reset_loop_shape E K host "Reset of the card failed after %d times" 1 HK
              5 1 (htobe32 host 0) buffer w eq_refl Hbuf)
    as (Hlen1 & n1 & Hn1 & Hcases1).
  destruct (reset_loop E K host "Reset of the card failed after %d times"
              (htobe32 host 1) 1 (htobe32 host 0) buffer w)
    as [[[early status1] buffer1] w1].
  cbn [fst snd] in Hlen1, Hcases1.
  destruct Hcases1 as [(-> & -> & Hfirst & Htrace1) | (-> & -> & Htrace1)].
  - specialize (Hfirst (htobe32_flags_differ host)).
    destruct (reset_loop_shape E K host
                "FPGA did not respond after reset for %d times" 0 HK
                5 1 (htobe32 host 1) buffer1 w1 eq_refl Hlen1)
      as (_ & n2 & Hn2 & Hcases2).
    destruct (reset_loop E K host "FPGA did not respond after reset for %d times"
                (htobe32 host 0) 1 (htobe32 host 1) buffer1 w1)
      as [[[early2 status2] buffer2] w2].
    cbn [fst snd] in Hcases2.
    exists n1, n2. split; [lia | ]. split; [lia | ].
    destruct Hcases2 as [(-> & _ & Hsecond & Htrace2) | (-> & -> & Htrace2)].
    + left. split; [reflexivity | ].
      split; [apply Hsecond; intros Heq; apply (htobe32_flags_differ host);
              symmetry; exact Heq | ].
      cbn [snd]. rewrite Htrace2, Htrace1, <- app_assoc. reflexivity.
    + right. right. split; [reflexivity | ]. split; [reflexivity | ].
      cbn [snd]. rewrite Htrace2, Htrace1, <- app_assoc. reflexivity.
  - exists 5%nat, 0%nat. split; [lia | ]. split; [lia | ].
    right. left. repeat split. exact Htrace1.
Qed.

Lemma reset_attempts_any_device_witness :
  let w := sim_world (sim_fpga 32 28) in
  let res := litexcnc_eth_reset (reset_device 1 7) sim_constants HostBig w in
  exists n1 n2 : nat,
    (1 <= n1 <= 5)%nat /\ (n2 <= 5)%nat /\
    ((fst res = 0 /\ (1 <= n2)%nat /\
      trace (snd res) =
        trace w ++ attempts_events sim_constants 1 n1
                ++ attempts_events sim_constants 0 n2) \/
     (fst res = -1 /\ n1 = 5%nat /\ n2 = 0%nat /\
      trace (snd res) =
        trace w ++ attempts_events sim_constants 1 5
                ++ [Call_print msg_reset_failed]) \/
     (fst res = -1 /\ n2 = 5%nat /\
      trace (snd res) =
        trace w ++ attempts_events sim_constants 1 n1
                ++ attempts_events sim_constants 0 5
                ++ [Call_print msg_no_response])).
Proof.
  apply (reset_attempts_any_device (reset_device 1 7) sim_constants HostBig
           (sim_world (sim_fpga 32 28))).
  reflexivity.
Defined.

(** X7: a device that delivers nothing passes the handshake.  When every
    [eb_read8] leaves the buffer as it was, the buffer still holds the flag
    that was copied into it for the write, so each phase ends after its first
    attempt and [litexcnc_eth_reset] returns 0. *)
Theorem reset_passes_when_reads_deliver_nothing E K host w :
  LITEXCNC_RESET_HEADER_SIZE K = 4 ->
  (forall h, read_back E h = []) ->
  let res := litexcnc_eth_reset E K host w in
  fst res = 0 /\
  trace (snd res) = trace w ++ attempt_events K 1 ++ attempt_events K 0.
Proof.
  intros HK Hsilent res. subst res.
  assert (Hattempt : forall flag reset_status buffer w0,
             length buffer = 4%nat ->
             reset_attempt E K host (htobe32 host flag) reset_status buffer w0 =
               ((htobe32 host flag, be_split 4 flag),
                {| trace := trace w0 ++ attempt_events K flag;
                   driver_comp_id := driver_comp_id w0;
                   boards_count := boards_count w0; board := board w0 |})).
  { intros flag reset_status buffer w0 Hbuf.
    unfold reset_attempt, attempt_events. cbv zeta. run_calls. rewrite HK.
    change (Z.to_nat 4) with 4%nat.
    rewrite (memcpy_whole buffer (store32 host (htobe32 host flag)) 4)
      by (rewrite ?length_store32; lia).
    rewrite store32_htobe32.
    rewrite firstn_all2 by (rewrite length_be_split; lia).
    rewrite <- !app_assoc. cbn [app].
    unfold read_back in Hsilent. rewrite Hsilent.
    unfold memcpy at 2 3. cbn [take list_inserts].
    rewrite memcpy_whole by (rewrite ?length_store32, ?length_be_split; lia).
    rewrite (proj2 (load32_htobe32 host flag (be_split 4 flag) (length_be_split 4 flag)))
      by reflexivity.
    reflexivity. }
  unfold litexcnc_eth_reset, rtapi_kmalloc, history, bind, ret. rewrite HK.
  set (buffer := resize (Z.to_nat 4) Byte.x00 (env_kmalloc E (trace w))).
  assert (Hbuf : length buffer = 4%nat) by apply length_resize.
  rewrite reset_loop_step.
  rewrite decide_True by apply htobe32_flags_differ.
  rewrite decide_False by (unfold MAX_RESET_RETRIES; lia).
  cbv zeta. rewrite Hattempt by exact Hbuf. cbn [fst snd].
  rewrite reset_loop_step.
  rewrite decide_False by (intros Hne; apply Hne; reflexivity).
  rewrite reset_loop_step.
  rewrite decide_True
    by (intros Heq; apply (htobe32_flags_differ host); symmetry; exact Heq).
  rewrite decide_False by (unfold MAX_RESET_RETRIES; lia).
  cbv zeta. rewrite Hattempt by apply length_be_split. cbn [fst snd].
  rewrite reset_loop_step.
  rewrite decide_False by (intros Hne; apply Hne; reflexivity).
  cbn [fst snd trace]. rewrite <- app_assoc. split; reflexivity.
Qed.

Lemma reset_passes_when_reads_deliver_nothing_witness :
  let w := sim_world (sim_fpga 32 28) in
  let res := litexcnc_eth_reset silent_device sim_constants HostLittle w in
  fst res = 0 /\
  trace (snd res) =
    trace w ++ attempt_events sim_constants 1 ++ attempt_events sim_constants 0.
Proof.
  apply (reset_passes_when_reads_deliver_nothing silent_device sim_constants HostLittle
           (sim_world (sim_fpga 32 28))).
  - reflexivity.
  - intros h. reflexivity.
Defined.

(** X8: with the reset header of four bytes, whatever the device answers,
    [litexcnc_eth_reset] leaves the board struct and [boards_count] as they
    were. *)
Theorem reset_leaves_board_untouched E K host w :
  LITEXCNC_RESET_HEADER_SIZE K = 4 ->
  board (snd (litexcnc_eth_reset E K host w)) = board w /\
  boards_count (snd (litexcnc_eth_reset E K host w)) = boards_count w.
Proof.
  intros _. split; [apply reset_keeps_board | ].
  unfold litexcnc_eth_reset, rtapi_kmalloc, history, bind, ret.
  assert (Hloop : forall msg flag n i reset_status buffer w0,
             Z.to_nat (MAX_RESET_RETRIES + 1 - i) = n ->
             boards_count (snd (reset_loop E K host msg flag i reset_status buffer w0))
             = boards_count w0).
  { intros msg flag. induction n as [ | n IH]; intros i reset_status buffer w0 Hn;
      rewrite reset_loop_step;
      (destruct (decide (flag <> reset_status)); [ | reflexivity]);
      destruct (decide (i > MAX_RESET_RETRIES)); try reflexivity.
    - unfold MAX_RESET_RETRIES in *. lia.
    - cbv zeta. rewrite IH by lia.
      unfold reset_attempt. cbv zeta. run_calls. reflexivity. }
  match goal with
  | |- context [reset_loop E K host ?m ?f 1 ?s ?b w] =>
      pose proof (Hloop m f _ 1 s b w eq_refl) as H1;
      destruct (reset_loop E K host m f 1 s b w) as [[[early status1] buffer1] w1]
  end.
  cbn [snd] in H1. destruct early as [r | ]; [exact H1 | ].
  match goal with
  | |- context [reset_loop E K host ?m ?f 1 ?s ?b w1] =>
      pose proof (Hloop m f _ 1 s b w1 eq_refl) as H2;
      destruct (reset_loop E K host m f 1 s b w1) as [[[early2 status2] buffer2] w2]
  end.
  cbn [snd] in H2. rewrite <- H1. destruct early2; exact H2.
Qed.

Lemma reset_leaves_board_untouched_witness :
  let w := sim_world (sim_fpga 32 28) in
  let res := litexcnc_eth_reset (reset_device 1 7) sim_constants HostBig w in
  board (snd res) = board w /\ boards_count (snd res) = boards_count w.
Proof.
  apply (reset_leaves_board_untouched (reset_device 1 7) sim_constants HostBig
           (sim_world (sim_fpga 32 28))).
  reflexivity.
Defined.

(** * Further properties of [init_board] *)

(** X9: which way [init_board] leaves is decided by what it is answered.
    Without an [etherbone] object in the configuration, or without a string
    [ip_address] in it: -1, one message, the configuration freed, the board
    untouched and no connection attempt.  With them and [eb_connect]
    returning a null pointer: -1 after the error message, [eb_disconnect] and
    [cJSON_Delete].  With a connection and a status of [litexcnc_register]
    other than 0: that status, the connection held, the fpga struct as
    registration left it, and neither [eb_disconnect] nor [cJSON_Delete]
    called.  With a connection and status 0: 0, the configuration freed once,
    the connection held and [boards_count] one higher.  On every other way
    out [boards_count] is as before. *)
Theorem init_board_exits E K host config_file w :
  let loaded := Call_load_config (skip_spaces config_file) in
  let connecting := Call_print "Connecting to board at address: %s:1234 " in
  let answer := env_load_config E (trace w ++ [loaded]) in
  let etherbone := cJSON_GetObjectItemCaseSensitive (fst answer) "etherbone" in
  let ip_address := cJSON_GetObjectItemCaseSensitive etherbone "ip_address" in
  let address := if cJSON_IsString ip_address then item_valuestring ip_address else None in
  let res := init_board E K host config_file w in
  (cJSON_IsObject etherbone = false \/ address = None ->
   fst res = -1 /\
   board (snd res) = board w /\
   boards_count (snd res) = boards_count w /\
   trace (snd res) =
     trace w ++ [loaded; Call_print "Missing required JSON key: '%s'";
                 Call_cJSON_Delete]) /\
  (forall ip,
     cJSON_IsObject etherbone = true ->
     address = Some ip ->
     let connect := trace w ++ [loaded; connecting; Call_eb_connect ip "1234" 1] in
     (env_connect E connect = None ->
      fst res = -1 /\
      connection (board (snd res)) = None /\
      fpga (board (snd res)) = fpga (board w) /\
      boards_count (snd res) = boards_count w /\
      trace (snd res) =
        connect ++
        [Call_print "colorcnc: ERROR: failed to connect to board on ip-address '%s:1234'";
         Call_eb_disconnect; Call_cJSON_Delete]) /\
     (forall handle,
        env_connect E connect = Some handle ->
        let registered :=
          env_register E (connect ++ [Call_register (snd answer)])
            (with_driver_fields (fpga (board w)) (driver_comp_id w) 16 16) in
        let status := to_int (fst registered) in
        (status <> 0 ->
         fst res = status /\
         connection (board (snd res)) = Some handle /\
         fpga (board (snd res)) = snd registered /\
         boards_count (snd res) = boards_count w /\
         trace (snd res) =
           connect ++ [Call_register (snd answer);
                       Call_print "board fails LitexCNC registration"]) /\
        (status = 0 ->
         fst res = 0 /\
         connection (board (snd res)) = Some handle /\
         boards_count (snd res) = to_int (boards_count w + 1) /\
         trace (snd res) =
           connect ++ [Call_register (snd answer); Call_cJSON_Delete]))).
Proof.
  cbv zeta. unfold init_board. cbv zeta. run_calls.
  destruct (env_load_config E _) as [config config_fingerprint]. cbn [fst snd].
  destruct (cJSON_IsObject _); cbn [negb].
  - destruct (if cJSON_IsString _ then _ else _) as [valuestring | ].
    + split; [intros [Habs | Habs]; discriminate | ].
      intros ip _ Hip. injection Hip as <-.
      unfold eb_connect. run_calls. rewrite <- ?app_assoc. cbn [app].
      destruct (env_connect E _) as [handle | ].
      * split; [discriminate | ].
        intros handle' Hhandle. injection Hhandle as <-.
        unfold success_continue. run_calls. rewrite <- ?app_assoc.
        cbn [app fpga board driver_comp_id].
        match goal with
        | |- context [env_register E ?h ?f0] =>
            destruct (env_register E h f0) as [status f]
        end.
        cbn [fst snd].
        destruct (Z.eqb_spec (to_size_t (to_int status)) 0) as [Hzero | Hnonzero];
          cbn [negb fst snd board trace boards_count connection fpga].
        -- assert (Hstatus : to_int status = 0).
           { rewrite <- (to_int_to_size_t (to_int status)) by apply to_int_range.
             rewrite Hzero. reflexivity. }
           split; [intros Hne; contradiction | ].
           intros _. rewrite <- ?app_assoc. cbn [app]. repeat split.
        -- split.
           ++ intros _. rewrite to_int_to_size_t by apply to_int_range.
              rewrite <- ?app_assoc. cbn [app]. repeat split.
           ++ intros Hzero. exfalso. apply Hnonzero. rewrite Hzero. reflexivity.
      * split; [ | intros handle Habs; discriminate].
        intros _. unfold fail_disconnect, fail_without_disconnect. run_calls.
        cbn [connection fpga]. rewrite <- ?app_assoc. cbn [app]. repeat split.
    + split; [ | intros ip _ Habs; discriminate].
      intros _. unfold fail_without_disconnect. run_calls.
      rewrite <- ?app_assoc. cbn [app]. repeat split.
  - split; [ | intros ip Habs; discriminate].
    intros _. unfold fail_without_disconnect. run_calls.
    rewrite <- ?app_assoc. cbn [app]. repeat split.
Qed.

Lemma init_board_exits_witness :
  let run E := init_board E sim_constants HostLittle "litexcnc.json" blank_world in
  fst (run (sim_device [] 32 None (Some 1%nat) 0 32 28)) = -1 /\
  fst (run (sim_device [] 32 (Some sim_config) None 0 32 28)) = -1 /\
  fst (run (unregistered_device (-5))) = -5 /\
  fst (run good_device) = 0.
Proof.
  cbv zeta. split; [ | split; [ | split]].
  - apply (init_board_exits (sim_device [] 32 None (Some 1%nat) 0 32 28)
             sim_constants HostLittle "litexcnc.json" blank_world).
    left. reflexivity.
  - apply (proj2 (init_board_exits (sim_device [] 32 (Some sim_config) None 0 32 28)
                    sim_constants HostLittle "litexcnc.json" blank_world)
             "10.0.0.10"%string eq_refl eq_refl).
    reflexivity.
  - apply (proj2 (proj2 (init_board_exits (unregistered_device (-5))
                           sim_constants HostLittle "litexcnc.json" blank_world)
                    "10.0.0.10"%string eq_refl eq_refl) 1%nat eq_refl).
    vm_compute. discriminate.
  - apply (proj2 (proj2 (init_board_exits good_device
                           sim_constants HostLittle "litexcnc.json" blank_world)
                    "10.0.0.10"%string eq_refl eq_refl) 1%nat eq_refl).
    vm_compute. reflexivity.
Defined.

Lemma skip_spaces_spaces n s : skip_spaces (spaces n s) = skip_spaces s.
Proof. induction n as [ | n IH]; [reflexivity | exact IH]. Qed.

(** X10: leading spaces of the configuration path do not matter: a path with
    any number of spaces in front of it is handled exactly like the path
    itself. *)
Theorem init_board_skips_leading_spaces E K host n config_file w :
  init_board E K host (spaces n config_file) w = init_board E K host config_file w.
Proof.
  unfold init_board. cbv zeta. rewrite skip_spaces_spaces. reflexivity.
Qed.

(** Only leading spaces are skipped: the path keeps the spaces inside it. *)
Example init_board_path_example :
  let E := sim_device [] 0 None None 0 0 0 in
  trace (snd (init_board E sim_constants HostLittle "   my board.json " blank_world)) =
    [Call_load_config "my board.json ";
     Call_print "Missing required JSON key: '%s'";
     Call_cJSON_Delete].
Proof. vm_compute. reflexivity. Qed.

(** ** The buffers' headers and payloads *)

(** X11: setting the header of the write buffer touches no payload byte and
    keeps the buffer's length; apart from byte 10 and bytes 12 to 15, the
    first sixteen bytes are those of the etherbone header template. *)
Theorem write_buffer_header_keeps_payload K host f :
  length (etherbone_header K) = 16%nat ->
  (16 <= length (write_buffer f))%nat ->
  let buffer := set_write_buffer_header K host f in
  length buffer = length (write_buffer f) /\
  drop 16 buffer = drop 16 (write_buffer f) /\
  (forall j : nat, (j < 12)%nat -> j <> 10%nat ->
     buffer !! j = etherbone_header K !! j).
Proof.
  intros Hheader Hlen buffer. subst buffer.
  split; [apply length_set_write_buffer_header | ].
  unfold set_write_buffer_header, memcpy. cbv zeta.
  rewrite Hheader. rewrite (firstn_all2 (etherbone_header K)) by lia.
  rewrite (firstn_all2 (store32 _ _)) by (rewrite length_store32; lia).
  split.
  - apply list_eq. intros j. rewrite !lookup_drop.
    rewrite list_lookup_inserts_ge by (rewrite length_store32; lia).
    rewrite list_lookup_insert_ne by lia.
    apply list_lookup_inserts_ge. lia.
  - intros j Hj Hne.
    rewrite list_lookup_inserts_lt by lia.
    rewrite list_lookup_insert_ne by lia.
    rewrite list_lookup_inserts by lia.
    f_equal. lia.
Qed.

Lemma write_buffer_header_keeps_payload_witness :
  let f := sim_fpga 32 28 in
  let buffer := set_write_buffer_header sim_constants HostLittle f in
  length buffer = length (write_buffer f) /\
  drop 16 buffer = drop 16 (write_buffer f) /\
  (forall j : nat, (j < 12)%nat -> j <> 10%nat ->
     buffer !! j = etherbone_header sim_constants !! j).
Proof.
  apply (write_buffer_header_keeps_payload sim_constants HostLittle (sim_fpga 32 28)).
  - reflexivity.
  - vm_compute. lia.
Defined.

(** The three parts of the read-request buffer. *)
Lemma build_read_request_buffer_parts K host f fresh :
  length (etherbone_header K) = 16%nat ->
  16 <= read_buffer_size f < 2 ^ 64 ->
  length fresh = Z.to_nat (read_buffer_size f) ->
  let words := Z.to_nat ((read_buffer_size f - 16) / 4) in
  let buffer := build_read_request_buffer K host f fresh in
  exists payload : list byte,
    length payload = (4 * words)%nat /\
    (16 + 4 * words <= length fresh)%nat /\
    (forall fresh', length fresh' = length fresh ->
       forall j : nat, (16 <= j < 16 + 4 * words)%nat ->
         build_read_request_buffer K host f fresh' !! j = payload !! (j - 16)%nat) /\
    (forall j : nat, (j < 16)%nat -> j <> 11%nat ->
       buffer !! j = etherbone_header K !! j) /\
    (forall j : nat, (16 + 4 * words <= j)%nat -> buffer !! j = fresh !! j).
Proof.
  intros Hheader Hsize Hlen. cbv zeta.
  remember (Z.to_nat ((read_buffer_size f - 16) / 4)) as words eqn:Hw.
  unfold build_read_request_buffer, memcpy. cbv zeta.
  rewrite word_count by exact Hsize.
  assert (Hwords : 0 <= 4 * ((read_buffer_size f - 16) / 4) <= read_buffer_size f - 16).
  { pose proof (Z.mul_div_le (read_buffer_size f - 16) 4 ltac:(lia)).
    pose proof (Z.div_pos (read_buffer_size f - 16) 4 ltac:(lia) ltac:(lia)). lia. }
  set (addresses :=
         fill_addresses host (LITEXCNC_ETH_READ_DATA_BASE_ADDRESS K f)
           ((read_buffer_size f - 16) / 4) 0
           (replicate (Z.to_nat ((read_buffer_size f - 16) / 4)) 0)).
  assert (Haddresses : length addresses = words).
  { subst addresses.
    rewrite (length_fill_addresses host _ _
               (Z.to_nat ((read_buffer_size f - 16) / 4 - 0)) 0) by reflexivity.
    rewrite length_replicate. lia. }
  assert (Hpayload : length (concat (map (store32 host) addresses)) = (4 * words)%nat).
  { rewrite length_concat_store32, Haddresses. reflexivity. }
  unfold size_mul. rewrite to_size_t_small by lia.
  rewrite (firstn_all2 (concat _)) by lia.
  rewrite Hheader. rewrite (firstn_all2 (etherbone_header K)) by lia.
  exists (concat (map (store32 host) addresses)).
  split; [exact Hpayload | ]. split; [lia | ].
  split; [ | split].
  - intros fresh' Hfresh' j Hj.
    apply list_lookup_inserts; [lia | ].
    rewrite length_insert, length_inserts. lia.
  - intros j Hj Hne.
    rewrite list_lookup_inserts_lt by lia.
    rewrite list_lookup_insert_ne by lia.
    rewrite list_lookup_inserts by lia.
    f_equal. lia.
  - intros j Hj.
    rewrite list_lookup_inserts_ge by lia.
    rewrite list_lookup_insert_ne by lia.
    apply list_lookup_inserts_ge. lia.
Qed.

(** X12: when the read buffer size is 16 plus a multiple of 4, every byte of
    the read-request buffer is written by [init_board]: the buffer is the
    same whatever the freshly allocated memory held. *)
Theorem read_request_buffer_fully_initialised K host f fresh1 fresh2 :
  length (etherbone_header K) = 16%nat ->
  16 <= read_buffer_size f < 2 ^ 64 ->
  (read_buffer_size f - 16) mod 4 = 0 ->
  length fresh1 = Z.to_nat (read_buffer_size f) ->
  length fresh2 = Z.to_nat (read_buffer_size f) ->
  build_read_request_buffer K host f fresh1 = build_read_request_buffer K host f fresh2.
Proof.
  intros Hheader Hsize Hmod Hlen1 Hlen2.
  destruct (build_read_request_buffer_parts K host f fresh1 Hheader Hsize Hlen1)
    as (payload & Hpayload & Hfit & Hwords1 & Hhead1 & _).
  destruct (build_read_request_buffer_parts K host f fresh2 Hheader Hsize Hlen2)
    as (_ & _ & _ & _ & Hhead2 & _).
  assert (Hexact : (16 + 4 * Z.to_nat ((read_buffer_size f - 16) / 4))%nat
                   = Z.to_nat (read_buffer_size f)).
  { pose proof (Z.div_mod (read_buffer_size f - 16) 4 ltac:(lia)). lia. }
  apply list_eq. intros j.
  destruct (le_lt_dec (Z.to_nat (read_buffer_size f)) j) as [Hout | Hin].
  - rewrite !(proj2 (lookup_ge_None _ _))
      by (rewrite length_build_read_request_buffer; lia).
    reflexivity.
  - destruct (le_lt_dec 16 j) as [Hpay | Hhead].
    + rewrite (Hwords1 fresh1 eq_refl j) by lia.
      rewrite (Hwords1 fresh2 ltac:(lia) j) by lia. reflexivity.
    + destruct (Nat.eq_dec j 11%nat) as [-> | Hne].
      * rewrite !build_read_request_buffer_count by assumption. reflexivity.
      * rewrite Hhead1, Hhead2 by lia. reflexivity.
Qed.

Lemma read_request_buffer_fully_initialised_witness :
  build_read_request_buffer sim_constants HostLittle (sim_fpga 32 28)
    (replicate 32 Byte.x00) =
  build_read_request_buffer sim_constants HostLittle (sim_fpga 32 28)
    (replicate 32 Byte.xff).
Proof.
  apply (read_request_buffer_fully_initialised sim_constants HostLittle (sim_fpga 32 28)
           (replicate 32 Byte.x00) (replicate 32 Byte.xff)).
  - reflexivity.
  - vm_compute. split; [discriminate | reflexivity].
  - reflexivity.
  - reflexivity.
  - reflexivity.
Defined.

(** X13: the header of the read-request buffer is the etherbone header
    template in every byte but byte 11, and the bytes behind the last whole
    address word (up to three, when the read buffer size is not 16 plus a
    multiple of 4) are never written: they are what the allocation held. *)
Theorem read_request_buffer_unwritten_bytes K host f fresh :
  length (etherbone_header K) = 16%nat ->
  16 <= read_buffer_size f < 2 ^ 64 ->
  length fresh = Z.to_nat (read_buffer_size f) ->
  let buffer := build_read_request_buffer K host f fresh in
  (forall j : nat, (j < 16)%nat -> j <> 11%nat ->
     buffer !! j = etherbone_header K !! j) /\
  (forall j : nat, (16 + 4 * Z.to_nat ((read_buffer_size f - 16) / 4) <= j)%nat ->
     buffer !! j = fresh !! j).
Proof.
  intros Hheader Hsize Hlen buffer. subst buffer.
  destruct (build_read_request_buffer_parts K host f fresh Hheader Hsize Hlen)
    as (_ & _ & _ & _ & Hhead & Htail).
  split; assumption.
Qed.

Lemma read_request_buffer_unwritten_bytes_witness :
  let fresh := replicate 34 Byte.xff in
  let buffer := build_read_request_buffer sim_constants HostLittle (sim_fpga 34 28) fresh in
  (forall j : nat, (j < 16)%nat -> j <> 11%nat ->
     buffer !! j = etherbone_header sim_constants !! j) /\
  (forall j : nat, (16 + 4 * Z.to_nat ((34 - 16) / 4) <= j)%nat ->
     buffer !! j = fresh !! j).
Proof.
  apply (read_request_buffer_unwritten_bytes sim_constants HostLittle (sim_fpga 34 28)
           (replicate 34 Byte.xff)).
  - reflexivity.
  - vm_compute. split; [discriminate | reflexivity].
  - reflexivity.
Defined.

(** The last two bytes of a 34-byte read-request buffer are left over from
    the allocation. *)
Example read_request_buffer_tail_example :
  drop 32 (build_read_request_buffer sim_constants HostLittle (sim_fpga 34 28)
             (replicate 34 Byte.xff)) = [Byte.xff; Byte.xff].
Proof. vm_compute. reflexivity. Qed.

(** X14: after a successful [init_board], a read cycle sends the
    read-request buffer as a whole: all of its [read_buffer_size] bytes, right
    after the wait. *)
Theorem read_sends_whole_request E K host config_file w :
  let res := init_board E K host config_file w in
  fst res = 0 ->
  let b := board (snd res) in
  length (read_request_buffer b) = Z.to_nat (read_buffer_size (fpga b)) /\
  exists rest,
    trace (snd (litexcnc_eth_read E (snd res))) =
      trace (snd res) ++
      Call_eb_wait_for_tx_buffer_empty ::
      Call_eb_send (read_request_buffer b) (read_buffer_size (fpga b)) :: rest.
Proof.
  intros res Hres b. subst b.
  destruct (init_board_success E K host config_file w Hres)
    as (f & fresh & Hfresh & Hfpga & Hbuffer).
  fold res in Hfpga, Hbuffer.
  assert (Hlen : length (read_request_buffer (board (snd res))) =
                 Z.to_nat (read_buffer_size (fpga (board (snd res))))).
  { rewrite Hbuffer, length_build_read_request_buffer, Hfpga. exact Hfresh. }
  split; [exact Hlen | ].
  unfold litexcnc_eth_read. run_calls.
  rewrite (firstn_all2 (read_request_buffer _)) by lia.
  match goal with
  | |- context [to_int ?x <? 0] => destruct (to_int x <? 0)
  end; cbn [fst snd trace].
  - eexists. rewrite <- !app_assoc. reflexivity.
  - match goal with
    | |- context [negb ?c] => destruct c
    end; cbn [negb fst snd trace]; eexists; rewrite <- !app_assoc; reflexivity.
Qed.

Lemma read_sends_whole_request_witness :
  let E := sim_device [] 32 (Some sim_config) (Some 1%nat) 0 32 28 in
  let res := init_board E sim_constants HostLittle "litexcnc.json" blank_world in
  let b := board (snd res) in
  length (read_request_buffer b) = Z.to_nat (read_buffer_size (fpga b)) /\
  exists rest,
    trace (snd (litexcnc_eth_read E (snd res))) =
      trace (snd res) ++
      Call_eb_wait_for_tx_buffer_empty ::
      Call_eb_send (read_request_buffer b) (read_buffer_size (fpga b)) :: rest.
Proof.
  apply (read_sends_whole_request
           (sim_device [] 32 (Some sim_config) (Some 1%nat) 0 32 28)
           sim_constants HostLittle "litexcnc.json" blank_world).
  vm_compute. reflexivity.
Defined.

(** * The name dictionary *)

Lemma length_strncpy n src : length (strncpy n src) = n.
Proof.
  revert src. induction n as [ | n IH]; intros src; [reflexivity | ].
  cbn [strncpy]. destruct (Ascii.eqb (first_char src) NUL); cbn [length]; rewrite IH;
    reflexivity.
Qed.

(** Comparing a name with a key that [strncpy] wrote compares the parts of
    the two names that count. *)
Lemma strncmp_strncpy n a b :
  strncmp_is_0 n a (strncpy n b) = true <-> c_prefix n a = c_prefix n b.
Proof.
  revert a b. induction n as [ | n IH]; intros a b; [split; reflexivity | ].
  cbn [strncmp_is_0 strncpy c_prefix].
  destruct (Ascii.eqb (first_char b) NUL) eqn:Hb; cbn [hd tl].
  - destruct (Ascii.eqb (first_char a) NUL) eqn:Ha.
    + split; reflexivity.
    + split; discriminate.
  - destruct (Ascii.eqb_spec (first_char a) (first_char b)) as [Heq | Hne].
    + rewrite Heq, Hb. rewrite IH. split.
      * intros ->. reflexivity.
      * intros Hc. injection Hc as Hc. exact Hc.
    + destruct (Ascii.eqb (first_char a) NUL); split; try discriminate.
      intros Hc. injection Hc as Hc _. contradiction.
Qed.

(** The comparison looks at no more of the name than [c_prefix] keeps. *)
Lemma strncmp_c_prefix n a b key :
  c_prefix n a = c_prefix n b -> strncmp_is_0 n a key = strncmp_is_0 n b key.
Proof.
  revert a b key. induction n as [ | n IH]; intros a b key; [reflexivity | ].
  cbn [strncmp_is_0 c_prefix].
  destruct (Ascii.eqb_spec (first_char a) NUL) as [Ha | Ha];
    destruct (Ascii.eqb_spec (first_char b) NUL) as [Hb | Hb]; try discriminate.
  - intros _. rewrite Ha, Hb. reflexivity.
  - intros Hc. injection Hc as Hfirst Hrest. rewrite Hfirst.
    destruct (Ascii.eqb (first_char b) (hd NUL key)); [ | reflexivity].
    apply IH. exact Hrest.
Qed.

Lemma dict_find_c_prefix head a b :
  c_prefix dict_key_size a = c_prefix dict_key_size b ->
  dict_find head a = dict_find head b.
Proof.
  intros Hc. induction head as [ | [address ent] rest IH]; [reflexivity | ].
  cbn [dict_find]. rewrite (strncmp_c_prefix _ a b _ Hc), IH. reflexivity.
Qed.

(** What is found lies in the list, under a key that compares equal. *)
Lemma dict_find_Some head name address :
  dict_find head name = Some address ->
  exists ent, In (address, ent) head /\
              strncmp_is_0 dict_key_size name (dict_key ent) = true.
Proof.
  induction head as [ | [a ent] rest IH]; [discriminate | ].
  cbn [dict_find].
  destruct (strncmp_is_0 dict_key_size name (dict_key ent)) eqn:Hcmp.
  - intros Hfound. injection Hfound as <-. exists ent. split; [left; reflexivity | exact Hcmp].
  - intros Hfound. destruct (IH Hfound) as (ent' & Hin & Hcmp').
    exists ent'. split; [right; exact Hin | exact Hcmp'].
Qed.

(** Nothing is found only when no key compares equal. *)
Lemma dict_find_None head name :
  dict_find head name = None ->
  Forall (fun e => strncmp_is_0 dict_key_size name (dict_key (snd e)) = false) head.
Proof.
  induction head as [ | [a ent] rest IH]; [constructor | ].
  cbn [dict_find].
  destruct (strncmp_is_0 dict_key_size name (dict_key ent)) eqn:Hcmp; [discriminate | ].
  intros Hnone. constructor; [exact Hcmp | apply IH; exact Hnone].
Qed.

(** X15: looking a name up again returns the same entry and changes nothing,
    and so does looking up any name with the same first sixteen characters:
    names longer than the key share one entry. *)
Theorem dict_lookup_same_prefix head name name' fresh fresh' :
  c_prefix dict_key_size name' = c_prefix dict_key_size name ->
  let first := dict_lookup head name fresh in
  dict_lookup (snd first) name' fresh' = (fst first, snd first).
Proof.
  intros Hc first. subst first. unfold dict_lookup.
  destruct (dict_find head name) as [address | ] eqn:Hfind; cbn [fst snd].
  - rewrite (dict_find_c_prefix head name' name Hc), Hfind. reflexivity.
  - cbn [dict_find dict_key].
    rewrite (proj2 (strncmp_strncpy dict_key_size name' name) Hc). reflexivity.
Qed.

Lemma dict_lookup_same_prefix_witness :
  let first := dict_lookup [] "litexcnc_eth_board_one" 100 in
  dict_lookup (snd first) "litexcnc_eth_board_two" 101 = (fst first, snd first).
Proof.
  apply (dict_lookup_same_prefix [] "litexcnc_eth_board_one" "litexcnc_eth_board_two"
           100%nat 101%nat).
  reflexivity.
Defined.

(** The pointer that [dict_lookup] returns points into the list, at an entry
    whose key compares equal to the name. *)
Lemma dict_lookup_in_list head name fresh :
  let r := dict_lookup head name fresh in
  exists ent,
    In (fst r, ent) (snd r) /\
    strncmp_is_0 dict_key_size name (dict_key ent) = true.
Proof.
  cbv zeta. unfold dict_lookup.
  destruct (dict_find head name) as [address | ] eqn:Hfind; cbn [fst snd].
  - apply dict_find_Some. exact Hfind.
  - eexists. split; [left; reflexivity | ].
    cbn [dict_key]. apply strncmp_strncpy. reflexivity.
Qed.

Lemma dict_find_first head name before address ent rest :
  head = before ++ (address, ent) :: rest ->
  Forall (fun e => strncmp_is_0 dict_key_size name (dict_key (snd e)) = false) before ->
  strncmp_is_0 dict_key_size name (dict_key ent) = true ->
  dict_find head name = Some address.
Proof.
  intros -> Hbefore Hent.
  induction Hbefore as [ | [a e] before He _ IH]; cbn [app dict_find].
  - rewrite Hent. reflexivity.
  - cbn [snd] in He. rewrite He. exact IH.
Qed.

Lemma dict_find_nowhere head name :
  Forall (fun e => strncmp_is_0 dict_key_size name (dict_key (snd e)) = false) head ->
  dict_find head name = None.
Proof.
  intros Hhead. induction Hhead as [ | [a e] rest He _ IH]; cbn [dict_find].
  - reflexivity.
  - cbn [snd] in He. rewrite He. exact IH.
Qed.

(** X16: [dict_lookup] returns the first entry of the list whose key compares
    equal to the name over the sixteen characters of the key, and leaves the
    list as it was; when no key compares equal it puts one new entry in front
    of the list, at the address that the allocation returned, with value 0 and
    the name's first sixteen characters as key, and returns that entry. *)
Theorem dict_lookup_result head name fresh :
  let differs (e : nat * dict) :=
    strncmp_is_0 dict_key_size name (dict_key (snd e)) = false in
  (forall before address ent rest,
     head = before ++ (address, ent) :: rest ->
     Forall differs before ->
     strncmp_is_0 dict_key_size name (dict_key ent) = true ->
     dict_lookup head name fresh = (address, head)) /\
  (Forall differs head ->
   dict_lookup head name fresh =
     (fresh,
      (fresh, {| dict_key := strncpy dict_key_size name; dict_value := 0 |}) :: head)).
Proof.
  cbv zeta. split.
  - intros before address ent rest Hhead Hbefore Hent. unfold dict_lookup.
    rewrite (dict_find_first head name before address ent rest Hhead Hbefore Hent).
    reflexivity.
  - intros Hhead. unfold dict_lookup. rewrite (dict_find_nowhere head name Hhead).
    reflexivity.
Qed.

Lemma dict_lookup_result_witness :
  let eth0 := {| dict_key := strncpy dict_key_size "eth0"; dict_value := 5 |} in
  let eth1 := {| dict_key := strncpy dict_key_size "eth1"; dict_value := 7 |} in
  let head := [(101%nat, eth1); (100%nat, eth0)] in
  dict_lookup head "eth0" 102 = (100%nat, head) /\
  dict_lookup head "eth2" 102 =
    (102%nat,
     (102%nat, {| dict_key := strncpy dict_key_size "eth2"; dict_value := 0 |}) :: head).
Proof.
  cbv zeta. split.
  - apply (proj1 (dict_lookup_result
                    [(101%nat, {| dict_key := strncpy dict_key_size "eth1"; dict_value := 7 |});
                     (100%nat, {| dict_key := strncpy dict_key_size "eth0"; dict_value := 5 |})]
                    "eth0" 102%nat)
             [(101%nat, {| dict_key := strncpy dict_key_size "eth1"; dict_value := 7 |})]
             100%nat {| dict_key := strncpy dict_key_size "eth0"; dict_value := 5 |} []).
    + reflexivity.
    + constructor; [vm_compute; reflexivity | constructor].
    + vm_compute. reflexivity.
  - apply (proj2 (dict_lookup_result
                    [(101%nat, {| dict_key := strncpy dict_key_size "eth1"; dict_value := 7 |});
                     (100%nat, {| dict_key := strncpy dict_key_size "eth0"; dict_value := 5 |})]
                    "eth2" 102%nat)).
    repeat constructor.
Defined.

(** [dict_lookup] keeps the entries at different addresses and the keys
    written by [strncpy], as long as the allocation returns an address that
    is not in use. *)
Lemma dict_lookup_built head name fresh :
  dict_built head ->
  ~ In fresh (map fst head) ->
  dict_built (snd (dict_lookup head name fresh)).
Proof.
  intros [Haddr Hkeys] Hfresh. unfold dict_lookup.
  destruct (dict_find head name); cbn [snd]; [split; assumption | ].
  split.
  - cbn [map fst]. constructor; assumption.
  - constructor; [ | exact Hkeys]. exists name. reflexivity.
Qed.

Lemma dict_built_find head name address :
  dict_built head ->
  dict_find head name = Some address ->
  exists name0,
    In (address, {| dict_key := strncpy dict_key_size name0;
                    dict_value := default 0 (dict_value_at head address) |}) head /\
    c_prefix dict_key_size name = c_prefix dict_key_size name0.
Proof.
  intros [Haddr Hkeys]. induction head as [ | [a ent] rest IH]; [discriminate | ].
  cbn [dict_find dict_value_at].
  inversion Haddr as [ | ? ? Hnotin Haddr']; subst.
  inversion Hkeys as [ | ? ? [name0 Hkey] Hkeys']; subst. cbn [snd] in Hkey.
  destruct (strncmp_is_0 dict_key_size name (dict_key ent)) eqn:Hcmp.
  - intros Hfound. injection Hfound as <-. rewrite Nat.eqb_refl. cbn [default].
    exists name0. split.
    + left. destruct ent as [k v]. cbn in *. subst k. reflexivity.
    + apply strncmp_strncpy. rewrite <- Hkey. exact Hcmp.
  - intros Hfound. destruct (IH Haddr' Hkeys' Hfound) as (name1 & Hin & Hc).
    exists name1. split; [ | exact Hc].
    destruct (Nat.eqb_spec a address) as [-> | Hne].
    + exfalso. apply Hnotin. apply (in_map fst) in Hin. exact Hin.
    + right. exact Hin.
Qed.

(** X17: names that differ within their first sixteen characters never share
    an entry: in a list that [dict_lookup] built, with allocations that
    return unused addresses, their lookups return different pointers. *)
Theorem dict_lookup_distinct_names head name name' fresh fresh' :
  dict_built head ->
  ~ In fresh (map fst head) ->
  c_prefix dict_key_size name' <> c_prefix dict_key_size name ->
  let first := dict_lookup head name fresh in
  ~ In fresh' (map fst (snd first)) ->
  fst (dict_lookup (snd first) name' fresh') <> fst first.
Proof.
  intros Hbuilt Hfresh Hdiff first Hfresh'.
  pose proof (dict_lookup_built head name fresh Hbuilt Hfresh) as Hbuilt'.
  fold first in Hbuilt'.
  destruct (dict_lookup_in_list head name fresh) as (ent & Hin & Hcmp).
  fold first in Hin.
  unfold dict_lookup at 1.
  destruct (dict_find (snd first) name') as [address | ] eqn:Hfind; cbn [fst].
  - intros ->.
    destruct (dict_built_find _ _ _ Hbuilt' Hfind) as (name0 & Hin0 & Hc0).
    destruct Hbuilt' as [Haddr Hkeys].
    assert (Hsame : ent = {| dict_key := strncpy dict_key_size name0;
                             dict_value := default 0 (dict_value_at (snd first) (fst first)) |}).
    { clear - Haddr Hin Hin0. induction (snd first) as [ | [a e] rest IH]; [contradiction | ].
      cbn [map fst] in Haddr. inversion Haddr as [ | ? ? Hnotin Haddr']; subst.
      destruct Hin as [Heq | Hin], Hin0 as [Heq0 | Hin0].
      - congruence.
      - exfalso. apply Hnotin. injection Heq as -> _.
        apply (in_map fst) in Hin0. exact Hin0.
      - exfalso. apply Hnotin. injection Heq0 as -> _.
        apply (in_map fst) in Hin. exact Hin.
      - cbn [dict_value_at] in *.
        destruct (Nat.eqb_spec a (fst first)) as [-> | Hne].
        + exfalso. apply Hnotin. apply (in_map fst) in Hin. exact Hin.
        + apply IH; assumption. }
    subst ent. cbn [dict_key] in Hcmp.
    apply strncmp_strncpy in Hcmp. apply Hdiff. congruence.
  - intros Heq. apply Hfresh'. rewrite Heq.
    apply (in_map fst) in Hin. exact Hin.
Qed.

Lemma dict_lookup_distinct_names_witness :
  let first := dict_lookup [] "eth0" 100 in
  fst (dict_lookup (snd first) "eth1" 101) <> fst first.
Proof.
  apply (dict_lookup_distinct_names [] "eth0" "eth1" 100%nat 101%nat).
  - split; constructor.
  - intros [].
  - discriminate.
  - vm_compute. intros [Heq | []]. discriminate.
Defined.

(** [dict_free] frees every entry once, front to back, and leaves an empty
    list. *)
Lemma dict_free_all head : dict_free head = (map fst head, []).
Proof.
  induction head as [ | [address ent] rest IH]; [reflexivity | ].
  cbn [dict_free]. rewrite IH. reflexivity.
Qed.

(** * Runs of the component *)

Example app_two_boards :
  let A := sim_hal 7 [good_device; good_device] in
  let s := loaded_driver [Some "a.json"%string; Some "b.json"%string; None; None] in
  match rtapi_app_main A sim_constants HostLittle s with
  | Some (r, s') =>
      r = 0 /\ app_boards_count s' = 2 /\
      app_trace s' =
        [App_print "loading litexCNC etherbone driver version 0.02";
         Call_hal_init "litexcnc_eth";
         Call_hal_malloc;
         On_board 0 (Call_load_config "a.json");
         On_board 0 (Call_print "Connecting to board at address: %s:1234 ");
         On_board 0 (Call_eb_connect "10.0.0.10" "1234" 1);
         On_board 0 (Call_register 0xABCD1234);
         On_board 0 Call_cJSON_Delete;
         Call_hal_malloc;
         On_board 1 (Call_load_config "b.json");
         On_board 1 (Call_print "Connecting to board at address: %s:1234 ");
         On_board 1 (Call_eb_connect "10.0.0.10" "1234" 1);
         On_board 1 (Call_register 0xABCD1234);
         On_board 1 Call_cJSON_Delete;
         Call_hal_ready 7]
  | None => False
  end.
Proof. vm_compute. repeat split. Qed.

Example app_second_fails :
  let A := sim_hal 7 [good_device; unregistered_device (-1)] in
  let s := loaded_driver [Some "a.json"%string; Some "b.json"%string; None; None] in
  match rtapi_app_main A sim_constants HostLittle s with
  | Some (r, s') =>
      r = -1 /\ app_boards_count s' = 1 /\
      drop 13 (app_trace s') =
        [On_board 1 (Call_print "board fails LitexCNC registration");
         On_board 0 Call_eb_disconnect;
         On_board 1 Call_eb_disconnect;
         Call_hal_exit 7]
  | None => False
  end.
Proof. vm_compute. repeat split. Qed.

Example app_first_fails_of_two :
  let A := sim_hal 7 [unregistered_device (-1); good_device] in
  let s := loaded_driver [Some "a.json"%string; Some "b.json"%string; None; None] in
  rtapi_app_main A sim_constants HostLittle s = None.
Proof. vm_compute. reflexivity. Qed.

Example app_positive_status :
  let A := sim_hal 7 [unregistered_device 3; good_device] in
  let s := loaded_driver [Some "a.json"%string; Some "b.json"%string; None; None] in
  match rtapi_app_main A sim_constants HostLittle s with
  | Some (r, s') =>
      r = 0 /\ app_boards_count s' = 0 /\
      drop 6 (app_trace s') =
        [On_board 0 (Call_register 0xABCD1234);
         On_board 0 (Call_print "board fails LitexCNC registration");
         Call_hal_ready 7]
  | None => False
  end.
Proof. vm_compute. repeat split. Qed.

Lemma init_boards_step A K host i status s :
  init_boards A K host i status s =
    if decide (status = 0 /\ Z.of_nat i < MAX_ETH_BOARDS) then
      match configured s i with
      | None => Some (Loop_done status, s)
      | Some path =>
          match allocate_and_init A K host i path s with
          | None => None
          | Some (status', s') =>
              if decide (status' < 0) then Some (Goto_error status', s')
              else init_boards A K host (S i) status' s'
          end
      end
    else Some (Loop_done status, s).
Proof.
  rewrite init_boards_unfold_eq at 1. unfold init_boards_unfold.
  destruct (decide (status = 0 /\ Z.of_nat i < MAX_ETH_BOARDS)); [ | reflexivity].
  unfold init_boards_unfold_clause_1.
  destruct (configured s i) as [path | ]; [ | reflexivity].
  unfold init_boards_unfold_clause_1_clause_2.
  destruct (allocate_and_init A K host i path s) as [[status' s'] | ]; [ | reflexivity].
  unfold init_boards_unfold_clause_1_clause_2_clause_2.
  destruct (decide (status' < 0)); reflexivity.
Qed.

Lemma close_boards_step i s :
  close_boards i s =
    if decide (Z.of_nat i < MAX_ETH_BOARDS) then
      match configured s i with
      | None => Some s
      | Some _ =>
          match close_board_at i s with
          | None => None
          | Some s' => close_boards (S i) s'
          end
      end
    else Some s.
Proof.
  rewrite close_boards_unfold_eq at 1. unfold close_boards_unfold.
  destruct (decide (Z.of_nat i < MAX_ETH_BOARDS)); [ | reflexivity].
  unfold close_boards_unfold_clause_1.
  destruct (configured s i) as [path | ]; [ | reflexivity].
  unfold close_boards_unfold_clause_1_clause_2.
  destruct (close_board_at i s); reflexivity.
Qed.

(** ** What the board loops rest on *)

Lemma init_board_effects E K host config_file w :
  let res := init_board E K host config_file w in
  (exists events, trace (snd res) = trace w ++ events) /\
  (fst res = 0 ->
     boards_count (snd res) = to_int (boards_count w + 1) /\
     connection (board (snd res)) <> None) /\
  (fst res <> 0 -> boards_count (snd res) = boards_count w).
Proof.
  cbv zeta. unfold init_board. cbv zeta. run_calls.
  destruct (env_load_config E _) as [config config_fingerprint].
  destruct (cJSON_IsObject _); cbn [negb];
    [ | unfold fail_without_disconnect; run_calls;
        split; [eexists; rewrite <- !app_assoc; reflexivity | ];
        split; [discriminate | reflexivity]].
  destruct (if cJSON_IsString _ then _ else _) as [valuestring | ];
    [ | unfold fail_without_disconnect; run_calls;
        split; [eexists; rewrite <- !app_assoc; reflexivity | ];
        split; [discriminate | reflexivity]].
  unfold eb_connect. run_calls.
  destruct (env_connect E _) as [handle | ].
  - unfold success_continue. run_calls.
    match goal with
    | |- context [env_register E ?h ?f0] => destruct (env_register E h f0) as [status f]
    end.
    cbn [fst snd].
    destruct (Z.eqb_spec (to_size_t (to_int status)) 0) as [Hzero | Hnonzero];
      cbn [negb fst snd board trace boards_count connection].
    + split; [eexists; rewrite <- !app_assoc; reflexivity | ].
      split; [ | intros H; contradiction].
      intros _. split; [reflexivity | discriminate].
    + split; [eexists; rewrite <- !app_assoc; reflexivity | ].
      split; [ | reflexivity].
      intros Hret. exfalso. apply Hnonzero.
      rewrite to_int_to_size_t in Hret by apply to_int_range.
      rewrite Hret. reflexivity.
  - unfold fail_disconnect, fail_without_disconnect. run_calls.
    split; [eexists; rewrite <- !app_assoc; reflexivity | ].
    split; [discriminate | reflexivity].
Qed.

Lemma on_board_init_board E K host i b path s :
  let r := on_board i b (init_board E K host path) s in
  let res := init_board E K host path (board_world i b s) in
  fst r = fst res /\
  same_settings s (snd r) /\
  (exists events, app_trace (snd r) = app_trace s ++ events) /\
  boards (snd r) = <[i := Some (board (snd res))]> (boards s) /\
  app_boards_count (snd r) = boards_count (snd res).
Proof.
  cbv zeta. unfold on_board, same_settings. cbv zeta. fold (board_world i b s).
  cbn [fst snd config_file app_comp_id board_num ifnames boards app_trace app_boards_count].
  rewrite length_insert. repeat split. eexists. reflexivity.
Qed.

Lemma on_board_close_board i b s :
  snd (on_board i b close_board s) =
    {| app_trace := app_trace s ++ [On_board i Call_eb_disconnect];
       config_file := config_file s;
       app_comp_id := app_comp_id s;
       app_boards_count := app_boards_count s;
       board_num := board_num s;
       ifnames := ifnames s;
       boards := <[i := Some {| hal_param_debug := hal_param_debug b;
                                connection := None;
                                read_request_buffer := read_request_buffer b;
                                fpga := fpga b |}]> (boards s) |}.
Proof.
  unfold on_board, close_board. cbv zeta. run_calls.
  rewrite drop_app_length. reflexivity.
Qed.

Lemma configured_from_same n : forall i s s',
  config_file s' = config_file s -> configured_from n i s' = configured_from n i s.
Proof.
  induction n as [ | n IH]; intros i s s' H; [reflexivity | ].
  cbn [configured_from]. unfold configured. rewrite H.
  destruct (config_file s !! i) as [[[ | c rest] | ] | ]; try reflexivity.
  f_equal. apply (IH (S i) s s' H).
Qed.

Lemma configured_from_le n : forall i s, (configured_from n i s <= n)%nat.
Proof.
  induction n as [ | n IH]; intros i s; [reflexivity | ].
  cbn [configured_from]. destruct (configured s i); [ | lia].
  specialize (IH (S i) s). lia.
Qed.

Lemma configured_from_configured n : forall i s j,
  (i <= j < i + configured_from n i s)%nat -> configured s j <> None.
Proof.
  induction n as [ | n IH]; intros i s j H; cbn [configured_from] in H; [lia | ].
  destruct (configured s i) eqn:Hi; [ | lia].
  destruct (decide (j = i)) as [-> | Hne]; [rewrite Hi; discriminate | ].
  apply (IH (S i)). lia.
Qed.

Lemma configured_from_end n : forall i s,
  (configured_from n i s < n)%nat -> configured s (i + configured_from n i s) = None.
Proof.
  induction n as [ | n IH]; intros i s H; cbn [configured_from] in *; [lia | ].
  destruct (configured s i) eqn:Hi.
  - replace (i + S (configured_from n (S i) s))%nat
      with (S i + configured_from n (S i) s)%nat by lia.
    apply IH. lia.
  - rewrite Nat.add_0_r. exact Hi.
Qed.

(** One pass of the board loop: the call it makes and what it leaves. *)
Lemma init_call_effects A K host i s status s' :
  init_call A K host i s = Some (status, s') ->
  exists path b,
    configured s i = Some path /\
    allocate_and_init A K host i path s = Some (status, s') /\
    same_settings s s' /\
    (exists events, app_trace s' = app_trace s ++ events) /\
    boards s' = <[i := Some b]> (boards s) /\
    (status = 0 ->
     connection b <> None /\
     app_boards_count s' = to_int (app_boards_count s + 1)) /\
    (status <> 0 -> app_boards_count s' = app_boards_count s).
Proof.
  unfold init_call, allocate_and_init. cbv zeta.
  destruct (configured s i) as [path | ]; [ | discriminate].
  destruct (env_hal_malloc A (app_trace (app_emit Call_hal_malloc s))) as [b | ];
    [ | discriminate].
  intros Hcall. apply (inj Some) in Hcall.
  pose proof (on_board_init_board (env_board A i) K host i b path
                (app_emit Call_hal_malloc s)) as Hon.
  pose proof (init_board_effects (env_board A i) K host path
                (board_world i b (app_emit Call_hal_malloc s))) as Heff.
  cbv zeta in Hon, Heff. rewrite Hcall in Hon. cbn [fst snd] in Hon.
  destruct Hon as (Hstatus & Hsame & [events Htrace] & Hboards & Hcount).
  destruct Heff as (_ & Hzero & Hkeep).
  unfold same_settings in *.
  cbn [app_emit config_file app_comp_id board_num ifnames boards app_trace
       board_world boards_count app_boards_count] in *.
  exists path. eexists.
  split; [reflexivity | ].
  split; [rewrite Hcall; reflexivity | ].
  split; [exact Hsame | ].
  split; [exists ([Call_hal_malloc] ++ events); rewrite Htrace, <- app_assoc; reflexivity | ].
  split; [exact Hboards | ].
  split.
  - intros ->. destruct (Hzero (eq_sym Hstatus)) as [Hbc Hconn].
    split; [exact Hconn | ]. rewrite Hcount. exact Hbc.
  - intros Hne. rewrite Hcount. apply Hkeep. rewrite <- Hstatus. exact Hne.
Qed.

(** The passes that returned 0 are the loop of [rtapi_app_main] so far: each
    has left one more board connected and counted. *)
Lemma loop_entry_state A K host s0 :
  app_boards_count s0 = 0 ->
  length (boards s0) = 4%nat ->
  forall i s,
    (i <= 4)%nat ->
    loop_entry A K host s0 i = Some s ->
    init_boards A K host 0 0 s0 = init_boards A K host i 0 s /\
    same_settings s0 s /\
    app_boards_count s = Z.of_nat i /\
    (exists events, app_trace s = app_trace s0 ++ events) /\
    (forall j, (j < i)%nat ->
       exists b, boards s !! j = Some (Some b) /\ connection b <> None) /\
    (forall j, (i <= j)%nat -> boards s !! j = boards s0 !! j).
Proof.
  intros Hcount0 Hlen0. induction i as [ | i IH]; intros s Hi Hentry;
    cbn [loop_entry] in Hentry.
  - injection Hentry as <-.
    split; [reflexivity | ]. split; [repeat split | ].
    split; [exact Hcount0 | ].
    split; [exists []; rewrite app_nil_r; reflexivity | ].
    split; [intros j Hj; lia | reflexivity].
  - destruct (loop_entry A K host s0 i) as [s1 | ]; [ | discriminate].
    destruct (init_call A K host i s1) as [[status s2] | ] eqn:Hcall; [ | discriminate].
    destruct status; try discriminate. injection Hentry as <-.
    destruct (IH s1 ltac:(lia) eq_refl)
      as (Hrun & Hsame & Hcount & [events Htrace] & Hin & Hout).
    destruct (init_call_effects A K host i s1 0 s2 Hcall)
      as (path & b & Hpath & Halloc & Hsame2 & [events2 Htrace2] & Hboards & Hzero & _).
    destruct (Hzero eq_refl) as [Hconn Hbc].
    destruct Hsame as (Hcf & Hid & Hnum & Hnames & Hlen).
    destruct Hsame2 as (Hcf2 & Hid2 & Hnum2 & Hnames2 & Hlen2).
    split.
    { rewrite Hrun, init_boards_step.
      destruct (decide (0 = 0 /\ Z.of_nat i < MAX_ETH_BOARDS)) as [_ | Hno];
        [ | exfalso; apply Hno; unfold MAX_ETH_BOARDS; lia].
      rewrite Hpath, Halloc.
      destruct (decide (0 < 0)) as [Habs | _]; [lia | reflexivity]. }
    split; [unfold same_settings; repeat split; congruence | ].
    split.
    { rewrite Hbc, Hcount.
      rewrite to_int_small by (change (2 ^ 31) with 2147483648; lia). lia. }
    split; [exists (events ++ events2); rewrite Htrace2, Htrace, <- app_assoc; reflexivity | ].
    split.
    + intros j Hj. rewrite Hboards. destruct (decide (j = i)) as [-> | Hne].
      * rewrite list_lookup_insert_eq by lia. exists b. split; [reflexivity | exact Hconn].
      * rewrite list_lookup_insert_ne by lia. apply Hin. lia.
    + intros j Hj. rewrite Hboards, list_lookup_insert_ne by lia. apply Hout. lia.
Qed.

(** Boards that all return 0 take the loop past them. *)
Lemma board_statuses_entry A K host config_files n :
  (forall i, (i < n)%nat -> board_status A K host config_files i = Some 0) ->
  exists s,
    loop_entry A K host (entering_loop (hal_init_result A) config_files) n = Some s.
Proof.
  induction n as [ | n IH]; intros Hall.
  - eexists. reflexivity.
  - destruct IH as [s Hs]; [intros i Hi; apply Hall; lia | ].
    pose proof (Hall n ltac:(lia)) as Hn. unfold board_status in Hn. rewrite Hs in Hn.
    cbn [loop_entry]. rewrite Hs.
    destruct (init_call A K host n s) as [[status s'] | ]; [ | discriminate].
    cbn [option_map fst] in Hn. injection Hn as ->.
    exists s'. reflexivity.
Qed.

Lemma closing_step i n :
  closing i (S n) = On_board i Call_eb_disconnect :: closing (S i) n.
Proof. reflexivity. Qed.

(** With a board behind every configured pointer, the closing loop
    disconnects them in order and changes nothing else. *)
Lemma close_boards_all : forall n i s,
  (i + n = 4)%nat ->
  (forall j, (i <= j < i + configured_from n i s)%nat ->
     exists b, boards s !! j = Some (Some b)) ->
  exists s',
    close_boards i s = Some s' /\
    same_settings s s' /\
    app_boards_count s' = app_boards_count s /\
    app_trace s' = app_trace s ++ closing i (configured_from n i s) /\
    (forall j, (i <= j < i + configured_from n i s)%nat ->
       exists b b',
         boards s !! j = Some (Some b) /\
         boards s' !! j = Some (Some b') /\
         connection b' = None /\
         fpga b' = fpga b /\
         read_request_buffer b' = read_request_buffer b) /\
    (forall j, ~ (i <= j < i + configured_from n i s)%nat ->
       boards s' !! j = boards s !! j).
Proof.
  induction n as [ | n IH]; intros i s Hsum Hboards; rewrite close_boards_step.
  - destruct (decide (Z.of_nat i < MAX_ETH_BOARDS)) as [Hlt | _];
      [unfold MAX_ETH_BOARDS in Hlt; lia | ].
    exists s. cbn [configured_from closing seq map]. rewrite app_nil_r.
    repeat split. intros j Hj. lia.
  - destruct (decide (Z.of_nat i < MAX_ETH_BOARDS)) as [_ | Hno];
      [ | exfalso; apply Hno; unfold MAX_ETH_BOARDS; lia].
    cbn [configured_from] in *.
    destruct (configured s i) as [path | ] eqn:Hpath.
    + destruct (Hboards i ltac:(lia)) as [b Hb].
      unfold close_board_at. rewrite Hb, on_board_close_board.
      set (s1 := {| app_trace := app_trace s ++ [On_board i Call_eb_disconnect];
                    config_file := config_file s;
                    app_comp_id := app_comp_id s;
                    app_boards_count := app_boards_count s;
                    board_num := board_num s;
                    ifnames := ifnames s;
                    boards := <[i := Some {| hal_param_debug := hal_param_debug b;
                                             connection := None;
                                             read_request_buffer := read_request_buffer b;
                                             fpga := fpga b |}]> (boards s) |}).
      assert (Hsame : configured_from n (S i) s1 = configured_from n (S i) s)
        by (apply configured_from_same; reflexivity).
      destruct (IH (S i) s1) as (s' & Hrun & Hset & Hcount & Htrace & Hin & Hout).
      * lia.
      * intros j Hj. rewrite Hsame in Hj. subst s1. cbn [boards].
        rewrite list_lookup_insert_ne by lia. apply Hboards. lia.
      * rewrite Hsame in *. exists s'.
        split; [exact Hrun | ].
        destruct Hset as (Hcf & Hid & Hnum & Hnames & Hlen).
        subst s1. cbn [config_file app_comp_id board_num ifnames boards app_trace
                       app_boards_count] in *.
        rewrite length_insert in Hlen.
        split; [unfold same_settings; repeat split; assumption | ].
        split; [exact Hcount | ].
        split; [rewrite Htrace, closing_step, <- app_assoc; reflexivity | ].
        split.
        -- intros j Hj. destruct (decide (j = i)) as [-> | Hne].
           ++ eexists b, _. split; [exact Hb | ].
              rewrite Hout by lia.
              rewrite list_lookup_insert_eq by (apply lookup_lt_Some in Hb; exact Hb).
              repeat split.
           ++ destruct (Hin j ltac:(lia)) as (b0 & b' & H0 & H1 & H2).
              rewrite list_lookup_insert_ne in H0 by lia.
              exists b0, b'. repeat split; tauto.
        -- intros j Hj. rewrite Hout by lia. apply list_lookup_insert_ne. lia.
    + exists s. cbn [closing seq map]. rewrite app_nil_r.
      repeat split. intros j Hj. lia.
Qed.

(** The closing loop hands the first null pointer among the configured
    boards to [close_board]. *)
Lemma close_boards_null : forall n i s k,
  (i + n = 4)%nat ->
  (i <= k < i + configured_from n i s)%nat ->
  boards s !! k = Some None ->
  (forall j, (i <= j < k)%nat -> exists b, boards s !! j = Some (Some b)) ->
  close_boards i s = None.
Proof.
  induction n as [ | n IH]; intros i s k Hsum Hk Hnull Hbefore;
    cbn [configured_from] in Hk; [lia | ].
  rewrite close_boards_step.
  destruct (decide (Z.of_nat i < MAX_ETH_BOARDS)) as [_ | Hno];
    [ | exfalso; apply Hno; unfold MAX_ETH_BOARDS; lia].
  destruct (configured s i) as [path | ] eqn:Hpath; [ | lia].
  unfold close_board_at.
  destruct (decide (k = i)) as [-> | Hne]; [rewrite Hnull; reflexivity | ].
  destruct (Hbefore i ltac:(lia)) as [b Hb].
  rewrite Hb, on_board_close_board.
  apply (IH (S i) _ k).
  - lia.
  - rewrite (configured_from_same n (S i) s) by reflexivity. lia.
  - cbn [boards]. rewrite list_lookup_insert_ne by lia. exact Hnull.
  - intros j Hj. cbn [boards]. rewrite list_lookup_insert_ne by lia.
    apply Hbefore. lia.
Qed.

Lemma emit_frees_calls addresses : forall s,
  emit_frees addresses s =
    {| app_trace := app_trace s ++ map Call_rtapi_kfree addresses;
       config_file := config_file s;
       app_comp_id := app_comp_id s;
       app_boards_count := app_boards_count s;
       board_num := board_num s;
       ifnames := ifnames s;
       boards := boards s |}.
Proof.
  induction addresses as [ | a rest IH]; intros s; cbn [emit_frees map].
  - rewrite app_nil_r. destruct s; reflexivity.
  - rewrite IH. unfold app_emit.
    cbn [app_trace config_file app_comp_id app_boards_count board_num ifnames boards].
    rewrite <- app_assoc. reflexivity.
Qed.

(** What is left to do once the boards are closed. *)
Lemma unload_closed s s1 :
  close_boards 0 s = Some s1 ->
  unload s =
    Some {| app_trace :=
              app_trace s1 ++
              map Call_rtapi_kfree (map fst (board_num s1) ++ map fst (ifnames s1)) ++
              [Call_hal_exit (app_comp_id s1)];
            config_file := config_file s1;
            app_comp_id := app_comp_id s1;
            app_boards_count := app_boards_count s1;
            board_num := [];
            ifnames := [];
            boards := boards s1 |}.
Proof.
  intros H. unfold unload. rewrite H. cbv zeta.
  rewrite !dict_free_all, !emit_frees_calls.
  unfold app_emit, set_dicts.
  cbn [fst snd app_trace config_file app_comp_id app_boards_count board_num ifnames boards].
  rewrite map_app, <- !app_assoc. reflexivity.
Qed.

Lemma unload_null s :
  close_boards 0 s = None -> unload s = None.
Proof. intros H. unfold unload. rewrite H. reflexivity. Qed.

Lemma rtapi_app_main_loaded A K host config_files :
  rtapi_app_main A K host (loaded_driver config_files) =
    if hal_init_result A <? 0 then
      match unload (app_emit (Call_hal_init "litexcnc_eth")
                      (app_emit (App_print "loading litexCNC etherbone driver version 0.02")
                         (set_dicts [] [] (loaded_driver config_files)))) with
      | Some s => Some (hal_init_result A, s)
      | None => None
      end
    else
      match init_boards A K host 0 0 (entering_loop (hal_init_result A) config_files) with
      | None => None
      | Some (Goto_error status, s) =>
          match unload s with
          | Some s => Some (status, s)
          | None => None
          end
      | Some (Loop_done _, s) => Some (0, app_emit (Call_hal_ready (app_comp_id s)) s)
      end.
Proof. reflexivity. Qed.

Lemma configured_same s s' i :
  config_file s' = config_file s -> configured s' i = configured s i.
Proof. intros H. unfold configured. rewrite H. reflexivity. Qed.

(** When every configured board initialises, the loop runs to its end. *)
Lemma init_boards_all A K host config_files :
  let s := entering_loop (hal_init_result A) config_files in
  let n := configured_boards (loaded_driver config_files) in
  (forall j, (j < n)%nat -> board_status A K host config_files j = Some 0) ->
  exists s',
    init_boards A K host 0 0 s = Some (Loop_done 0, s') /\
    same_settings s s' /\
    app_boards_count s' = Z.of_nat n /\
    (exists events, app_trace s' = app_trace s ++ events) /\
    (forall j, (j < n)%nat ->
       exists b, boards s' !! j = Some (Some b) /\ connection b <> None) /\
    (forall j, (n <= j)%nat -> boards s' !! j = boards s !! j).
Proof.
  intros s n Hall.
  assert (Hn : n = configured_from 4 0 s) by reflexivity.
  pose proof (configured_from_le 4 0 s) as Hle.
  destruct (board_statuses_entry A K host config_files n Hall) as [s' Hentry].
  fold s in Hentry.
  destruct (loop_entry_state A K host s eq_refl eq_refl n s' ltac:(lia) Hentry)
    as (Hrun & Hsame & Hcount & Htrace & Hin & Hout).
  exists s'.
  split; [ | split; [exact Hsame | split; [exact Hcount | split; [exact Htrace | ]]]].
  - rewrite Hrun, init_boards_step.
    destruct (decide (0 = 0 /\ Z.of_nat n < MAX_ETH_BOARDS)) as [[_ Hlt] | _];
      [ | reflexivity].
    destruct Hsame as (Hcf & _).
    rewrite (configured_same s s' n Hcf).
    pose proof (configured_from_end 4 0 s) as Hend. cbn [Nat.add] in Hend.
    rewrite <- Hn in Hend. rewrite Hend; [reflexivity | ].
    unfold MAX_ETH_BOARDS in Hlt. lia.
  - split; assumption.
Qed.

(** When board [k] is the first whose initialisation does not return 0, the
    loop stops there: with [goto error] for a negative status, by its
    condition [ret == 0] for a positive one. *)
Lemma init_boards_stops_at A K host config_files k p :
  let s := entering_loop (hal_init_result A) config_files in
  (k < configured_boards (loaded_driver config_files))%nat ->
  board_status A K host config_files k = Some p ->
  p <> 0 ->
  exists s',
    init_boards A K host 0 0 s =
      Some (if decide (p < 0) then Goto_error p else Loop_done p, s') /\
    same_settings s s' /\
    app_boards_count s' = Z.of_nat k /\
    (exists events, app_trace s' = app_trace s ++ events) /\
    (forall j, (j < k)%nat ->
       exists b, boards s' !! j = Some (Some b) /\ connection b <> None) /\
    (exists b, boards s' !! k = Some (Some b)) /\
    (forall j, (k < j)%nat -> boards s' !! j = boards s !! j).
Proof.
  intros s Hk Hstatus Hp.
  assert (Hn : configured_boards (loaded_driver config_files) = configured_from 4 0 s)
    by reflexivity.
  rewrite Hn in Hk.
  pose proof (configured_from_le 4 0 s) as Hle.
  unfold board_status in Hstatus. fold s in Hstatus.
  destruct (loop_entry A K host s k) as [s1 | ] eqn:Hentry; [ | discriminate].
  destruct (init_call A K host k s1) as [[status s2] | ] eqn:Hcall; [ | discriminate].
  cbn [option_map fst] in Hstatus. injection Hstatus as ->.
  destruct (loop_entry_state A K host s eq_refl eq_refl k s1 ltac:(lia) Hentry)
    as (Hrun & Hsame & Hcount & [events Htrace] & Hin & Hout).
  destruct (init_call_effects A K host k s1 p s2 Hcall)
    as (path & b & Hpath & Halloc & Hsame2 & [events2 Htrace2] & Hboards & _ & Hkeep).
  destruct Hsame as (Hcf & Hid & Hnum & Hnames & Hlen).
  destruct Hsame2 as (Hcf2 & Hid2 & Hnum2 & Hnames2 & Hlen2).
  assert (Hlen4 : length (boards s) = 4%nat) by reflexivity.
  assert (Hstate :
    same_settings s s2 /\
    app_boards_count s2 = Z.of_nat k /\
    (exists events0, app_trace s2 = app_trace s ++ events0) /\
    (forall j, (j < k)%nat ->
       exists b0, boards s2 !! j = Some (Some b0) /\ connection b0 <> None) /\
    (exists b0, boards s2 !! k = Some (Some b0)) /\
    (forall j, (k < j)%nat -> boards s2 !! j = boards s !! j)).
  { split; [unfold same_settings; repeat split; congruence | ].
    split; [rewrite (Hkeep Hp); exact Hcount | ].
    split; [exists (events ++ events2); rewrite Htrace2, Htrace, <- app_assoc;
            reflexivity | ].
    split; [ | split].
    - intros j Hj. rewrite Hboards, list_lookup_insert_ne by lia. apply Hin. lia.
    - rewrite Hboards, list_lookup_insert_eq by lia. eexists. reflexivity.
    - intros j Hj. rewrite Hboards, list_lookup_insert_ne by lia. apply Hout. lia. }
  rewrite Hrun, init_boards_step.
  destruct (decide (0 = 0 /\ Z.of_nat k < MAX_ETH_BOARDS)) as [_ | Hno];
    [ | exfalso; apply Hno; unfold MAX_ETH_BOARDS; lia].
  rewrite Hpath, Halloc.
  destruct (decide (p < 0)) as [Hneg | Hpos].
  - exists s2. split; [reflexivity | exact Hstate].
  - exists s2. split; [ | exact Hstate].
    rewrite init_boards_step.
    destruct (decide (p = 0 /\ Z.of_nat (S k) < MAX_ETH_BOARDS)) as [[Hzero _] | _];
      [contradiction | reflexivity].
Qed.

(** * The component: [rtapi_app_main] and [rtapi_app_exit] *)

Lemma entering_loop_null_boards id config_files i :
  (i < 4)%nat -> boards (entering_loop id config_files) !! i = Some None.
Proof.
  intros Hi. destruct i as [ | [ | [ | [ | i]]]]; try reflexivity. lia.
Qed.

(** X18: when [hal_init] accepts the component and the call of [init_board]
    that the run makes for each configured board returns 0, [rtapi_app_main]
    returns 0 with the id of [hal_init] in [comp_id], [boards_count] at the
    number of configured boards, a connected board behind each of their
    pointers, the other pointers still null, and [hal_ready] as its last
    call. *)
Theorem app_main_all_boards_succeed A K host config_files :
  let n := configured_boards (loaded_driver config_files) in
  0 <= hal_init_result A ->
  (forall i, (i < n)%nat -> board_status A K host config_files i = Some 0) ->
  exists s',
    rtapi_app_main A K host (loaded_driver config_files) = Some (0, s') /\
    app_comp_id s' = hal_init_result A /\
    app_boards_count s' = Z.of_nat n /\
    (forall i, (i < n)%nat ->
       exists b, boards s' !! i = Some (Some b) /\ connection b <> None) /\
    (forall i, (n <= i < 4)%nat -> boards s' !! i = Some None) /\
    last (app_trace s') = Some (Call_hal_ready (hal_init_result A)).
Proof.
  intros n Hid Hinit.
  rewrite rtapi_app_main_loaded.
  destruct (Z.ltb_spec (hal_init_result A) 0) as [Hneg | _]; [lia | ].
  destruct (init_boards_all A K host config_files Hinit)
    as (s' & Hrun & Hsame & Hcount & Htrace & Hin & Hout).
  rewrite Hrun. eexists. split; [reflexivity | ].
  destruct Hsame as (Hcf & Hid' & _).
  cbn [app_emit app_comp_id app_boards_count boards app_trace].
  split; [exact Hid' | ].
  split; [exact Hcount | ].
  split; [exact Hin | ].
  split.
  - intros i Hi. rewrite Hout by (fold n; lia).
    apply entering_loop_null_boards. lia.
  - rewrite Hid'. apply last_snoc.
Qed.

Lemma app_main_all_boards_succeed_witness :
  let A := sim_hal 7 [path_device "a.json"; path_device "b.json"] in
  let config_files := [Some "a.json"%string; Some "  b.json"%string; None; None] in
  exists s',
    rtapi_app_main A sim_constants HostLittle (loaded_driver config_files) = Some (0, s') /\
    app_comp_id s' = 7 /\
    app_boards_count s' = 2 /\
    (forall i, (i < 2)%nat ->
       exists b, boards s' !! i = Some (Some b) /\ connection b <> None) /\
    (forall i, (2 <= i < 4)%nat -> boards s' !! i = Some None) /\
    last (app_trace s') = Some (Call_hal_ready 7).
Proof.
  apply (app_main_all_boards_succeed
           (sim_hal 7 [path_device "a.json"; path_device "b.json"])
           sim_constants HostLittle
           [Some "a.json"%string; Some "  b.json"%string; None; None]).
  - vm_compute. discriminate.
  - intros i Hi.
    destruct i as [ | [ | i]]; [vm_compute; reflexivity | vm_compute; reflexivity | ].
    vm_compute in Hi. lia.
Defined.

(** X19: when the call of [init_board] that the run makes for the last
    configured board is the first that does not return 0, and returns a
    negative status, [rtapi_app_main] returns that status after closing every
    configured board, in order, and calling [hal_exit] with the id of
    [hal_init]: each board, the failed one included, is left without a
    connection. *)
Theorem app_main_last_board_fails A K host config_files k p :
  0 <= hal_init_result A ->
  configured_boards (loaded_driver config_files) = S k ->
  board_status A K host config_files k = Some p ->
  p < 0 ->
  exists s' events,
    rtapi_app_main A K host (loaded_driver config_files) = Some (p, s') /\
    app_trace s' = events ++ closing 0 (S k) ++ [Call_hal_exit (hal_init_result A)] /\
    app_boards_count s' = Z.of_nat k /\
    (forall i, (i <= k)%nat ->
       exists b, boards s' !! i = Some (Some b) /\ connection b = None).
Proof.
  intros Hid Hn Hfail Hp.
  rewrite rtapi_app_main_loaded.
  destruct (Z.ltb_spec (hal_init_result A) 0) as [Hneg | _]; [lia | ].
  destruct (init_boards_stops_at A K host config_files k p)
    as (s2 & Hrun & Hsame & Hcount & [events Htrace] & Hin & [bk Hbk] & Hout);
    try assumption; try lia.
  rewrite Hrun. destruct (decide (p < 0)) as [_ | Hno]; [ | contradiction].
  destruct Hsame as (Hcf & Hid2 & Hnum & Hnames & Hlen).
  assert (Hconf : configured_from 4 0 s2 = S k).
  { rewrite (configured_from_same 4 0 _ s2 Hcf). exact Hn. }
  destruct (close_boards_all 4 0 s2 eq_refl)
    as (s3 & Hclose & Hsame3 & Hcount3 & Htrace3 & Hin3 & Hout3).
  { rewrite Hconf. intros j Hj. destruct (decide (j = k)) as [-> | Hne].
    - exists bk. exact Hbk.
    - destruct (Hin j ltac:(lia)) as (b & Hb & _). exists b. exact Hb. }
  rewrite (unload_closed s2 s3 Hclose).
  destruct Hsame3 as (Hcf3 & Hid3 & Hnum3 & Hnames3 & Hlen3).
  eexists. exists (app_trace s2). split; [reflexivity | ].
  cbn [app_trace app_boards_count boards].
  rewrite Hnum3, Hnames3, Hnum, Hnames, Hid3, Hid2, Htrace3, Hconf.
  cbn [entering_loop set_comp_id app_emit set_dicts board_num ifnames app_comp_id map app].
  rewrite <- app_assoc.
  split; [reflexivity | ].
  split; [congruence | ].
  intros i Hi. rewrite Hconf in Hin3.
  destruct (Hin3 i ltac:(lia)) as (b & b' & _ & Hb' & Hnone & _).
  exists b'. split; assumption.
Qed.

Lemma app_main_last_board_fails_witness :
  let A := sim_hal 7 [good_device; unregistered_device (-1)] in
  let config_files := [Some "a.json"%string; Some "b.json"%string; None; None] in
  exists s' events,
    rtapi_app_main A sim_constants HostLittle (loaded_driver config_files) = Some (-1, s') /\
    app_trace s' = events ++ closing 0 2 ++ [Call_hal_exit 7] /\
    app_boards_count s' = 1 /\
    (forall i, (i <= 1)%nat ->
       exists b, boards s' !! i = Some (Some b) /\ connection b = None).
Proof.
  apply (app_main_last_board_fails (sim_hal 7 [good_device; unregistered_device (-1)])
           sim_constants HostLittle
           [Some "a.json"%string; Some "b.json"%string; None; None] 1 (-1)).
  - vm_compute. discriminate.
  - vm_compute. reflexivity.
  - vm_compute. reflexivity.
  - lia.
Defined.

(** X20: when the call of [init_board] that the run makes for a board is the
    first that does not return 0, and returns a negative status, while a later
    board is configured, the error path of [rtapi_app_main] hands the null
    pointer of that later board, which was never allocated, to
    [close_board]. *)
Theorem app_main_error_path_null_board A K host config_files k p :
  0 <= hal_init_result A ->
  (S k < configured_boards (loaded_driver config_files))%nat ->
  board_status A K host config_files k = Some p ->
  p < 0 ->
  rtapi_app_main A K host (loaded_driver config_files) = None.
Proof.
  intros Hid Hn Hfail Hp.
  rewrite rtapi_app_main_loaded.
  destruct (Z.ltb_spec (hal_init_result A) 0) as [Hneg | _]; [lia | ].
  destruct (init_boards_stops_at A K host config_files k p)
    as (s2 & Hrun & Hsame & Hcount & [events Htrace] & Hin & [bk Hbk] & Hout);
    try assumption; try lia.
  rewrite Hrun. destruct (decide (p < 0)) as [_ | Hno]; [ | contradiction].
  destruct Hsame as (Hcf & _).
  pose proof (configured_from_le 4 0 s2) as Hle.
  assert (Hconf : configured_from 4 0 s2 = configured_boards (loaded_driver config_files)).
  { rewrite (configured_from_same 4 0 _ s2 Hcf). reflexivity. }
  rewrite unload_null; [reflexivity | ].
  apply (close_boards_null 4 0 s2 (S k) eq_refl).
  - lia.
  - rewrite Hout by lia. apply entering_loop_null_boards. lia.
  - intros j Hj. destruct (decide (j = k)) as [-> | Hne].
    + exists bk. exact Hbk.
    + destruct (Hin j ltac:(lia)) as (b & Hb & _). exists b. exact Hb.
Qed.

Lemma app_main_error_path_null_board_witness :
  rtapi_app_main (sim_hal 7 [unregistered_device (-1); good_device])
    sim_constants HostLittle
    (loaded_driver [Some "a.json"%string; Some "b.json"%string; None; None]) = None.
Proof.
  apply (app_main_error_path_null_board
           (sim_hal 7 [unregistered_device (-1); good_device])
           sim_constants HostLittle
           [Some "a.json"%string; Some "b.json"%string; None; None] 0 (-1)).
  - vm_compute. discriminate.
  - vm_compute. lia.
  - vm_compute. reflexivity.
  - lia.
Defined.

(** X21: a positive status of [init_board] (a positive result of
    [litexcnc_register]) is not treated as a failure by [rtapi_app_main]: when
    the call that the run makes for a board is the first that does not return
    0, and returns a positive status, the loop stops at that board,
    [hal_ready] is called and 0 is returned, with [boards_count] at the number
    of boards before it and the later boards never allocated; if a later board
    is configured, [rtapi_app_exit] then hands its null pointer to
    [close_board]. *)
Theorem app_main_positive_status A K host config_files k p :
  0 <= hal_init_result A ->
  (k < configured_boards (loaded_driver config_files))%nat ->
  board_status A K host config_files k = Some p ->
  0 < p ->
  exists s',
    rtapi_app_main A K host (loaded_driver config_files) = Some (0, s') /\
    app_boards_count s' = Z.of_nat k /\
    last (app_trace s') = Some (Call_hal_ready (hal_init_result A)) /\
    (forall i, (k < i < 4)%nat -> boards s' !! i = Some None) /\
    ((S k < configured_boards (loaded_driver config_files))%nat ->
     rtapi_app_exit s' = None).
Proof.
  intros Hid Hn Hfail Hp.
  rewrite rtapi_app_main_loaded.
  destruct (Z.ltb_spec (hal_init_result A) 0) as [Hneg | _]; [lia | ].
  destruct (init_boards_stops_at A K host config_files k p)
    as (s2 & Hrun & Hsame & Hcount & [events Htrace] & Hin & [bk Hbk] & Hout);
    try assumption; try lia.
  rewrite Hrun. destruct (decide (p < 0)) as [Hneg | _]; [lia | ].
  destruct Hsame as (Hcf & Hid2 & _).
  eexists. split; [reflexivity | ].
  cbn [app_emit app_boards_count app_trace boards].
  split; [exact Hcount | ].
  split; [rewrite Hid2; apply last_snoc | ].
  split.
  - intros i Hi. rewrite Hout by lia. apply entering_loop_null_boards. lia.
  - intros Hlater. unfold rtapi_app_exit. rewrite unload_null; [reflexivity | ].
    pose proof (configured_from_le 4 0 s2) as Hle.
    assert (Hconf : configured_from 4 0 s2 = configured_boards (loaded_driver config_files)).
    { rewrite (configured_from_same 4 0 (loaded_driver config_files))
        by (cbn [config_file]; rewrite Hcf; reflexivity).
      reflexivity. }
    apply (close_boards_null 4 0 _ (S k) eq_refl).
    + rewrite (configured_from_same 4 0 s2) by reflexivity. lia.
    + cbn [boards]. rewrite Hout by lia. apply entering_loop_null_boards. lia.
    + intros j Hj. cbn [boards]. destruct (decide (j = k)) as [-> | Hne].
      * exists bk. exact Hbk.
      * destruct (Hin j ltac:(lia)) as (b & Hb & _). exists b. exact Hb.
Qed.

Lemma app_main_positive_status_witness :
  let A := sim_hal 7 [unregistered_device 3; good_device] in
  let config_files := [Some "a.json"%string; Some "b.json"%string; None; None] in
  exists s',
    rtapi_app_main A sim_constants HostLittle (loaded_driver config_files) = Some (0, s') /\
    app_boards_count s' = 0 /\
    last (app_trace s') = Some (Call_hal_ready 7) /\
    (forall i, (0 < i < 4)%nat -> boards s' !! i = Some None) /\
    ((1 < configured_boards (loaded_driver config_files))%nat ->
     rtapi_app_exit s' = None).
Proof.
  apply (app_main_positive_status (sim_hal 7 [unregistered_device 3; good_device])
           sim_constants HostLittle
           [Some "a.json"%string; Some "b.json"%string; None; None] 0 3).
  - vm_compute. discriminate.
  - vm_compute. lia.
  - vm_compute. reflexivity.
  - lia.
Defined.

(** X22: when [hal_init] fails, [rtapi_app_main] goes to its error path with
    no board allocated.  Without a configured first board it returns the
    status of [hal_init] after calling [hal_exit] with the initial [comp_id],
    0; with one, it hands the null pointer [boards[0]] to [close_board]. *)
Theorem app_main_hal_init_fails A K host config_files :
  hal_init_result A < 0 ->
  (configured (loaded_driver config_files) 0 = None ->
   exists s',
     rtapi_app_main A K host (loaded_driver config_files) =
       Some (hal_init_result A, s') /\
     app_trace s' =
       [App_print "loading litexCNC etherbone driver version 0.02";
        Call_hal_init "litexcnc_eth";
        Call_hal_exit 0]) /\
  (configured (loaded_driver config_files) 0 <> None ->
   rtapi_app_main A K host (loaded_driver config_files) = None).
Proof.
  intros Hid. rewrite rtapi_app_main_loaded.
  destruct (Z.ltb_spec (hal_init_result A) 0) as [_ | Hpos]; [ | lia].
  set (s := app_emit _ _).
  assert (Hconf : configured s 0 = configured (loaded_driver config_files) 0)
    by reflexivity.
  split; intros H0.
  - rewrite (unload_closed s s).
    + eexists. split; reflexivity.
    + rewrite close_boards_step.
      destruct (decide (Z.of_nat 0 < MAX_ETH_BOARDS)); [ | reflexivity].
      rewrite Hconf, H0. reflexivity.
  - rewrite unload_null; [reflexivity | ].
    rewrite close_boards_step.
    destruct (decide (Z.of_nat 0 < MAX_ETH_BOARDS)) as [_ | Hno];
      [ | exfalso; apply Hno; unfold MAX_ETH_BOARDS; lia].
    rewrite Hconf. destruct (configured (loaded_driver config_files) 0); [ | contradiction].
    reflexivity.
Qed.

Lemma app_main_hal_init_fails_witness :
  let A := sim_hal (-1) [good_device] in
  (exists s',
     rtapi_app_main A sim_constants HostLittle (loaded_driver [None; None; None; None]) =
       Some (-1, s') /\
     app_trace s' =
       [App_print "loading litexCNC etherbone driver version 0.02";
        Call_hal_init "litexcnc_eth";
        Call_hal_exit 0]) /\
  rtapi_app_main A sim_constants HostLittle
    (loaded_driver [Some "a.json"%string; None; None; None]) = None.
Proof.
  split.
  - apply (app_main_hal_init_fails (sim_hal (-1) [good_device]) sim_constants HostLittle
             [None; None; None; None]); [vm_compute | ]; reflexivity.
  - apply (app_main_hal_init_fails (sim_hal (-1) [good_device]) sim_constants HostLittle
             [Some "a.json"%string; None; None; None]); [vm_compute; reflexivity | ].
    vm_compute. discriminate.
Defined.

(** X23: when [hal_malloc] returns a null pointer for the first configured
    board, [rtapi_app_main] passes it on: either [init_board] stores the
    connection through it, or it returns -1 before that and the error path
    hands the pointer to [close_board]. *)
Theorem app_main_no_memory A K host config_files :
  0 <= hal_init_result A ->
  env_hal_malloc A
    [App_print "loading litexCNC etherbone driver version 0.02";
     Call_hal_init "litexcnc_eth";
     Call_hal_malloc] = None ->
  configured (loaded_driver config_files) 0 <> None ->
  rtapi_app_main A K host (loaded_driver config_files) = None.
Proof.
  intros Hid Hnull Hconf. rewrite rtapi_app_main_loaded.
  destruct (Z.ltb_spec (hal_init_result A) 0) as [Hneg | _]; [lia | ].
  rewrite init_boards_step.
  destruct (decide (0 = 0 /\ Z.of_nat 0 < MAX_ETH_BOARDS)) as [_ | Hno];
    [ | exfalso; apply Hno; unfold MAX_ETH_BOARDS; lia].
  change (configured (entering_loop (hal_init_result A) config_files) 0)
    with (configured (loaded_driver config_files) 0).
  destruct (configured (loaded_driver config_files) 0) as [path | ] eqn:Hpath;
    [ | contradiction].
  unfold allocate_and_init.
  change (app_trace (app_emit Call_hal_malloc (entering_loop (hal_init_result A) config_files)))
    with [App_print "loading litexCNC etherbone driver version 0.02";
          Call_hal_init "litexcnc_eth"; Call_hal_malloc].
  rewrite Hnull.
  assert (Hclose : forall s,
    configured s 0 = Some path -> boards s !! 0%nat = Some None -> unload s = None).
  { intros s Hc Hb. apply unload_null. rewrite close_boards_step.
    destruct (decide (Z.of_nat 0 < MAX_ETH_BOARDS)) as [_ | Hno];
      [ | exfalso; apply Hno; unfold MAX_ETH_BOARDS; lia].
    rewrite Hc. unfold close_board_at. rewrite Hb. reflexivity. }
  unfold init_board_null, on_board. cbv zeta. run_calls.
  destruct (env_load_config (env_board A 0) _) as [config config_fingerprint].
  destruct (cJSON_IsObject _); cbn [negb].
  - destruct (if cJSON_IsString _ then _ else _) as [valuestring | ].
    + unfold eb_connect. run_calls. reflexivity.
    + unfold fail_without_disconnect. run_calls.
      destruct (decide (-1 < 0)) as [_ | Hno]; [ | lia].
      rewrite Hclose; [reflexivity | exact Hpath | reflexivity].
  - unfold fail_without_disconnect. run_calls.
    destruct (decide (-1 < 0)) as [_ | Hno]; [ | lia].
    rewrite Hclose; [reflexivity | exact Hpath | reflexivity].
Qed.

Lemma app_main_no_memory_witness :
  let A := {| env_hal_init := fun _ => 7;
              env_hal_malloc := fun _ => None;
              env_board := fun _ => good_device |} in
  rtapi_app_main A sim_constants HostLittle
    (loaded_driver [Some "a.json"%string; None; None; None]) = None.
Proof.
  apply (app_main_no_memory
           {| env_hal_init := fun _ => 7;
              env_hal_malloc := fun _ => None;
              env_board := fun _ => good_device |}
           sim_constants HostLittle [Some "a.json"%string; None; None; None]).
  - vm_compute. discriminate.
  - reflexivity.
  - vm_compute. discriminate.
Defined.

(** X24: with a board behind the pointer of every configured board,
    [rtapi_app_exit] disconnects them in order, frees the entries of both
    dictionaries, calls [hal_exit] with [comp_id] and prints its message,
    and calls nothing else; each board is left without a connection, its
    fpga struct and its read-request buffer as they were. *)
Theorem app_exit_closes_boards s :
  let n := configured_boards s in
  (forall i, (i < n)%nat -> exists b, boards s !! i = Some (Some b)) ->
  exists s',
    rtapi_app_exit s = Some s' /\
    app_trace s' =
      app_trace s ++ closing 0 n ++
      map Call_rtapi_kfree (map fst (board_num s) ++ map fst (ifnames s)) ++
      [Call_hal_exit (app_comp_id s); App_print "LitexCNC etherbone driver unloaded "] /\
    board_num s' = [] /\
    ifnames s' = [] /\
    (forall i, (i < n)%nat ->
       exists b b',
         boards s !! i = Some (Some b) /\
         boards s' !! i = Some (Some b') /\
         connection b' = None /\
         fpga b' = fpga b /\
         read_request_buffer b' = read_request_buffer b).
Proof.
  intros n Hboards.
  destruct (close_boards_all 4 0 s eq_refl)
    as (s1 & Hclose & Hsame & Hcount & Htrace & Hin & Hout).
  { intros j Hj. apply Hboards. exact (proj2 Hj). }
  unfold rtapi_app_exit. rewrite (unload_closed s s1 Hclose).
  destruct Hsame as (Hcf & Hid & Hnum & Hnames & Hlen).
  eexists. split; [reflexivity | ].
  cbn [app_emit app_trace board_num ifnames boards].
  rewrite Htrace, Hnum, Hnames, Hid, <- !app_assoc.
  split; [reflexivity | ].
  split; [reflexivity | ].
  split; [reflexivity | ].
  intros i Hi. apply Hin. split; [lia | exact Hi].
Qed.

Lemma app_exit_closes_boards_witness :
  let s := {| app_trace := [];
              config_file := [Some "a.json"%string; Some "b.json"%string; None; None];
              app_comp_id := 7;
              app_boards_count := 2;
              board_num := [];
              ifnames := [];
              boards := [Some (sim_board (sim_fpga 32 28)); Some (sim_board (sim_fpga 32 28));
                         None; None] |} in
  exists s',
    rtapi_app_exit s = Some s' /\
    app_trace s' =
      [On_board 0 Call_eb_disconnect; On_board 1 Call_eb_disconnect;
       Call_hal_exit 7; App_print "LitexCNC etherbone driver unloaded "] /\
    board_num s' = [] /\
    ifnames s' = [] /\
    (forall i, (i < 2)%nat ->
       exists b b',
         boards s !! i = Some (Some b) /\
         boards s' !! i = Some (Some b') /\
         connection b' = None /\
         fpga b' = fpga b /\
         read_request_buffer b' = read_request_buffer b).
Proof.
  apply (app_exit_closes_boards
           {| app_trace := [];
              config_file := [Some "a.json"%string; Some "b.json"%string; None; None];
              app_comp_id := 7;
              app_boards_count := 2;
              board_num := [];
              ifnames := [];
              boards := [Some (sim_board (sim_fpga 32 28)); Some (sim_board (sim_fpga 32 28));
                         None; None] |}).
  intros i Hi. destruct i as [ | [ | i]]; [eexists; reflexivity | eexists; reflexivity | ].
  vm_compute in Hi. lia.
Defined.

(** X25: [rtapi_app_exit] closes as many boards as are configured, not as
    many as were initialised: a configured board whose pointer is still null
    is handed to [close_board]. *)
Theorem app_exit_null_board s k :
  (k < configured_boards s)%nat ->
  boards s !! k = Some None ->
  (forall i, (i < k)%nat -> exists b, boards s !! i = Some (Some b)) ->
  rtapi_app_exit s = None.
Proof.
  intros Hk Hnull Hbefore. unfold rtapi_app_exit.
  rewrite unload_null; [reflexivity | ].
  apply (close_boards_null 4 0 s k eq_refl).
  - split; [lia | exact Hk].
  - exact Hnull.
  - intros j Hj. apply Hbefore. lia.
Qed.

Lemma app_exit_null_board_witness :
  rtapi_app_exit (loaded_driver [Some "a.json"%string; None; None; None]) = None.
Proof.
  apply (app_exit_null_board (loaded_driver [Some "a.json"%string; None; None; None]) 0).
  - vm_compute. lia.
  - reflexivity.
  - intros i Hi. lia.
Defined.

(** X26: loading and unloading compose: after an [rtapi_app_main] in which
    the call of [init_board] for each configured board returned 0,
    [rtapi_app_exit] disconnects exactly those boards, in order, calls
    [hal_exit] with the id that [hal_init] returned and prints its message; no
    board keeps a connection. *)
Theorem app_exit_after_main A K host config_files :
  let n := configured_boards (loaded_driver config_files) in
  0 <= hal_init_result A ->
  (forall i, (i < n)%nat -> board_status A K host config_files i = Some 0) ->
  exists s' s'',
    rtapi_app_main A K host (loaded_driver config_files) = Some (0, s') /\
    rtapi_app_exit s' = Some s'' /\
    app_trace s'' =
      app_trace s' ++ closing 0 n ++
      [Call_hal_exit (hal_init_result A);
       App_print "LitexCNC etherbone driver unloaded "] /\
    (forall i, (i < n)%nat ->
       exists b, boards s'' !! i = Some (Some b) /\ connection b = None).
Proof.
  intros n Hid Hinit.
  rewrite rtapi_app_main_loaded.
  destruct (Z.ltb_spec (hal_init_result A) 0) as [Hneg | _]; [lia | ].
  destruct (init_boards_all A K host config_files Hinit)
    as (s1 & Hrun & Hsame & Hcount & Htrace & Hin & Hout).
  rewrite Hrun.
  destruct Hsame as (Hcf & Hid1 & Hnum & Hnames & Hlen).
  set (s' := app_emit (Call_hal_ready (app_comp_id s1)) s1).
  assert (Hconf : configured_from 4 0 s' = n).
  { rewrite (configured_from_same 4 0 (loaded_driver config_files))
      by (subst s'; cbn [app_emit config_file]; rewrite Hcf; reflexivity).
    reflexivity. }
  destruct (close_boards_all 4 0 s' eq_refl)
    as (s2 & Hclose & Hsame2 & Hcount2 & Htrace2 & Hin2 & Hout2).
  { rewrite Hconf. intros j Hj.
    destruct (Hin j ltac:(lia)) as (b & Hb & _). exists b. exact Hb. }
  exists s'. eexists. split; [reflexivity | ].
  unfold rtapi_app_exit. rewrite (unload_closed s' s2 Hclose).
  split; [reflexivity | ].
  destruct Hsame2 as (Hcf2 & Hid2 & Hnum2 & Hnames2 & Hlen2).
  cbn [app_emit app_trace boards].
  rewrite Htrace2, Hnum2, Hnames2, Hid2, Hconf.
  subst s'. cbn [app_emit app_trace board_num ifnames app_comp_id].
  rewrite Hnum, Hnames, Hid1.
  cbn [entering_loop set_comp_id app_emit set_dicts board_num ifnames app_comp_id map app].
  rewrite <- !app_assoc.
  split; [reflexivity | ].
  intros i Hi. rewrite Hconf in Hin2.
  destruct (Hin2 i ltac:(lia)) as (b & b' & _ & Hb' & Hnone & _).
  exists b'. split; assumption.
Qed.

Lemma app_exit_after_main_witness :
  let A := sim_hal 7 [good_device; good_device] in
  let config_files := [Some "a.json"%string; Some "b.json"%string; None; None] in
  exists s' s'',
    rtapi_app_main A sim_constants HostLittle (loaded_driver config_files) = Some (0, s') /\
    rtapi_app_exit s' = Some s'' /\
    app_trace s'' =
      app_trace s' ++ closing 0 2 ++
      [Call_hal_exit 7; App_print "LitexCNC etherbone driver unloaded "] /\
    (forall i, (i < 2)%nat ->
       exists b, boards s'' !! i = Some (Some b) /\ connection b = None).
Proof.
  apply (app_exit_after_main (sim_hal 7 [good_device; good_device])
           sim_constants HostLittle
           [Some "a.json"%string; Some "b.json"%string; None; None]).
  - vm_compute. discriminate.
  - intros i Hi.
    destruct i as [ | [ | i]]; [vm_compute; reflexivity | vm_compute; reflexivity | ].
    vm_compute in Hi. lia.
Defined.
